(** * Proof-of-stake kernel validation (src/pos/kernel.cpp)

    A shallow embedding of [CheckStakeKernelHash], [CheckProofOfStake] and
    [CheckKernel], and the properties of the kernel protocol they decide.

    Integers of a fixed width are values of [Z] with the conversions written
    out; byte strings are lists of [byte]; the chain state, the script
    interpreter and the chain parameters are an interface ([Externals]) the
    validator is parameterised by. *)

From Stdlib Require Import ZArith QArith List String Bool Lia.
From coqutil Require Import Byte Word.LittleEndianList.
Import ListNotations.
Local Open Scope list_scope.
Local Open Scope Z_scope.

(** ** Fixed-width integers *)

Module Int.

(** Conversion to [uint32_t], [uint64_t] and to the 256-bit register of
    [arith_uint256]: reduction modulo the width. *)
Definition to_uint32 (x : Z) : Z := x mod 2 ^ 32.
Definition to_uint64 (x : Z) : Z := x mod 2 ^ 64.
Definition to_uint256 (x : Z) : Z := x mod 2 ^ 256.

Definition INT64_MIN : Z := - 2 ^ 63.
Definition INT64_MAX : Z := 2 ^ 63 - 1.

Definition in_int64 (x : Z) : bool := (INT64_MIN <=? x) && (x <=? INT64_MAX).

(** [a + b] on [int64_t] (a [CAmount]).  Signed overflow is undefined in
    C++: the sum is defined only when it fits. *)
Definition add_int64 (a b : Z) : option Z :=
  if in_int64 (a + b) then Some (a + b) else None.

End Int.
Import Int.

(** ** 256-bit unsigned arithmetic and the compact target encoding *)

Module Arith256.

(** Modelled from the spec: the 256-bit unsigned integers of
    arith_uint256.h (not among the sources), as values of [Z] below [2^256]
    with wrap-around.  [arith_uint256(uint64_t b)]: the low 64 bits hold
    [b]. *)
Definition of_uint64 (b : Z) : Z := to_uint256 (to_uint64 b).

(** [a *= b] on [arith_uint256]: the product in a 256-bit register. *)
Definition mul (a b : Z) : Z := to_uint256 (a * b).

(** [a <<= n] on [arith_uint256]. *)
Definition shl (a n : Z) : Z := to_uint256 (Z.shiftl a n).

(** Modelled from the spec: [arith_uint256::SetCompact] (arith_uint256.cpp
    is not among the sources), the Bitcoin-style compact encoding of a
    256-bit target.  The high byte is the base-256 exponent, the low 23
    bits are the mantissa and bit 23 is the sign.  The result is the
    target with the [fNegative] and [fOverflow] flags. *)
Definition SetCompact (nCompact : Z) : Z * bool * bool :=
  let nSize := Z.shiftr nCompact 24 in
  let nWord := Z.land nCompact 0x007fffff in
  let nWord' := if nSize <=? 3 then Z.shiftr nWord (8 * (3 - nSize)) else nWord in
  let target := if nSize <=? 3 then nWord' else shl nWord (8 * (nSize - 3)) in
  let fNegative := negb (nWord' =? 0) && negb (Z.land nCompact 0x00800000 =? 0) in
  let fOverflow := negb (nWord' =? 0) &&
                   ((nSize >? 34) || ((nWord' >? 0xff) && (nSize >? 33))
                                  || ((nWord' >? 0xffff) && (nSize >? 32))) in
  (target, fNegative, fOverflow).

End Arith256.

(** The target a compact value decodes to, and whether the kernel check
    takes it: neither negative nor overflowing nor zero (line 141). *)
Definition CompactTarget (nBits : Z) : Z := fst (fst (Arith256.SetCompact nBits)).

Definition CompactValid (nBits : Z) : bool :=
  let '(bnTarget, fNegative, fOverflow) := Arith256.SetCompact nBits in
  negb (fNegative || fOverflow || (bnTarget =? 0)).

(** ** Serialization *)

(** Modelled from the spec: the stream operators of serialize.h and
    uint256.h (not among the sources).  A [CDataStream] is the sequence of
    bytes written so far; a [uint32_t] is written as 4 and a [uint256] as 32
    little-endian bytes. *)
Definition CDataStream := list byte.

Definition ser_uint32 (ss : CDataStream) (x : Z) : CDataStream := ss ++ le_split 4 x.
Definition ser_uint256 (ss : CDataStream) (x : Z) : CDataStream := ss ++ le_split 32 x.

(** ** Data model *)

(** Modelled from the spec: the types of the data model are declared in
    headers that are not among the sources; their fields are the ones
    kernel.cpp reads.  A [uint256] is its value as a little-endian
    number. *)
Record COutPoint := { hash : Z; n : Z }.

Record CBlockIndex := {
  nHeight : Z;
  nTime : Z;
  bnStakeModifier : Z
}.

(** [pindex->GetBlockTime()]: the block's [uint32_t nTime] as an [int64_t]. *)
Definition GetBlockTime (pindex : CBlockIndex) : Z := nTime pindex.

Definition CScript := list byte.
Definition CScriptWitness := list (list byte).

Definition CScript_eqb (a b : CScript) : bool :=
  if list_eq_dec Byte.byte_eq_dec a b then true else false.

Inductive OutputTypes :=
| OUTPUT_NULL | OUTPUT_STANDARD | OUTPUT_CT | OUTPUT_RINGCT | OUTPUT_DATA.

Definition OutputTypes_eqb (a b : OutputTypes) : bool :=
  match a, b with
  | OUTPUT_NULL, OUTPUT_NULL | OUTPUT_STANDARD, OUTPUT_STANDARD
  | OUTPUT_CT, OUTPUT_CT | OUTPUT_RINGCT, OUTPUT_RINGCT
  | OUTPUT_DATA, OUTPUT_DATA => true
  | _, _ => false
  end.

Record CTxOut := { nValue : Z; scriptPubKey : CScript }.

(** A coin of the UTXO set.  [IsSpent] is what [coin.IsSpent()] answers. *)
Record Coin := {
  out : CTxOut;
  nType : OutputTypes;
  coin_nHeight : Z;
  IsSpent : bool
}.

Record SpentCoin := { coin : Coin; spent_height : Z }.

Record CTxIn := {
  prevout : COutPoint;
  scriptSig : CScript;
  scriptWitness : CScriptWitness
}.

(** An output of a transaction, seen through the methods the validator
    calls on it: its type tag, [GetValue()] and [GetPScriptPubKey()] (null
    for the types that carry no script). *)
Record CTxOutBase := {
  nVersion : OutputTypes;
  GetValue : Z;
  GetPScriptPubKey : option CScript
}.

Definition IsType (txout : CTxOutBase) (t : OutputTypes) : bool :=
  OutputTypes_eqb (nVersion txout) t.

(** A transaction; [IsCoinStake] is what [tx.IsCoinStake()] answers. *)
Record CTransaction := {
  IsCoinStake : bool;
  vin : list CTxIn;
  vpout : list CTxOutBase
}.

(** The chain state as the validator reads it: the live UTXO set
    ([CoinsTip().GetCoin]), the spent-coin archive of the block tree
    database and the active chain indexed by height. *)
Record CChainState := {
  GetCoin : COutPoint -> option Coin;
  ReadSpentCache : COutPoint -> option SpentCoin;
  m_chain : Z -> option CBlockIndex
}.

(** Modelled from the spec: the rejection categories of
    consensus/validation.h (not among the sources) and the DoS weight each
    one carries. *)
Inductive BlockValidationResult := DOS_1 | DOS_20 | DOS_100.

Definition dos_weight (r : BlockValidationResult) : Z :=
  match r with DOS_1 => 1 | DOS_20 => 20 | DOS_100 => 100 end.

(** Modelled from the spec: the validation state of
    consensus/validation.h, as the rejection recorded by [Invalid], if any,
    and the block flags. *)
Record BlockValidationState := {
  m_result : option (BlockValidationResult * string);
  nFlags : Z
}.

(** [state.Invalid(result, reason)]: records the rejection; the call
    evaluates to [false]. *)
Definition Invalid (state : BlockValidationState) (result : BlockValidationResult)
    (reject_reason : string) : BlockValidationState :=
  {| m_result := Some (result, reject_reason); nFlags := nFlags state |}.

(** [state.nFlags |= flag]. *)
Definition SetFlag (state : BlockValidationState) (flag : Z) : BlockValidationState :=
  {| m_result := m_result state; nFlags := Z.lor (nFlags state) flag |}.

(** What the validator consumes from the rest of the node: the chain hash,
    the script interpreter, the coinstake-op detector and the chain
    parameters and constants ([MAX_REORG_DEPTH] is not negative). *)
Class Externals := {
  Hash : CDataStream -> Z;
  VerifyScript : CScript -> CScript -> CScriptWitness ->
                 CTransaction -> Z -> list byte -> bool;
  HasIsCoinstakeOp : CScript -> bool;
  GetStakeMinConfirmations : Z;
  MAX_REORG_DEPTH : Z;
  BLOCK_STAKE_KERNEL_SPENT : Z
}.

(** ** The kernel check *)

(** What a call of [CheckStakeKernelHash] does: it logs an error and
    returns [false] before writing its out-parameters, or it writes
    [hashProofOfStake] and [targetProofOfStake] and returns [false] (the
    hash misses the target) or [true]. *)
Inductive KernelOutcome :=
| KernelError (msg : string)
| KernelMiss (hashProofOfStake targetProofOfStake : Z)
| KernelPass (hashProofOfStake targetProofOfStake : Z).

(** The [bool] the call returns. *)
Definition kernel_ok (o : KernelOutcome) : bool :=
  match o with KernelPass _ _ => true | _ => false end.

(** The out-parameters after the call, when they were written. *)
Definition kernel_proof (o : KernelOutcome) : option (Z * Z) :=
  match o with
  | KernelError _ => None
  | KernelMiss h t | KernelPass h t => Some (h, t)
  end.

Section Kernel.

Context {E : Externals}.

(** Lines 156-159: the stream hashed into the proof. *)
Definition KernelStream (bnStakeModifier nBlockFromTime : Z)
    (prevout : COutPoint) (nTime : Z) : CDataStream :=
  let ss := [] in
  let ss := ser_uint256 ss bnStakeModifier in
  let ss := ser_uint32 (ser_uint32 (ser_uint256 (ser_uint32 ss nBlockFromTime)
              (hash prevout)) (n prevout)) nTime in
  ss.

Definition KernelHash (bnStakeModifier nBlockFromTime : Z)
    (prevout : COutPoint) (nTime : Z) : Z :=
  Hash (KernelStream bnStakeModifier nBlockFromTime prevout nTime).

(** Lines 146-148: the target weighted by the value of the kernel. *)
Definition WeightedTarget (bnTarget prevOutAmount : Z) : Z :=
  let nValueIn := prevOutAmount in
  let bnWeight := Arith256.of_uint64 nValueIn in
  Arith256.mul bnTarget bnWeight.

(** [CheckStakeKernelHash] (lines 124-187).  [nBits], [nBlockFromTime]
    and [nTime] are [uint32_t]; the log lines of a passing or printed
    check are not part of the model. *)
Definition CheckStakeKernelHash (pindexPrev : CBlockIndex)
    (nBits nBlockFromTime prevOutAmount : Z) (prevout : COutPoint)
    (nTime : Z) : KernelOutcome :=
  if nTime <? nBlockFromTime then
    KernelError "CheckStakeKernelHash: nTime violation"
  else
    let '(bnTarget, fNegative, fOverflow) := Arith256.SetCompact nBits in
    if fNegative || fOverflow || (bnTarget =? 0) then
      KernelError "CheckStakeKernelHash: SetCompact failed."
    else
      let bnTarget := WeightedTarget bnTarget prevOutAmount in
      let targetProofOfStake := bnTarget in
      let hashProofOfStake :=
        KernelHash (bnStakeModifier pindexPrev) nBlockFromTime prevout nTime in
      if hashProofOfStake >? bnTarget then
        KernelMiss hashProofOfStake targetProofOfStake
      else
        KernelPass hashProofOfStake targetProofOfStake.

End Kernel.

(** ** The coinstake validator *)

(** What a call of [CheckProofOfStake] does: it returns [ret] and leaves the
    validation state and the out-parameters [hashProofOfStake] and
    [targetProofOfStake] ([None] while unwritten) as given, or it runs into
    the signed overflow of a [CAmount] sum, which C++ leaves undefined. *)
Inductive Result :=
| Returned (ret : bool) (state : BlockValidationState) (proof : option (Z * Z))
| Undefined.

(** The state of a loop that may return from the function. *)
Inductive Step (A : Type) :=
| Continue (a : A)
| Reject (state : BlockValidationState)
| Overflow.
Arguments Continue {A} a.
Arguments Reject {A} state.
Arguments Overflow {A}.

(** The call returned [false] with a rejection of DoS weight [w]. *)
Definition RejectsWithWeight (res : Result) (w : Z) : Prop :=
  exists state proof result reason,
    res = Returned false state proof /\
    m_result state = Some (result, reason) /\ dos_weight result = w.

(** The call returned [false] with the rejection [result], [reason]. *)
Definition RejectedAs (res : Result) (result : BlockValidationResult)
    (reason : string) : Prop :=
  exists state proof,
    res = Returned false state proof /\ m_result state = Some (result, reason).

(** [GetCoin(prevout, coin) && !coin.IsSpent()]: the coin of the live UTXO
    set, when it is there and unspent. *)
Definition LiveCoin (chain_state : CChainState) (prevout : COutPoint) : option Coin :=
  match GetCoin chain_state prevout with
  | Some coin => if IsSpent coin then None else Some coin
  | None => None
  end.

Section Validator.

Context {E : Externals}.

(** Lines 247-263: the kernel coin, from the UTXO set or else from the
    spent-coin archive, within the reorganisation bound.  The result is
    the state after a rejection (left) or the coin and the state to go on
    with (right). *)
Definition ResolveKernelCoin (fVerifyingDB : bool) (chain_state : CChainState)
    (state : BlockValidationState) (pindexPrev : CBlockIndex) (txin : CTxIn)
    : BlockValidationState + Coin * BlockValidationState :=
  match LiveCoin chain_state (prevout txin) with
  | Some coin => inr (coin, state)
  | None =>
      match ReadSpentCache chain_state (prevout txin) with
      | None => inl (Invalid state DOS_20 "prevout-not-found")
      | Some spent_coin =>
          if negb fVerifyingDB
             && (to_uint32 (nHeight pindexPrev) >? spent_height spent_coin)
             && (to_uint32 (nHeight pindexPrev - spent_height spent_coin)
                   >? MAX_REORG_DEPTH)
          then inl (Invalid state DOS_100 "invalid-prevout")
          else inr (coin spent_coin, SetFlag state BLOCK_STAKE_KERNEL_SPENT)
      end
  end.

(** Lines 312-320: the coin of an extra input, with the archive as
    fallback and no reorganisation bound. *)
Definition ResolveExtraCoin (chain_state : CChainState) (txin : CTxIn) : option Coin :=
  match LiveCoin chain_state (prevout txin) with
  | Some coin => Some coin
  | None =>
      match ReadSpentCache chain_state (prevout txin) with
      | None => None
      | Some spent_coin => Some (coin spent_coin)
      end
  end.

(** Lines 309-330: the loop over the inputs [k >= 1]. *)
Fixpoint SumExtraInputs (chain_state : CChainState) (state : BlockValidationState)
    (kernelPubKey : CScript) (extras : list CTxIn) (amount : Z) : Step Z :=
  match extras with
  | [] => Continue amount
  | txin :: rest =>
      match ResolveExtraCoin chain_state txin with
      | None => Reject (Invalid state DOS_20 "prevout-not-in-chain")
      | Some coin =>
          if negb (OutputTypes_eqb (nType coin) OUTPUT_STANDARD) then
            Reject (Invalid state DOS_100 "invalid-prevout")
          else if negb (CScript_eqb kernelPubKey (scriptPubKey (out coin))) then
            Reject (Invalid state DOS_100 "mixed-prevout-scripts")
          else
            match add_int64 amount (nValue (out coin)) with
            | None => Overflow
            | Some amount => SumExtraInputs chain_state state kernelPubKey rest amount
            end
      end
  end.

(** Lines 332-346: the loop over the outputs. *)
Fixpoint SumOutputs (state : BlockValidationState) (kernelPubKey : CScript)
    (outs : list CTxOutBase) (nVerify : Z) : Step Z :=
  match outs with
  | [] => Continue nVerify
  | txout :: rest =>
      if negb (IsType txout OUTPUT_STANDARD) then
        if negb (IsType txout OUTPUT_DATA) then
          Reject (Invalid state DOS_100 "bad-output-type")
        else SumOutputs state kernelPubKey rest nVerify
      else
        match GetPScriptPubKey txout with
        | Some pOutPubKey =>
            if CScript_eqb pOutPubKey kernelPubKey then
              match add_int64 nVerify (GetValue txout) with
              | None => Overflow
              | Some nVerify => SumOutputs state kernelPubKey rest nVerify
              end
            else SumOutputs state kernelPubKey rest nVerify
        | None => SumOutputs state kernelPubKey rest nVerify
        end
  end.

(** Lines 308-351: the body of [if (HasIsCoinstakeOp(kernelPubKey))]. *)
Definition CoinstakeOpSplit (chain_state : CChainState) (state : BlockValidationState)
    (kernelPubKey : CScript) (amount : Z) (tx : CTransaction)
    (proof : option (Z * Z)) : Result :=
  match SumExtraInputs chain_state state kernelPubKey (tl (vin tx)) amount with
  | Reject state => Returned false state proof
  | Overflow => Undefined
  | Continue amount =>
      match SumOutputs state kernelPubKey (vpout tx) 0 with
      | Reject state => Returned false state proof
      | Overflow => Undefined
      | Continue nVerify =>
          if nVerify <? amount then
            Returned false (Invalid state DOS_100 "verify-amount-script-failed") proof
          else Returned true state proof
      end
  end.

(** Lines 264-354: the checks on the resolved kernel coin.  [nDepth] is a
    difference of block heights, which are below [2^31]; [nTime] is an
    [int64_t] converted to the [uint32_t] parameter of the kernel check. *)
Definition CheckKernelCoin (chain_state : CChainState) (state : BlockValidationState)
    (pindexPrev : CBlockIndex) (tx : CTransaction) (txin : CTxIn) (coin : Coin)
    (nTime nBits : Z) : Result :=
  if negb (OutputTypes_eqb (nType coin) OUTPUT_STANDARD) then
    Returned false (Invalid state DOS_100 "invalid-prevout") None
  else
    match m_chain chain_state (coin_nHeight coin) with
    | None => Returned false (Invalid state DOS_100 "invalid-prevout") None
    | Some pindex =>
        let nDepth := nHeight pindexPrev - coin_nHeight coin in
        let nRequiredDepth :=
          Z.min (GetStakeMinConfirmations - 1) (Z.quot (nHeight pindexPrev) 2) in
        if nRequiredDepth >? nDepth then
          Returned false (Invalid state DOS_100 "invalid-stake-depth") None
        else
          let kernelPubKey := scriptPubKey (out coin) in
          let amount := nValue (out coin) in
          let nBlockFromTime := to_uint32 (GetBlockTime pindex) in
          let vchAmount := le_split 8 amount in
          if negb (VerifyScript (scriptSig txin) kernelPubKey (scriptWitness txin)
                     tx 0 vchAmount) then
            Returned false (Invalid state DOS_100 "verify-cs-script-failed") None
          else
            let kernel := CheckStakeKernelHash pindexPrev nBits nBlockFromTime
                            amount (prevout txin) (to_uint32 nTime) in
            if negb (kernel_ok kernel) then
              Returned false (Invalid state DOS_1 "check-kernel-failed")
                       (kernel_proof kernel)
            else if HasIsCoinstakeOp kernelPubKey then
              CoinstakeOpSplit chain_state state kernelPubKey amount tx
                               (kernel_proof kernel)
            else Returned true state (kernel_proof kernel)
    end.

(** [CheckProofOfStake] (lines 224-355).  The first match is the test
    [!tx.IsCoinStake() || tx.vin.size() < 1] together with the access to
    [tx.vin[0]]. *)
Definition CheckProofOfStake (fVerifyingDB : bool) (chain_state : CChainState)
    (state : BlockValidationState) (pindexPrev : CBlockIndex)
    (tx : CTransaction) (nTime nBits : Z) : Result :=
  match IsCoinStake tx, vin tx with
  | true, txin :: _ =>
      match ResolveKernelCoin fVerifyingDB chain_state state pindexPrev txin with
      | inl state => Returned false state None
      | inr (coin, state) =>
          CheckKernelCoin chain_state state pindexPrev tx txin coin nTime nBits
      end
  | _, _ => Returned false (Invalid state DOS_100 "malformed-txn") None
  end.

(** ** The staker's probe *)

(** [CheckKernel] (lines 365-401).  [pBlockTime] is [None] for a null
    pointer and [Some v] for a pointer to an [int64_t] holding [v].  The
    call returns its [bool] and what [pBlockTime] points to afterwards,
    or it is [None]: the null pointer was dereferenced. *)
Definition CheckKernel (chain_state : CChainState) (pindexPrev : CBlockIndex)
    (nBits nTime : Z) (prevout : COutPoint) (pBlockTime : option Z)
    : option (bool * option Z) :=
  match GetCoin chain_state prevout with
  | None => Some (false, pBlockTime)
  | Some coin =>
      if negb (OutputTypes_eqb (nType coin) OUTPUT_STANDARD) then
        Some (false, pBlockTime)
      else if IsSpent coin then Some (false, pBlockTime)
      else
        match m_chain chain_state (coin_nHeight coin) with
        | None => Some (false, pBlockTime)
        | Some pindex =>
            let nRequiredDepth :=
              Z.min (GetStakeMinConfirmations - 1) (Z.quot (nHeight pindexPrev) 2) in
            let nDepth := nHeight pindexPrev - coin_nHeight coin in
            if nRequiredDepth >? nDepth then Some (false, pBlockTime)
            else
              let pBlockTime :=
                match pBlockTime with
                | Some _ => Some (GetBlockTime pindex)
                | None => None
                end in
              let amount := nValue (out coin) in
              match pBlockTime with
              | None => None
              | Some nBlockFromTime =>
                  Some (kernel_ok (CheckStakeKernelHash pindexPrev nBits
                                     (to_uint32 nBlockFromTime) amount prevout
                                     (to_uint32 nTime)),
                        pBlockTime)
              end
        end
  end.

End Validator.

(** ** The stages of the validator *)

Section Stages.

Context {E : Externals}.

(** The depth a kernel coin must have below [pindexPrev] (lines 276
    and 388). *)
Definition RequiredDepth (pindexPrev : CBlockIndex) : Z :=
  Z.min (GetStakeMinConfirmations - 1) (Z.quot (nHeight pindexPrev) 2).

(** The coinstake is well-formed, its kernel coin [coin] is resolved (with
    [state1] the state after the resolution), is a standard output, and the
    block [pindex] at its height is on the active chain: the validator is
    at its depth check. *)
Definition ReachesDepthCheck (fVerifyingDB : bool) (chain_state : CChainState)
    (state : BlockValidationState) (pindexPrev : CBlockIndex) (tx : CTransaction)
    (txin : CTxIn) (coin : Coin) (state1 : BlockValidationState)
    (pindex : CBlockIndex) : Prop :=
  IsCoinStake tx = true /\
  hd_error (vin tx) = Some txin /\
  ResolveKernelCoin fVerifyingDB chain_state state pindexPrev txin = inr (coin, state1) /\
  nType coin = OUTPUT_STANDARD /\
  m_chain chain_state (coin_nHeight coin) = Some pindex.

(** The structural checks, the depth check and the script check of input 0
    pass: the validator is at the kernel check. *)
Definition ReachesKernelCheck (fVerifyingDB : bool) (chain_state : CChainState)
    (state : BlockValidationState) (pindexPrev : CBlockIndex) (tx : CTransaction)
    (txin : CTxIn) (coin : Coin) (state1 : BlockValidationState)
    (pindex : CBlockIndex) : Prop :=
  ReachesDepthCheck fVerifyingDB chain_state state pindexPrev tx txin coin state1 pindex /\
  RequiredDepth pindexPrev <= nHeight pindexPrev - coin_nHeight coin /\
  VerifyScript (scriptSig txin) (scriptPubKey (out coin)) (scriptWitness txin)
               tx 0 (le_split 8 (nValue (out coin))) = true.

(** The kernel check as [CheckProofOfStake] calls it (lines 297-298). *)
Definition KernelCheck (pindexPrev : CBlockIndex) (txin : CTxIn) (coin : Coin)
    (pindex : CBlockIndex) (nTime nBits : Z) : KernelOutcome :=
  CheckStakeKernelHash pindexPrev nBits (to_uint32 (GetBlockTime pindex))
    (nValue (out coin)) (prevout txin) (to_uint32 nTime).

(** The validator after a passing kernel check (lines 307-354). *)
Definition AfterKernelCheck (chain_state : CChainState) (state1 : BlockValidationState)
    (tx : CTransaction) (coin : Coin) (proof : option (Z * Z)) : Result :=
  if HasIsCoinstakeOp (scriptPubKey (out coin)) then
    CoinstakeOpSplit chain_state state1 (scriptPubKey (out coin)) (nValue (out coin))
                     tx proof
  else Returned true state1 proof.

(** The validator after a passing depth check (lines 282-354). *)
Definition AfterDepthCheck (chain_state : CChainState) (state1 : BlockValidationState)
    (pindexPrev : CBlockIndex) (tx : CTransaction) (txin : CTxIn) (coin : Coin)
    (pindex : CBlockIndex) (nTime nBits : Z) : Result :=
  if negb (VerifyScript (scriptSig txin) (scriptPubKey (out coin))
             (scriptWitness txin) tx 0 (le_split 8 (nValue (out coin)))) then
    Returned false (Invalid state1 DOS_100 "verify-cs-script-failed") None
  else
    let kernel := KernelCheck pindexPrev txin coin pindex nTime nBits in
    if negb (kernel_ok kernel) then
      Returned false (Invalid state1 DOS_1 "check-kernel-failed") (kernel_proof kernel)
    else AfterKernelCheck chain_state state1 tx coin (kernel_proof kernel).

(** The spent kernel is too old to be taken from the archive (lines
    255-257), over the mathematical heights. *)
Definition BeyondReorgBound (fVerifyingDB : bool) (pindexPrev : CBlockIndex)
    (spent_coin : SpentCoin) : Prop :=
  fVerifyingDB = false /\
  nHeight pindexPrev > spent_height spent_coin /\
  nHeight pindexPrev - spent_height spent_coin > MAX_REORG_DEPTH.

(** An extra input resolves to a standard coin with the script of the
    kernel. *)
Definition ExtraInputOk (chain_state : CChainState) (kernelPubKey : CScript)
    (txin : CTxIn) : Prop :=
  exists coin,
    ResolveExtraCoin chain_state txin = Some coin /\
    nType coin = OUTPUT_STANDARD /\
    scriptPubKey (out coin) = kernelPubKey.

(** The value of the coin an input resolves to. *)
Definition InputValue (chain_state : CChainState) (txin : CTxIn) : Z :=
  match ResolveExtraCoin chain_state txin with
  | Some coin => nValue (out coin)
  | None => 0
  end.

End Stages.

(** An output is standard or data. *)
Definition OutputOk (txout : CTxOutBase) : Prop :=
  nVersion txout = OUTPUT_STANDARD \/ nVersion txout = OUTPUT_DATA.

(** What an output pays to [kernelPubKey]: its value, if it is a standard
    output with this script. *)
Definition PaidToScript (kernelPubKey : CScript) (txout : CTxOutBase) : Z :=
  match nVersion txout, GetPScriptPubKey txout with
  | OUTPUT_STANDARD, Some script =>
      if CScript_eqb script kernelPubKey then GetValue txout else 0
  | _, _ => 0
  end.

Definition Zsum (values : list Z) : Z := fold_right Z.add 0 values.

(** Adding [values] to [start] one after the other stays within
    [int64_t]. *)
Fixpoint SumsFit (start : Z) (values : list Z) : Prop :=
  match values with
  | [] => True
  | v :: rest =>
      INT64_MIN <= start + v <= INT64_MAX /\ SumsFit (start + v) rest
  end.

(** ** How the validator can return *)

(** The rejections of the coinstake-op split, and those of the validator
    after its depth check. *)
Definition split_rejections : list (BlockValidationResult * string) :=
  [ (DOS_20, "prevout-not-in-chain"%string); (DOS_100, "invalid-prevout"%string);
    (DOS_100, "mixed-prevout-scripts"%string); (DOS_100, "bad-output-type"%string);
    (DOS_100, "verify-amount-script-failed"%string) ].

Definition late_rejections : list (BlockValidationResult * string) :=
  (DOS_100, "verify-cs-script-failed"%string) :: (DOS_1, "check-kernel-failed"%string)
    :: split_rejections.

(** A call that returns leaves the state as it was, or with one of the
    rejections of [among] recorded in it. *)
Definition ReturnsAmong (among : list (BlockValidationResult * string))
    (state : BlockValidationState) (ret : bool) (state' : BlockValidationState) : Prop :=
  (ret = true /\ state' = state) \/
  (ret = false /\ exists result reason,
      state' = Invalid state result reason /\ In (result, reason) among).

(** ** The kernel preimage in the words of the specification *)

(** [len] little-endian bytes of [v]: byte [i] holds the bits [8i .. 8i+7]. *)
Definition le_bytes (len : nat) (v : Z) : list byte :=
  map (fun i => byte.of_Z (Z.shiftr v (8 * Z.of_nat i))) (seq 0 len).

Definition spec_preimage (modifier prev_block_time txid vout_n block_time : Z)
    : list byte :=
  le_bytes 32 modifier ++ le_bytes 4 prev_block_time ++ le_bytes 32 txid
    ++ le_bytes 4 vout_n ++ le_bytes 4 block_time.

(** ** The path of a call through the validator *)

(** Every rejection [CheckProofOfStake] can record. *)
Definition all_rejections : list (BlockValidationResult * string) :=
  (DOS_100, "malformed-txn"%string) :: (DOS_20, "prevout-not-found"%string)
    :: (DOS_100, "invalid-prevout"%string) :: (DOS_100, "invalid-stake-depth"%string)
    :: late_rejections.

Section Path.

Context {E : Externals}.

Variables (fVerifyingDB : bool) (chain_state : CChainState)
  (state : BlockValidationState) (pindexPrev : CBlockIndex) (tx : CTransaction)
  (nTime nBits : Z).

(** Where a call of [CheckProofOfStake] stops and what it returns there:
    one case for each check, in the order of the checks, and the last for a
    call that has passed the kernel check. *)
Inductive CheckPath : Result -> Prop :=
| PathMalformed :
    IsCoinStake tx = false \/ vin tx = [] ->
    CheckPath (Returned false (Invalid state DOS_100 "malformed-txn") None)
| PathUnresolved txin state' :
    IsCoinStake tx = true ->
    hd_error (vin tx) = Some txin ->
    ResolveKernelCoin fVerifyingDB chain_state state pindexPrev txin = inl state' ->
    CheckPath (Returned false state' None)
| PathNotStandard txin coin state1 :
    IsCoinStake tx = true ->
    hd_error (vin tx) = Some txin ->
    ResolveKernelCoin fVerifyingDB chain_state state pindexPrev txin
    = inr (coin, state1) ->
    nType coin <> OUTPUT_STANDARD ->
    CheckPath (Returned false (Invalid state1 DOS_100 "invalid-prevout") None)
| PathOffChain txin coin state1 :
    IsCoinStake tx = true ->
    hd_error (vin tx) = Some txin ->
    ResolveKernelCoin fVerifyingDB chain_state state pindexPrev txin
    = inr (coin, state1) ->
    nType coin = OUTPUT_STANDARD ->
    m_chain chain_state (coin_nHeight coin) = None ->
    CheckPath (Returned false (Invalid state1 DOS_100 "invalid-prevout") None)
| PathShallow txin coin state1 pindex :
    ReachesDepthCheck fVerifyingDB chain_state state pindexPrev tx txin coin state1
      pindex ->
    nHeight pindexPrev - coin_nHeight coin < RequiredDepth pindexPrev ->
    CheckPath (Returned false (Invalid state1 DOS_100 "invalid-stake-depth") None)
| PathScript txin coin state1 pindex :
    ReachesDepthCheck fVerifyingDB chain_state state pindexPrev tx txin coin state1
      pindex ->
    RequiredDepth pindexPrev <= nHeight pindexPrev - coin_nHeight coin ->
    VerifyScript (scriptSig txin) (scriptPubKey (out coin)) (scriptWitness txin)
                 tx 0 (le_split 8 (nValue (out coin))) = false ->
    CheckPath (Returned false (Invalid state1 DOS_100 "verify-cs-script-failed") None)
| PathKernel txin coin state1 pindex :
    ReachesKernelCheck fVerifyingDB chain_state state pindexPrev tx txin coin state1
      pindex ->
    kernel_ok (KernelCheck pindexPrev txin coin pindex nTime nBits) = false ->
    CheckPath (Returned false (Invalid state1 DOS_1 "check-kernel-failed")
                 (kernel_proof (KernelCheck pindexPrev txin coin pindex nTime nBits)))
| PathPassed txin coin state1 pindex :
    ReachesKernelCheck fVerifyingDB chain_state state pindexPrev tx txin coin state1
      pindex ->
    kernel_ok (KernelCheck pindexPrev txin coin pindex nTime nBits) = true ->
    CheckPath (AfterKernelCheck chain_state state1 tx coin
                 (kernel_proof (KernelCheck pindexPrev txin coin pindex nTime nBits))).

End Path.

(** The coin and its block that the staker's probe takes to the kernel
    check (lines 369-393): an unspent standard coin of the UTXO set, on the
    active chain and deep enough. *)
Definition ProbeTarget {E : Externals} (chain_state : CChainState)
    (pindexPrev : CBlockIndex) (prevout : COutPoint) : option (Coin * CBlockIndex) :=
  match GetCoin chain_state prevout with
  | None => None
  | Some coin =>
      if OutputTypes_eqb (nType coin) OUTPUT_STANDARD && negb (IsSpent coin) then
        match m_chain chain_state (coin_nHeight coin) with
        | None => None
        | Some pindex =>
            if RequiredDepth pindexPrev >? nHeight pindexPrev - coin_nHeight coin
            then None else Some (coin, pindex)
        end
      else None
  end.

(** ** The stake modifier *)

Section StakeModifier.

Context {E : Externals}.

(** Lines 96-97: the stream hashed into the stake modifier. *)
Definition ModifierStream (kernel bnStakeModifier : Z) : CDataStream :=
  let ss := [] in
  ser_uint256 (ser_uint256 ss kernel) bnStakeModifier.

(** [ComputeStakeModifierV2] (lines 91-99).  [pindexPrev] is [None] for the
    null pointer; [uint256()] is the zero word. *)
Definition ComputeStakeModifierV2 (pindexPrev : option CBlockIndex) (kernel : Z) : Z :=
  match pindexPrev with
  | None => 0
  | Some pindexPrev => Hash (ModifierStream kernel (bnStakeModifier pindexPrev))
  end.

End StakeModifier.

(** ** The kernel information and the timestamp grid *)

(** Modelled from the spec: the header of the block that holds the kernel,
    as [GetKernelInfo] reads it ([blockKernel.nTime],
    [blockKernel.GetHash()]). *)
Record CBlock := { CBlock_nTime : Z; CBlock_GetHash : Z }.

(** What else kernel.cpp asks the node for: [node::GetTransaction], which
    finds a transaction and the block that holds it by the transaction's
    hash, and the timestamp mask of the chain parameters, a bit mask that is
    not negative. *)
Class Lookups := {
  GetTransaction : Z -> option (CTransaction * CBlock);
  GetStakeTimestampMask : Z -> Z
}.

(** The out-parameters of [GetKernelInfo]. *)
Record KernelInfo := {
  info_hash : Z;
  info_value : Z;
  info_script : CScript;
  info_blockhash : Z
}.

Section KernelInfoAndGrid.

Context {E : Externals} {L : Lookups}.

(** [GetKernelInfo] (lines 189-221).  [pprev] is [blockindex->pprev],
    [None] for the null pointer.  The call returns [false] with its
    out-parameters untouched ([Some None]) or [true] with them written
    ([Some (Some info)]); it is [None] where C++ leaves it undefined: the
    script pointer of the output is null, or the index [prevout.n] is not
    that of a [uint32_t]. *)
Definition GetKernelInfo (pprev : option CBlockIndex) (blockindex : CBlockIndex)
    (tx : CTransaction) : option (option KernelInfo) :=
  match pprev with
  | None => Some None
  | Some pprev =>
      match vin tx with
      | [] => Some None
      | txin :: _ =>
          let prevout := prevout txin in
          match GetTransaction (hash prevout) with
          | None => Some None
          | Some (txPrev, blockKernel) =>
              if n prevout >=? Z.of_nat (List.length (vpout txPrev)) then Some None
              else
                match nth_error (vpout txPrev) (Z.to_nat (n prevout)) with
                | None => None
                | Some outPrev =>
                    if negb (IsType outPrev OUTPUT_STANDARD) then Some None
                    else
                      match GetPScriptPubKey outPrev with
                      | None => None
                      | Some script =>
                          let value := GetValue outPrev in
                          let blockhash := CBlock_GetHash blockKernel in
                          let nBlockFromTime := CBlock_nTime blockKernel in
                          let nTime := nTime blockindex in
                          let ss := [] in
                          let ss := ser_uint256 ss (bnStakeModifier pprev) in
                          let ss := ser_uint32 (ser_uint32 (ser_uint256
                                      (ser_uint32 ss nBlockFromTime)
                                      (hash prevout)) (n prevout)) nTime in
                          Some (Some {| info_hash := Hash ss; info_value := value;
                                        info_script := script;
                                        info_blockhash := blockhash |})
                      end
                end
          end
      end
  end.

(** [CheckCoinStakeTimestamp] (lines 359-362); [nTimeBlock] is an
    [int64_t]. *)
Definition CheckCoinStakeTimestamp (nHeight nTimeBlock : Z) : bool :=
  Z.land nTimeBlock (GetStakeTimestampMask nHeight) =? 0.

End KernelInfoAndGrid.

(** ** The estimate of the network's stake kernels per second *)


(** The arithmetic of [double]: the conversion of an integer and the three
    operations the estimate uses.  The functions below are the code for
    whatever these operations compute. *)
Class FloatOps := {
  double : Type;
  d_of_Z : Z -> double;
  d_add : double -> double -> double;
  d_mul : double -> double -> double;
  d_div : double -> double -> double
}.

Module Estimator.

(** Modelled from the spec: a block index with the fields the estimate
    reads beside those of [CBlockIndex].  A block index with its chain of
    [pprev] pointers is the list of the blocks from it back to the first
    block. *)
Record PoSBlockIndex := {
  base : CBlockIndex;
  nBits : Z;
  IsProofOfStake : bool
}.


Section WithFloat.

Context {L : Lookups} {F : FloatOps}.

(** Lines 35-39 and 40-44: the two loops of [GetDifficulty], run for at
    most [fuel] rounds. *)
Fixpoint ScaleUp (fuel : nat) (nShift : Z) (dDiff : double) : option (Z * double) :=
  match fuel with
  | O => None
  | S fuel =>
      if nShift <? 29 then ScaleUp fuel (nShift + 1) (d_mul dDiff (d_of_Z 256))
      else Some (nShift, dDiff)
  end.

Fixpoint ScaleDown (fuel : nat) (nShift : Z) (dDiff : double) : option (Z * double) :=
  match fuel with
  | O => None
  | S fuel =>
      if nShift >? 29 then ScaleDown fuel (nShift - 1) (d_div dDiff (d_of_Z 256))
      else Some (nShift, dDiff)
  end.

(** [GetDifficulty] (lines 27-47), for a block index that is not null. *)
Definition GetDifficulty (fuel : nat) (blockindex : PoSBlockIndex) : option double :=
  let nShift := Z.land (Z.shiftr (nBits blockindex) 24) 0xff in
  let dDiff := d_div (d_of_Z 0x0000ffff)
                     (d_of_Z (Z.land (nBits blockindex) 0x00ffffff)) in
  match ScaleUp fuel nShift dDiff with
  | None => None
  | Some (nShift, dDiff) =>
      match ScaleDown fuel nShift dDiff with
      | None => None
      | Some (_, dDiff) => Some dDiff
      end
  end.







(** The difficulty in closed form: the quotient of [0xffff] and the
    mantissa, times 256 for every step the exponent is below 29 or divided
    by 256 for every step it is above. *)
Definition Difficulty (blockindex : PoSBlockIndex) : double :=
  let nShift := Z.land (Z.shiftr (nBits blockindex) 24) 0xff in
  let dDiff := d_div (d_of_Z 0x0000ffff)
                     (d_of_Z (Z.land (nBits blockindex) 0x00ffffff)) in
  if nShift <? 29 then
    Nat.iter (Z.to_nat (29 - nShift)) (fun d => d_mul d (d_of_Z 256)) dDiff
  else
    Nat.iter (Z.to_nat (nShift - 29)) (fun d => d_div d (d_of_Z 256)) dDiff.


End WithFloat.

End Estimator.

(** ** A small chain to evaluate the validator on *)

Module Sample.

(** A stand-in for the chain hash: the first 32 bytes of the stream read as
    a little-endian number, which for a kernel stream is the stake
    modifier. *)
Definition hash_stub (ss : CDataStream) : Z := le_combine (firstn 32 ss).

Definition plain_script : CScript := [Byte.x76; Byte.xa9].
Definition coinstake_script : CScript := [Byte.xb8; Byte.x63].
Definition other_script : CScript := [Byte.x51].

Definition externals : Externals := {|
  Hash := hash_stub;
  VerifyScript := fun scriptSig _ _ _ _ _ =>
                    match scriptSig with [] => true | _ => false end;
  HasIsCoinstakeOp := fun script =>
                        match script with b :: _ => Byte.eqb b Byte.xb8 | [] => false end;
  GetStakeMinConfirmations := 225;
  MAX_REORG_DEPTH := 100;
  BLOCK_STAKE_KERNEL_SPENT := 16
|}.

Definition outpoint_eqb (a b : COutPoint) : bool :=
  (hash a =? hash b) && (n a =? n b).

Definition std_coin (value : Z) (script : CScript) (height : Z) : Coin :=
  {| out := {| nValue := value; scriptPubKey := script |};
     nType := OUTPUT_STANDARD; coin_nHeight := height; IsSpent := false |}.

Definition op_plain : COutPoint := {| hash := 0x1122; n := 0 |}.
Definition op_stake : COutPoint := {| hash := 0x3344; n := 0 |}.
Definition op_extra : COutPoint := {| hash := 0x3344; n := 1 |}.
Definition op_mixed : COutPoint := {| hash := 0x5566; n := 0 |}.
Definition op_recent : COutPoint := {| hash := 0x7788; n := 0 |}.
Definition op_old : COutPoint := {| hash := 0x99aa; n := 0 |}.
Definition op_data : COutPoint := {| hash := 0xbbcc; n := 0 |}.
Definition op_young : COutPoint := {| hash := 0xddee; n := 0 |}.
Definition op_unknown : COutPoint := {| hash := 0xffff; n := 7 |}.

Definition coin_plain : Coin := std_coin 1000000000 plain_script 700.
Definition coin_stake : Coin := std_coin 100 coinstake_script 700.
Definition coin_extra : Coin := std_coin 50 coinstake_script 650.
Definition coin_mixed : Coin := std_coin 50 other_script 650.
Definition coin_young : Coin := std_coin 1000000000 plain_script 999.
Definition coin_data : Coin :=
  {| out := {| nValue := 0; scriptPubKey := [] |};
     nType := OUTPUT_DATA; coin_nHeight := 700; IsSpent := false |}.

Definition block_at (height : Z) : CBlockIndex :=
  {| nHeight := height; nTime := 1600000000; bnStakeModifier := 0 |}.

(** The tip is at height 1000; [op_recent] was spent at height 995,
    [op_old] at height 800 and [op_data] at height 995. *)
Definition chain_state : CChainState := {|
  GetCoin := fun op =>
    if outpoint_eqb op op_plain then Some coin_plain
    else if outpoint_eqb op op_stake then Some coin_stake
    else if outpoint_eqb op op_extra then Some coin_extra
    else if outpoint_eqb op op_mixed then Some coin_mixed
    else if outpoint_eqb op op_young then Some coin_young
    else None;
  ReadSpentCache := fun op =>
    if outpoint_eqb op op_recent then Some {| coin := coin_plain; spent_height := 995 |}
    else if outpoint_eqb op op_old then Some {| coin := coin_plain; spent_height := 800 |}
    else if outpoint_eqb op op_data then Some {| coin := coin_data; spent_height := 995 |}
    else None;
  m_chain := fun h =>
    if (0 <=? h) && (h <=? 1000) then Some (block_at h) else None
|}.

Definition tip (modifier : Z) : CBlockIndex :=
  {| nHeight := 1000; nTime := 1600000240; bnStakeModifier := modifier |}.

Definition state0 : BlockValidationState := {| m_result := None; nFlags := 0 |}.

Definition input (op : COutPoint) : CTxIn :=
  {| prevout := op; scriptSig := []; scriptWitness := [] |}.

Definition data_output : CTxOutBase :=
  {| nVersion := OUTPUT_DATA; GetValue := 0; GetPScriptPubKey := None |}.

Definition std_output (value : Z) (script : CScript) : CTxOutBase :=
  {| nVersion := OUTPUT_STANDARD; GetValue := value; GetPScriptPubKey := Some script |}.

Definition blind_output : CTxOutBase :=
  {| nVersion := OUTPUT_CT; GetValue := 0; GetPScriptPubKey := Some coinstake_script |}.

Definition coinstake (inputs : list CTxIn) (outputs : list CTxOutBase) : CTransaction :=
  {| IsCoinStake := true; vin := inputs; vpout := outputs |}.

(** A coinstake of the plain kernel coin. *)
Definition tx_plain : CTransaction :=
  coinstake [input op_plain] [data_output; std_output 1000000100 plain_script].

(** A coinstake of the two coins with the coinstake-op script, worth 100
    and 50, that pays 140 back to the script. *)
Definition tx_underpaid : CTransaction :=
  coinstake [input op_stake; input op_extra]
            [data_output; std_output 140 coinstake_script].

Definition nBits : Z := 0x1d00ffff.
Definition block_time : Z := 1600000256.

End Sample.

(** The transaction index, the timestamp mask, a [double] of exact
    fractions and a chain of proof-of-stake blocks to evaluate the remaining
    functions on. *)
Module Sample2.

Definition lookups : Lookups := {|
  GetTransaction := fun txid =>
    if txid =? 0x1122 then
      Some (Sample.coinstake [] [Sample.std_output 1000000000 Sample.plain_script],
            {| CBlock_nTime := 1600000000; CBlock_GetHash := 0xb10c |})
    else if txid =? 0xbbcc then
      Some (Sample.coinstake [] [Sample.data_output],
            {| CBlock_nTime := 1600000000; CBlock_GetHash := 0xb10c |})
    else None;
  GetStakeTimestampMask := fun _ => 15
|}.

Definition fractions : FloatOps := {|
  double := Q;
  d_of_Z := inject_Z;
  d_add := Qplus;
  d_mul := Qmult;
  d_div := Qdiv
|}.

Definition pos_block (height time : Z) : Estimator.PoSBlockIndex :=
  {| Estimator.base := {| nHeight := height; nTime := time; bnStakeModifier := 0 |};
     Estimator.nBits := 0x1d00ffff; Estimator.IsProofOfStake := true |}.



End Sample2.

(** Closes a goal that is decided by evaluating the model. *)
Ltac by_evaluation :=
  vm_compute; first [reflexivity | discriminate | exact I | congruence].

(** ** Facts about the fixed-width arithmetic *)

Lemma to_uint32_id x : 0 <= x < 2 ^ 32 -> to_uint32 x = x.
Proof. intros; unfold to_uint32; apply Z.mod_small; assumption. Qed.

Lemma to_uint64_id x : 0 <= x < 2 ^ 64 -> to_uint64 x = x.
Proof. intros; unfold to_uint64; apply Z.mod_small; assumption. Qed.

Lemma to_uint256_id x : 0 <= x < 2 ^ 256 -> to_uint256 x = x.
Proof. intros; unfold to_uint256; apply Z.mod_small; assumption. Qed.

Lemma to_uint256_range x : 0 <= to_uint256 x < 2 ^ 256.
Proof. unfold to_uint256; apply Z.mod_pos_bound; reflexivity. Qed.

Lemma add_int64_Some a b s : add_int64 a b = Some s -> s = a + b.
Proof.
  unfold add_int64; destruct (in_int64 (a + b)); intros E;
    [injection E as <-; reflexivity | discriminate].
Qed.

Lemma add_int64_fits a b :
  INT64_MIN <= a + b <= INT64_MAX -> add_int64 a b = Some (a + b).
Proof.
  intros [Hlo Hhi]; unfold add_int64, in_int64.
  apply Z.leb_le in Hlo; apply Z.leb_le in Hhi; rewrite Hlo, Hhi; reflexivity.
Qed.

Lemma of_uint64_id b : 0 <= b < 2 ^ 64 -> Arith256.of_uint64 b = b.
Proof.
  intros H; unfold Arith256.of_uint64; rewrite (to_uint64_id _ H).
  apply to_uint256_id.
  assert (2 ^ 64 < 2 ^ 256) by (apply Z.pow_lt_mono_r; lia). lia.
Qed.

(** ** Basic facts about the data model *)

Lemma OutputTypes_eqb_eq a b : OutputTypes_eqb a b = true <-> a = b.
Proof. destruct a, b; simpl; split; intros H; try reflexivity; discriminate. Qed.

Lemma OutputTypes_eqb_refl a : OutputTypes_eqb a a = true.
Proof. apply OutputTypes_eqb_eq; reflexivity. Qed.

Lemma CScript_eqb_eq a b : CScript_eqb a b = true <-> a = b.
Proof.
  unfold CScript_eqb; destruct (list_eq_dec Byte.byte_eq_dec a b); split;
    intros H; try assumption; try reflexivity; try discriminate; contradiction.
Qed.

Lemma CScript_eqb_refl a : CScript_eqb a a = true.
Proof. apply CScript_eqb_eq; reflexivity. Qed.

Lemma SetFlag_sets state flag : Z.land (nFlags (SetFlag state flag)) flag = flag.
Proof.
  simpl. rewrite Z.land_lor_distr_l, Z.land_diag.
  apply Z.bits_inj'; intros i Hi.
  rewrite Z.lor_spec, Z.land_spec.
  destruct (Z.testbit (nFlags state) i), (Z.testbit flag i); reflexivity.
Qed.

(** ** The compact target and the weighted target *)

Lemma CompactTarget_nonneg nBits : 0 <= CompactTarget nBits.
Proof.
  unfold CompactTarget, Arith256.SetCompact; cbn [fst].
  assert (Hw : 0 <= Z.land nBits 0x007fffff)
    by (apply Z.land_nonneg; right; lia).
  destruct (Z.shiftr nBits 24 <=? 3).
  - apply Z.shiftr_nonneg; exact Hw.
  - apply to_uint256_range.
Qed.

Section KernelFacts.

Context {E : Externals}.

(** The kernel check, spelled out over [CompactValid] and [CompactTarget]. *)
Lemma CheckStakeKernelHash_eq pindexPrev nBits nBlockFromTime prevOutAmount prevout nTime :
  CheckStakeKernelHash pindexPrev nBits nBlockFromTime prevOutAmount prevout nTime =
  if nTime <? nBlockFromTime then
    KernelError "CheckStakeKernelHash: nTime violation"
  else if negb (CompactValid nBits) then
    KernelError "CheckStakeKernelHash: SetCompact failed."
  else
    let W := WeightedTarget (CompactTarget nBits) prevOutAmount in
    let h := KernelHash (bnStakeModifier pindexPrev) nBlockFromTime prevout nTime in
    if h >? W then KernelMiss h W else KernelPass h W.
Proof.
  unfold CheckStakeKernelHash, CompactValid, CompactTarget.
  destruct (Arith256.SetCompact nBits) as [[t neg] ovf]; cbn [fst].
  destruct (nTime <? nBlockFromTime); [reflexivity |].
  rewrite negb_involutive.
  destruct (neg || ovf || (t =? 0)); reflexivity.
Qed.

Lemma kernel_ok_iff pindexPrev nBits nBlockFromTime prevOutAmount prevout nTime :
  kernel_ok (CheckStakeKernelHash pindexPrev nBits nBlockFromTime prevOutAmount
               prevout nTime) = true <->
  nBlockFromTime <= nTime /\ CompactValid nBits = true /\
  KernelHash (bnStakeModifier pindexPrev) nBlockFromTime prevout nTime
    <= WeightedTarget (CompactTarget nBits) prevOutAmount.
Proof.
  rewrite CheckStakeKernelHash_eq.
  destruct (Z.ltb_spec nTime nBlockFromTime) as [Ht | Ht].
  { simpl; split; [discriminate | intros [H _]; lia]. }
  destruct (CompactValid nBits).
  2: { simpl; split; [discriminate | intros (_ & H & _); discriminate]. }
  cbn [negb]; cbv zeta.
  destruct (Z.gtb_spec
              (KernelHash (bnStakeModifier pindexPrev) nBlockFromTime prevout nTime)
              (WeightedTarget (CompactTarget nBits) prevOutAmount)) as [Hh | Hh].
  - simpl; split; [discriminate | intros (_ & _ & H); lia].
  - simpl; split; [intros _; repeat split; [lia | lia] | reflexivity].
Qed.

Lemma kernel_miss_not_ok pindexPrev nBits nBlockFromTime prevOutAmount prevout nTime :
  KernelHash (bnStakeModifier pindexPrev) nBlockFromTime prevout nTime
    > WeightedTarget (CompactTarget nBits) prevOutAmount ->
  kernel_ok (CheckStakeKernelHash pindexPrev nBits nBlockFromTime prevOutAmount
               prevout nTime) = false.
Proof.
  intros Hgt. apply not_true_is_false; intros Hok.
  apply kernel_ok_iff in Hok as (_ & _ & Hle). lia.
Qed.

(** The weighted target is the product reduced to 256 bits. *)
Lemma WeightedTarget_mod bnTarget prevOutAmount :
  0 <= prevOutAmount <= INT64_MAX ->
  WeightedTarget bnTarget prevOutAmount = (bnTarget * prevOutAmount) mod 2 ^ 256.
Proof.
  intros Ha. unfold WeightedTarget, Arith256.mul, to_uint256.
  rewrite of_uint64_id; [reflexivity |].
  unfold INT64_MAX in Ha. lia.
Qed.

End KernelFacts.

(** ** The kernel preimage *)

Lemma le_split_le_bytes len v : le_split len v = le_bytes len v.
Proof.
  unfold le_bytes. revert v.
  induction len as [| len IH]; intros v; [reflexivity |].
  change (le_split (S len) v) with (byte.of_Z v :: le_split len (Z.shiftr v 8)).
  cbn [seq map]. rewrite Z.shiftr_0_r. f_equal.
  rewrite IH, <- seq_shift, map_map.
  apply map_ext; intros i.
  rewrite Z.shiftr_shiftr by lia. do 2 f_equal. lia.
Qed.

Lemma length_le_bytes len v : List.length (le_bytes len v) = len.
Proof. unfold le_bytes. rewrite length_map, length_seq. reflexivity. Qed.

(** The bytes of [le_bytes] are the base-256 digits of the value, lowest
    first. *)
Lemma le_combine_le_bytes len v :
  le_combine (le_bytes len v) = v mod 2 ^ (Z.of_nat len * 8).
Proof. rewrite <- le_split_le_bytes. apply le_combine_split. Qed.

Section Preimage.

Context {E : Externals}.

Lemma KernelStream_spec_preimage modifier nBlockFromTime prevout nTime :
  KernelStream modifier nBlockFromTime prevout nTime =
  spec_preimage modifier nBlockFromTime (hash prevout) (n prevout) nTime.
Proof.
  unfold KernelStream, spec_preimage, ser_uint32, ser_uint256.
  rewrite !le_split_le_bytes. cbn [app]. rewrite <- !app_assoc. reflexivity.
Qed.

Lemma length_spec_preimage modifier prev_block_time txid vout_n block_time :
  List.length (spec_preimage modifier prev_block_time txid vout_n block_time) = 76%nat.
Proof. unfold spec_preimage. rewrite !length_app, !length_le_bytes. reflexivity. Qed.

(** C3.  For every modifier, previous block time, prevout and block time,
    the kernel hash is the chain hash of a stream of exactly 76 bytes: the
    modifier as 32 little-endian bytes, the previous block time as 4, the
    txid of the prevout as 32, its index as 4 and the block time as 4, in
    this order; and this is the hash [CheckStakeKernelHash] writes to
    [hashProofOfStake] whenever it writes one. *)
Theorem kernel_hash_preimage (pindexPrev : CBlockIndex)
    (nBits nBlockFromTime prevOutAmount : Z) (prevout : COutPoint) (nTime : Z) :
  let preimage :=
    le_bytes 32 (bnStakeModifier pindexPrev) ++ le_bytes 4 nBlockFromTime
      ++ le_bytes 32 (hash prevout) ++ le_bytes 4 (n prevout) ++ le_bytes 4 nTime in
  KernelStream (bnStakeModifier pindexPrev) nBlockFromTime prevout nTime = preimage /\
  List.length preimage = 76%nat /\
  KernelHash (bnStakeModifier pindexPrev) nBlockFromTime prevout nTime = Hash preimage /\
  match kernel_proof (CheckStakeKernelHash pindexPrev nBits nBlockFromTime
                        prevOutAmount prevout nTime) with
  | Some (hashProofOfStake, _) => hashProofOfStake = Hash preimage
  | None => True
  end.
Proof.
  cbv zeta.
  pose proof (KernelStream_spec_preimage (bnStakeModifier pindexPrev) nBlockFromTime
                prevout nTime) as Hs.
  unfold spec_preimage in Hs.
  split; [| split; [| split]].
  - exact Hs.
  - apply (length_spec_preimage (bnStakeModifier pindexPrev) nBlockFromTime
             (hash prevout) (n prevout) nTime).
  - unfold KernelHash. rewrite Hs. reflexivity.
  - rewrite CheckStakeKernelHash_eq.
    destruct (nTime <? nBlockFromTime); [exact I |].
    destruct (negb (CompactValid nBits)); [exact I |].
    cbv zeta. unfold KernelHash. rewrite Hs.
    match goal with |- context [if ?c then _ else _] => destruct c end; reflexivity.
Qed.

End Preimage.

(** ** The validator, stage by stage *)

Section StageFacts.

Context {E : Externals}.

Lemma CheckProofOfStake_resolved fVerifyingDB chain_state state pindexPrev tx nTime nBits
    txin coin state1 :
  IsCoinStake tx = true ->
  hd_error (vin tx) = Some txin ->
  ResolveKernelCoin fVerifyingDB chain_state state pindexPrev txin = inr (coin, state1) ->
  CheckProofOfStake fVerifyingDB chain_state state pindexPrev tx nTime nBits =
  CheckKernelCoin chain_state state1 pindexPrev tx txin coin nTime nBits.
Proof.
  intros Hcs Hvin Hres. unfold CheckProofOfStake. rewrite Hcs.
  destruct (vin tx) as [| txin' rest]; [discriminate |].
  injection Hvin as ->. rewrite Hres. reflexivity.
Qed.

Lemma CheckProofOfStake_at_depth_check fVerifyingDB chain_state state pindexPrev tx
    nTime nBits txin coin state1 pindex :
  ReachesDepthCheck fVerifyingDB chain_state state pindexPrev tx txin coin state1 pindex ->
  CheckProofOfStake fVerifyingDB chain_state state pindexPrev tx nTime nBits =
  if RequiredDepth pindexPrev >? nHeight pindexPrev - coin_nHeight coin then
    Returned false (Invalid state1 DOS_100 "invalid-stake-depth") None
  else AfterDepthCheck chain_state state1 pindexPrev tx txin coin pindex nTime nBits.
Proof.
  intros (Hcs & Hvin & Hres & Hty & Hidx).
  rewrite (CheckProofOfStake_resolved _ _ _ _ _ _ _ _ _ _ Hcs Hvin Hres).
  unfold CheckKernelCoin, RequiredDepth, AfterDepthCheck, KernelCheck, AfterKernelCheck.
  rewrite Hty, Hidx. cbn [OutputTypes_eqb negb]. reflexivity.
Qed.

Lemma CheckProofOfStake_at_kernel_check fVerifyingDB chain_state state pindexPrev tx
    nTime nBits txin coin state1 pindex :
  ReachesKernelCheck fVerifyingDB chain_state state pindexPrev tx txin coin state1 pindex ->
  CheckProofOfStake fVerifyingDB chain_state state pindexPrev tx nTime nBits =
  let kernel := KernelCheck pindexPrev txin coin pindex nTime nBits in
  if negb (kernel_ok kernel) then
    Returned false (Invalid state1 DOS_1 "check-kernel-failed") (kernel_proof kernel)
  else AfterKernelCheck chain_state state1 tx coin (kernel_proof kernel).
Proof.
  intros (Hreach & Hdepth & Hscript).
  rewrite (CheckProofOfStake_at_depth_check _ _ _ _ _ _ _ _ _ _ _ Hreach).
  destruct (Z.gtb_spec (RequiredDepth pindexPrev) (nHeight pindexPrev - coin_nHeight coin));
    [lia |].
  unfold AfterDepthCheck. rewrite Hscript. reflexivity.
Qed.

End StageFacts.

(** ** The target comparison *)

Lemma CompactValid_false_iff nBits bnTarget fNegative fOverflow :
  Arith256.SetCompact nBits = (bnTarget, fNegative, fOverflow) ->
  (CompactValid nBits = false <->
   fNegative = true \/ fOverflow = true \/ bnTarget = 0).
Proof.
  intros Hd. unfold CompactValid. rewrite Hd.
  rewrite negb_false_iff, !orb_true_iff, Z.eqb_eq. tauto.
Qed.

Section TargetComparison.

Context {E : Externals}.

(** C1, as the code has it.  Once the structural checks, the depth check
    and the script check have passed, with [W] the weighted target, the
    product of the decoded target and the value of the kernel coin (a
    non-negative [int64_t]) modulo [2^256]: the kernel check succeeds if and
    only if the block time is not before the time of the kernel's block, the
    compact target is valid and the hash is at most [W], and the validator
    then goes on with the hash and [W] as its proof.  Whenever the kernel
    check fails, so when the hash is above [W] and when it is above the
    exact product, the coinstake is rejected as check-kernel-failed with DoS
    weight 1 and no other weight. *)
Theorem kernel_target_comparison (fVerifyingDB : bool) (chain_state : CChainState)
    (state : BlockValidationState) (pindexPrev : CBlockIndex) (tx : CTransaction)
    (nTime nBits : Z) (txin : CTxIn) (coin : Coin) (state1 : BlockValidationState)
    (pindex : CBlockIndex)
    (Hreach : ReachesKernelCheck fVerifyingDB chain_state state pindexPrev tx txin
                coin state1 pindex)
    (Hamount : 0 <= nValue (out coin) <= INT64_MAX) :
  let nBlockFromTime := to_uint32 (GetBlockTime pindex) in
  let hash_pos := KernelHash (bnStakeModifier pindexPrev) nBlockFromTime
                    (prevout txin) (to_uint32 nTime) in
  let W := (CompactTarget nBits * nValue (out coin)) mod 2 ^ 256 in
  let kernel := KernelCheck pindexPrev txin coin pindex nTime nBits in
  let check := CheckProofOfStake fVerifyingDB chain_state state pindexPrev tx nTime nBits in
  (kernel_ok kernel = true <->
   nBlockFromTime <= to_uint32 nTime /\ CompactValid nBits = true /\ hash_pos <= W) /\
  (kernel_ok kernel = true ->
   kernel_proof kernel = Some (hash_pos, W) /\
   check = AfterKernelCheck chain_state state1 tx coin (Some (hash_pos, W))) /\
  (kernel_ok kernel = false ->
   check = Returned false (Invalid state1 DOS_1 "check-kernel-failed")
             (kernel_proof kernel) /\
   RejectsWithWeight check 1 /\
   forall w, RejectsWithWeight check w -> w = 1) /\
  (hash_pos > W -> kernel_ok kernel = false) /\
  (hash_pos > CompactTarget nBits * nValue (out coin) -> kernel_ok kernel = false).
Proof.
  cbv zeta.
  pose proof (CheckProofOfStake_at_kernel_check _ _ _ _ _ nTime nBits _ _ _ _ Hreach)
    as Hcheck.
  cbv zeta in Hcheck.
  rewrite <- (WeightedTarget_mod (CompactTarget nBits) _ Hamount).
  assert (Hiff : kernel_ok (KernelCheck pindexPrev txin coin pindex nTime nBits) = true <->
                 to_uint32 (GetBlockTime pindex) <= to_uint32 nTime /\
                 CompactValid nBits = true /\
                 KernelHash (bnStakeModifier pindexPrev) (to_uint32 (GetBlockTime pindex))
                   (prevout txin) (to_uint32 nTime)
                 <= WeightedTarget (CompactTarget nBits) (nValue (out coin)))
    by (unfold KernelCheck; apply kernel_ok_iff).
  assert (Hmiss : KernelHash (bnStakeModifier pindexPrev) (to_uint32 (GetBlockTime pindex))
                    (prevout txin) (to_uint32 nTime)
                  > WeightedTarget (CompactTarget nBits) (nValue (out coin)) ->
                  kernel_ok (KernelCheck pindexPrev txin coin pindex nTime nBits) = false)
    by (unfold KernelCheck; apply kernel_miss_not_ok).
  split; [exact Hiff |]. split; [| split; [| split; [exact Hmiss |]]].
  - intros Hok.
    assert (Hproof : kernel_proof (KernelCheck pindexPrev txin coin pindex nTime nBits)
                     = Some (KernelHash (bnStakeModifier pindexPrev)
                               (to_uint32 (GetBlockTime pindex)) (prevout txin)
                               (to_uint32 nTime),
                             WeightedTarget (CompactTarget nBits) (nValue (out coin)))).
    { apply Hiff in Hok as (Htime & Hvalid & Hle).
      unfold KernelCheck. rewrite CheckStakeKernelHash_eq.
      destruct (Z.ltb_spec (to_uint32 nTime) (to_uint32 (GetBlockTime pindex))); [lia |].
      rewrite Hvalid. cbn [negb]. cbv zeta.
      destruct (Z.gtb_spec
                  (KernelHash (bnStakeModifier pindexPrev) (to_uint32 (GetBlockTime pindex))
                     (prevout txin) (to_uint32 nTime))
                  (WeightedTarget (CompactTarget nBits) (nValue (out coin)))); [lia |].
      reflexivity. }
    split; [exact Hproof |].
    rewrite Hok, Hproof in Hcheck. exact Hcheck.
  - intros Hko. rewrite Hko in Hcheck. cbn [negb] in Hcheck.
    split; [exact Hcheck |]. split.
    + do 4 eexists. split; [exact Hcheck |]. split; reflexivity.
    + intros w (st & p & r & reason & Heq & Hm & Hw).
      rewrite Hcheck in Heq. injection Heq as <- _.
      cbn [Invalid m_result] in Hm. injection Hm as <- _.
      symmetry. exact Hw.
  - intros Hgt. apply Hmiss.
    rewrite (WeightedTarget_mod _ _ Hamount).
    pose proof (CompactTarget_nonneg nBits) as Ht.
    assert (Hle : (CompactTarget nBits * nValue (out coin)) mod 2 ^ 256
                  <= CompactTarget nBits * nValue (out coin)).
    { apply Z.mod_le; [apply Z.mul_nonneg_nonneg; lia | reflexivity]. }
    lia.
Qed.

End TargetComparison.

(** The plain coinstake of the sample chain is at its kernel check. *)
Lemma sample_reaches_kernel_check modifier :
  ReachesKernelCheck (E := Sample.externals) false Sample.chain_state Sample.state0
    (Sample.tip modifier) Sample.tx_plain (Sample.input Sample.op_plain)
    Sample.coin_plain Sample.state0 (Sample.block_at 700).
Proof.
  unfold ReachesKernelCheck, ReachesDepthCheck.
  repeat split; by_evaluation.
Defined.

Lemma kernel_target_comparison_witness :
  (ReachesKernelCheck (E := Sample.externals) false Sample.chain_state Sample.state0
     (Sample.tip (2 ^ 255)) Sample.tx_plain (Sample.input Sample.op_plain)
     Sample.coin_plain Sample.state0 (Sample.block_at 700) /\
   0 <= nValue (out Sample.coin_plain) <= INT64_MAX) /\
  kernel_ok (KernelCheck (E := Sample.externals) (Sample.tip (2 ^ 255))
               (Sample.input Sample.op_plain) Sample.coin_plain (Sample.block_at 700)
               Sample.block_time Sample.nBits) = false /\
  RejectsWithWeight
    (CheckProofOfStake (E := Sample.externals) false Sample.chain_state Sample.state0
       (Sample.tip (2 ^ 255)) Sample.tx_plain Sample.block_time Sample.nBits) 1.
Proof.
  assert (Hamount : 0 <= nValue (out Sample.coin_plain) <= INT64_MAX)
    by (split; by_evaluation).
  split; [exact (conj (sample_reaches_kernel_check (2 ^ 255)) Hamount) |].
  destruct (kernel_target_comparison (E := Sample.externals) false Sample.chain_state
              Sample.state0 (Sample.tip (2 ^ 255)) Sample.tx_plain Sample.block_time
              Sample.nBits (Sample.input Sample.op_plain) Sample.coin_plain
              Sample.state0 (Sample.block_at 700)
              (sample_reaches_kernel_check (2 ^ 255)) Hamount)
    as (_ & _ & Hfail & Hmiss & _).
  assert (Hko : kernel_ok (KernelCheck (E := Sample.externals) (Sample.tip (2 ^ 255))
                             (Sample.input Sample.op_plain) Sample.coin_plain
                             (Sample.block_at 700) Sample.block_time Sample.nBits)
                = false)
    by (apply Hmiss; by_evaluation).
  split; [exact Hko |]. exact (proj1 (proj2 (Hfail Hko))).
Defined.

(** C1 fails as stated, with the weighted target the product of target and
    value.  At the values of the golden scenario, [nBits = 0x1e0fffff] and a
    value of [10^9], the product is above [2^256] and the register holds it
    modulo [2^256]: a hash of [2^256 - 1] is at most the product, and the
    kernel check fails.  And with a block time before the time of the
    kernel's block the kernel check fails whatever the hash. *)
Lemma product_comparison_counterexample :
  let hash_pos := KernelHash (E := Sample.externals) (2 ^ 256 - 1)
                    (to_uint32 (GetBlockTime (Sample.block_at 700))) Sample.op_plain
                    (to_uint32 Sample.block_time) in
  let early := KernelHash (E := Sample.externals) 1
                 (to_uint32 (GetBlockTime (Sample.block_at 700))) Sample.op_plain
                 (to_uint32 1599999999) in
  ReachesKernelCheck (E := Sample.externals) false Sample.chain_state Sample.state0
    (Sample.tip (2 ^ 256 - 1)) Sample.tx_plain (Sample.input Sample.op_plain)
    Sample.coin_plain Sample.state0 (Sample.block_at 700) /\
  CompactValid 0x1e0fffff = true /\
  ~ (kernel_ok (KernelCheck (E := Sample.externals) (Sample.tip (2 ^ 256 - 1))
                  (Sample.input Sample.op_plain) Sample.coin_plain
                  (Sample.block_at 700) Sample.block_time 0x1e0fffff) = true <->
     hash_pos <= CompactTarget 0x1e0fffff * nValue (out Sample.coin_plain)) /\
  RejectsWithWeight
    (CheckProofOfStake (E := Sample.externals) false Sample.chain_state Sample.state0
       (Sample.tip (2 ^ 256 - 1)) Sample.tx_plain Sample.block_time 0x1e0fffff) 1 /\
  ~ (kernel_ok (KernelCheck (E := Sample.externals) (Sample.tip 1)
                  (Sample.input Sample.op_plain) Sample.coin_plain
                  (Sample.block_at 700) 1599999999 Sample.nBits) = true <->
     early <= CompactTarget Sample.nBits * nValue (out Sample.coin_plain)) /\
  RejectsWithWeight
    (CheckProofOfStake (E := Sample.externals) false Sample.chain_state Sample.state0
       (Sample.tip 1) Sample.tx_plain 1599999999 Sample.nBits) 1.
Proof.
  cbv zeta.
  split; [apply sample_reaches_kernel_check |].
  split; [by_evaluation |]. split; [| split; [| split]].
  - intros [_ H].
    assert (Hle : KernelHash (E := Sample.externals) (2 ^ 256 - 1)
                    (to_uint32 (GetBlockTime (Sample.block_at 700))) Sample.op_plain
                    (to_uint32 Sample.block_time)
                  <= CompactTarget 0x1e0fffff * nValue (out Sample.coin_plain))
      by by_evaluation.
    specialize (H Hle). revert H. by_evaluation.
  - do 4 eexists. split; [vm_compute; reflexivity |]. split; reflexivity.
  - intros [_ H].
    assert (Hle : KernelHash (E := Sample.externals) 1
                    (to_uint32 (GetBlockTime (Sample.block_at 700))) Sample.op_plain
                    (to_uint32 1599999999)
                  <= CompactTarget Sample.nBits * nValue (out Sample.coin_plain))
      by by_evaluation.
    specialize (H Hle). revert H. by_evaluation.
  - do 4 eexists. split; [vm_compute; reflexivity |]. split; reflexivity.
Qed.

Section StrictComparison.

Context {E : Externals}.

(** C2, as the code has it.  With [W] the weighted target in its 256-bit
    register: when the block time is not before the kernel's and the compact
    target is valid, a hash below [W] makes the proof valid; and a valid
    proof has passed the time check and the compact check with a hash of at
    most [W]. *)
Theorem kernel_valid_bounds (pindexPrev : CBlockIndex)
    (nBits nBlockFromTime prevOutAmount : Z) (prevout : COutPoint) (nTime : Z) :
  let hash_pos := KernelHash (bnStakeModifier pindexPrev) nBlockFromTime prevout nTime in
  let W := WeightedTarget (CompactTarget nBits) prevOutAmount in
  let valid := kernel_ok (CheckStakeKernelHash pindexPrev nBits nBlockFromTime
                            prevOutAmount prevout nTime) in
  (nBlockFromTime <= nTime -> CompactValid nBits = true -> hash_pos < W ->
   valid = true) /\
  (valid = true ->
   nBlockFromTime <= nTime /\ CompactValid nBits = true /\ hash_pos <= W) /\
  (0 <= prevOutAmount <= INT64_MAX ->
   W = (CompactTarget nBits * prevOutAmount) mod 2 ^ 256).
Proof.
  cbv zeta. split; [| split].
  - intros Ht Hv Hlt. apply kernel_ok_iff. repeat split; [exact Ht | exact Hv | lia].
  - intros Hok. apply kernel_ok_iff in Hok. exact Hok.
  - apply WeightedTarget_mod.
Qed.

End StrictComparison.

Lemma kernel_valid_bounds_witness :
  (1600000000 <= Sample.block_time /\ CompactValid Sample.nBits = true /\
   KernelHash (E := Sample.externals) 1 1600000000 Sample.op_plain Sample.block_time
     < WeightedTarget (CompactTarget Sample.nBits) 1000000000) /\
  kernel_ok (CheckStakeKernelHash (E := Sample.externals) (Sample.tip 1) Sample.nBits
               1600000000 1000000000 Sample.op_plain Sample.block_time) = true.
Proof.
  assert (H1 : 1600000000 <= Sample.block_time) by by_evaluation.
  assert (H2 : CompactValid Sample.nBits = true) by by_evaluation.
  assert (H3 : KernelHash (E := Sample.externals) 1 1600000000 Sample.op_plain
                 Sample.block_time
               < WeightedTarget (CompactTarget Sample.nBits) 1000000000)
    by by_evaluation.
  split; [repeat split; assumption |].
  exact (proj1 (kernel_valid_bounds (E := Sample.externals) (Sample.tip 1) Sample.nBits
                  1600000000 1000000000 Sample.op_plain Sample.block_time) H1 H2 H3).
Defined.

(** C2 fails as stated: with the target of [0x1d00ffff] and a stake of 1, a
    kernel whose hash equals the weighted target is valid although the hash
    is not below it; and a kernel whose block time precedes the time of its
    coin is invalid although its hash is below the weighted target. *)
Lemma strict_comparison_counterexample :
  let target := CompactTarget 0x1d00ffff in
  ~ (kernel_ok (CheckStakeKernelHash (E := Sample.externals) (Sample.tip target)
                  0x1d00ffff 1600000000 1 Sample.op_plain Sample.block_time) = true <->
     KernelHash (E := Sample.externals) target 1600000000 Sample.op_plain
       Sample.block_time < target * 1) /\
  ~ (kernel_ok (CheckStakeKernelHash (E := Sample.externals) (Sample.tip 1)
                  0x1d00ffff 1600000000 1 Sample.op_plain 1599999999) = true <->
     KernelHash (E := Sample.externals) 1 1600000000 Sample.op_plain 1599999999
       < target * 1).
Proof.
  cbv zeta. split.
  - intros [H _].
    assert (Hv : kernel_ok (CheckStakeKernelHash (E := Sample.externals)
                   (Sample.tip (CompactTarget 0x1d00ffff)) 0x1d00ffff 1600000000 1
                   Sample.op_plain Sample.block_time) = true) by by_evaluation.
    specialize (H Hv). revert H. by_evaluation.
  - intros [_ H].
    assert (Hlt : KernelHash (E := Sample.externals) 1 1600000000 Sample.op_plain
                    1599999999 < CompactTarget 0x1d00ffff * 1) by by_evaluation.
    specialize (H Hlt). revert H. by_evaluation.
Qed.

(** ** The weighted target in 256 bits *)

Section WeightedTargetFacts.

Context {E : Externals}.

(** C4, as the code has it.  For a stake amount that is a non-negative
    [int64_t], the weighted target is the product of target and amount
    reduced modulo [2^256].  While the product is below [2^256] the
    comparison against it is the comparison against the exact product, the
    kernel check accepts exactly the hashes up to the exact product, and a
    smaller stake has no larger weighted target. *)
Theorem weighted_target_wraps (pindexPrev : CBlockIndex)
    (nBits nBlockFromTime prevOutAmount : Z) (prevout : COutPoint) (nTime : Z)
    (Hamount : 0 <= prevOutAmount <= INT64_MAX) :
  let target := CompactTarget nBits in
  let W := WeightedTarget target prevOutAmount in
  W = (target * prevOutAmount) mod 2 ^ 256 /\
  (target * prevOutAmount < 2 ^ 256 ->
   W = target * prevOutAmount /\
   (forall hash_pos, (hash_pos >? W) = (hash_pos >? target * prevOutAmount)) /\
   (nBlockFromTime <= nTime -> CompactValid nBits = true ->
    (kernel_ok (CheckStakeKernelHash pindexPrev nBits nBlockFromTime prevOutAmount
                  prevout nTime) = true <->
     KernelHash (bnStakeModifier pindexPrev) nBlockFromTime prevout nTime
       <= target * prevOutAmount)) /\
   (forall smaller, 0 <= smaller <= prevOutAmount ->
                    WeightedTarget target smaller <= W)).
Proof.
  cbv zeta.
  pose proof (CompactTarget_nonneg nBits) as Ht.
  pose proof (WeightedTarget_mod (CompactTarget nBits) prevOutAmount Hamount) as Hmod.
  split; [exact Hmod |].
  intros Hfit.
  assert (Hexact : WeightedTarget (CompactTarget nBits) prevOutAmount
                   = CompactTarget nBits * prevOutAmount).
  { rewrite Hmod. apply Z.mod_small. split; [apply Z.mul_nonneg_nonneg; lia | exact Hfit]. }
  split; [exact Hexact |]. split; [| split].
  - intros hash_pos. rewrite Hexact. reflexivity.
  - intros Htime Hvalid. rewrite kernel_ok_iff, Hexact. tauto.
  - intros smaller Hs.
    assert (Hs64 : 0 <= smaller <= INT64_MAX) by lia.
    rewrite (WeightedTarget_mod _ _ Hs64), Hexact.
    assert (Hle : CompactTarget nBits * smaller <= CompactTarget nBits * prevOutAmount)
      by (apply Z.mul_le_mono_nonneg_l; lia).
    rewrite Z.mod_small; [exact Hle |].
    split; [apply Z.mul_nonneg_nonneg; lia | lia].
Qed.

(** With the target [2^255] of [0x21008000] and a stake of 2 the register
    holds 0, and every kernel with a hash other than 0 is lost, whatever the
    chain hash is. *)
Lemma wrapped_target_loses pindexPrev nBlockFromTime prevout nTime :
  0 < KernelHash (bnStakeModifier pindexPrev) nBlockFromTime prevout nTime ->
  kernel_ok (CheckStakeKernelHash pindexPrev 0x21008000 nBlockFromTime 2 prevout nTime)
  = false.
Proof.
  intros Hpos. apply kernel_miss_not_ok.
  change (WeightedTarget (CompactTarget 0x21008000) 2) with 0. lia.
Qed.

End WeightedTargetFacts.

Lemma weighted_target_wraps_witness :
  0 <= 1000000000 <= INT64_MAX /\
  WeightedTarget (CompactTarget Sample.nBits) 1000000000
  = (CompactTarget Sample.nBits * 1000000000) mod 2 ^ 256.
Proof.
  assert (H : 0 <= 1000000000 <= INT64_MAX) by (split; by_evaluation).
  split; [exact H |].
  exact (proj1 (weighted_target_wraps (E := Sample.externals) (Sample.tip 1) Sample.nBits
                  1600000000 1000000000 Sample.op_plain Sample.block_time H)).
Defined.

(** C4 fails as stated: [0x21008000] decodes to the valid target [2^255].
    With a stake of 2 the product is [2^256] and the register holds 0: the
    hash 1 is above the weighted target although it is below the exact
    product, and the kernel that a stake of 1 wins is lost with the larger
    stake. *)
Lemma wide_multiplication_counterexample :
  let target := CompactTarget 0x21008000 in
  let hash_pos := KernelHash (E := Sample.externals) 1 1600000000 Sample.op_plain
                    Sample.block_time in
  CompactValid 0x21008000 = true /\
  (hash_pos >? WeightedTarget target 2)
    <> (hash_pos >? target * 2) /\
  WeightedTarget target 2
    < WeightedTarget target 1 /\
  kernel_ok (CheckStakeKernelHash (E := Sample.externals) (Sample.tip 1) 0x21008000
               1600000000 1 Sample.op_plain Sample.block_time) = true /\
  kernel_ok (CheckStakeKernelHash (E := Sample.externals) (Sample.tip 1) 0x21008000
               1600000000 2 Sample.op_plain Sample.block_time) = false.
Proof. cbv zeta. repeat split; by_evaluation. Qed.

(** ** What an accepted coinstake has passed *)

Section Accepted.

Context {E : Externals}.

Lemma CheckProofOfStake_accepted_inv fVerifyingDB chain_state state pindexPrev tx
    nTime nBits txin coin state1 pindex state' proof :
  hd_error (vin tx) = Some txin ->
  ResolveKernelCoin fVerifyingDB chain_state state pindexPrev txin = inr (coin, state1) ->
  m_chain chain_state (coin_nHeight coin) = Some pindex ->
  CheckProofOfStake fVerifyingDB chain_state state pindexPrev tx nTime nBits
    = Returned true state' proof ->
  ReachesKernelCheck fVerifyingDB chain_state state pindexPrev tx txin coin state1 pindex /\
  kernel_ok (KernelCheck pindexPrev txin coin pindex nTime nBits) = true /\
  AfterKernelCheck chain_state state1 tx coin
    (kernel_proof (KernelCheck pindexPrev txin coin pindex nTime nBits))
    = Returned true state' proof.
Proof.
  intros Hvin Hres Hidx Hacc.
  assert (Hcs : IsCoinStake tx = true).
  { unfold CheckProofOfStake in Hacc. destruct (IsCoinStake tx); [reflexivity | discriminate]. }
  assert (Hty : nType coin = OUTPUT_STANDARD).
  { rewrite (CheckProofOfStake_resolved _ _ _ _ _ _ _ _ _ _ Hcs Hvin Hres) in Hacc.
    unfold CheckKernelCoin in Hacc.
    destruct (OutputTypes_eqb (nType coin) OUTPUT_STANDARD) eqn:Heq;
      [apply OutputTypes_eqb_eq; exact Heq | discriminate]. }
  assert (Hreach : ReachesDepthCheck fVerifyingDB chain_state state pindexPrev tx txin
                     coin state1 pindex) by (repeat split; assumption).
  rewrite (CheckProofOfStake_at_depth_check _ _ _ _ _ nTime nBits _ _ _ _ Hreach) in Hacc.
  destruct (Z.gtb_spec (RequiredDepth pindexPrev) (nHeight pindexPrev - coin_nHeight coin))
    as [Hd | Hd]; [discriminate |].
  unfold AfterDepthCheck in Hacc.
  destruct (VerifyScript (scriptSig txin) (scriptPubKey (out coin)) (scriptWitness txin)
              tx 0 (le_split 8 (nValue (out coin)))) eqn:Hscript; [| discriminate].
  cbn [negb] in Hacc. cbv zeta in Hacc.
  destruct (kernel_ok (KernelCheck pindexPrev txin coin pindex nTime nBits)) eqn:Hok;
    [| discriminate].
  cbn [negb] in Hacc.
  repeat split; assumption.
Qed.

End Accepted.

(** ** Time monotonicity *)

Section TimeMonotonicity.

Context {E : Externals}.

(** C9.  A kernel check whose block time is before the time of the kernel
    coin's block stops at once with its own error, [nTime violation]: it
    returns [false] and writes neither target nor hash, and the validator
    rejects the coinstake with no proof written.  And for every accepted
    coinstake the block time is at least the time of the block of its
    kernel coin. *)
Theorem nTime_violation_rejects_first (fVerifyingDB : bool) (chain_state : CChainState)
    (state : BlockValidationState) (pindexPrev : CBlockIndex) (tx : CTransaction)
    (nTime nBits : Z) (txin : CTxIn) (coin : Coin) (state1 : BlockValidationState)
    (pindex : CBlockIndex) :
  (forall nBlockFromTime prevOutAmount prevout block_time,
     block_time < nBlockFromTime ->
     let check := CheckStakeKernelHash pindexPrev nBits nBlockFromTime prevOutAmount
                    prevout block_time in
     check = KernelError "CheckStakeKernelHash: nTime violation" /\
     kernel_ok check = false /\ kernel_proof check = None) /\
  (ReachesKernelCheck fVerifyingDB chain_state state pindexPrev tx txin coin state1
     pindex ->
   to_uint32 nTime < to_uint32 (GetBlockTime pindex) ->
   CheckProofOfStake fVerifyingDB chain_state state pindexPrev tx nTime nBits
   = Returned false (Invalid state1 DOS_1 "check-kernel-failed") None) /\
  (hd_error (vin tx) = Some txin ->
   ResolveKernelCoin fVerifyingDB chain_state state pindexPrev txin = inr (coin, state1) ->
   m_chain chain_state (coin_nHeight coin) = Some pindex ->
   0 <= nTime < 2 ^ 32 ->
   0 <= GetBlockTime pindex < 2 ^ 32 ->
   forall state' proof,
     CheckProofOfStake fVerifyingDB chain_state state pindexPrev tx nTime nBits
       = Returned true state' proof ->
     GetBlockTime pindex <= nTime).
Proof.
  split.
  - intros nBlockFromTime prevOutAmount prevout block_time Hlt. cbv zeta.
    unfold CheckStakeKernelHash.
    apply Z.ltb_lt in Hlt. rewrite Hlt. repeat split.
  - split.
    { intros Hreach Hlt.
      rewrite (CheckProofOfStake_at_kernel_check _ _ _ _ _ nTime nBits _ _ _ _ Hreach).
      cbv zeta. unfold KernelCheck, CheckStakeKernelHash.
      apply Z.ltb_lt in Hlt. rewrite Hlt. reflexivity. }
    intros Hvin Hres Hidx Ht Hb state' proof Hacc.
    destruct (CheckProofOfStake_accepted_inv _ _ _ _ _ _ _ _ _ _ _ _ _
                Hvin Hres Hidx Hacc) as (_ & Hok & _).
    unfold KernelCheck in Hok. apply kernel_ok_iff in Hok as (Hle & _).
    rewrite (to_uint32_id _ Ht), (to_uint32_id _ Hb) in Hle. exact Hle.
Qed.

End TimeMonotonicity.

Lemma nTime_violation_rejects_first_witness :
  1599999999 < 1600000000 /\
  CheckStakeKernelHash (E := Sample.externals) (Sample.tip 1) Sample.nBits 1600000000
    1000000000 Sample.op_plain 1599999999
  = KernelError "CheckStakeKernelHash: nTime violation" /\
  GetBlockTime (Sample.block_at 700) <= Sample.block_time.
Proof.
  pose proof (nTime_violation_rejects_first (E := Sample.externals) false
                Sample.chain_state Sample.state0 (Sample.tip 1) Sample.tx_plain
                Sample.block_time Sample.nBits (Sample.input Sample.op_plain)
                Sample.coin_plain Sample.state0 (Sample.block_at 700))
    as (Hfirst & _ & Hacc).
  assert (Hlt : 1599999999 < 1600000000) by by_evaluation.
  split; [exact Hlt |]. split.
  - exact (proj1 (Hfirst 1600000000 1000000000 Sample.op_plain 1599999999 Hlt)).
  - refine (Hacc _ _ _ _ _ Sample.state0
              (Some (1, WeightedTarget (CompactTarget Sample.nBits) 1000000000)) _);
      try by_evaluation; split; by_evaluation.
Defined.

(** ** A compact target that does not decode *)

Section CompactFailure.

Context {E : Externals}.

(** C8, as the code has it.  When the compact target decodes as negative,
    as overflowing or to zero, the kernel check fails without writing
    target or hash, with the error [SetCompact failed] once the time check
    has passed, and the validator rejects the coinstake as
    check-kernel-failed, whose DoS weight is 1. *)
Theorem compact_failure_rejected (fVerifyingDB : bool) (chain_state : CChainState)
    (state : BlockValidationState) (pindexPrev : CBlockIndex) (tx : CTransaction)
    (nTime nBits : Z) (txin : CTxIn) (coin : Coin) (state1 : BlockValidationState)
    (pindex : CBlockIndex) (bnTarget : Z) (fNegative fOverflow : bool)
    (Hreach : ReachesKernelCheck fVerifyingDB chain_state state pindexPrev tx txin
                coin state1 pindex)
    (Hdecode : Arith256.SetCompact nBits = (bnTarget, fNegative, fOverflow))
    (Hbad : fNegative = true \/ fOverflow = true \/ bnTarget = 0) :
  let kernel := KernelCheck pindexPrev txin coin pindex nTime nBits in
  let check := CheckProofOfStake fVerifyingDB chain_state state pindexPrev tx nTime nBits in
  kernel_ok kernel = false /\
  kernel_proof kernel = None /\
  (to_uint32 (GetBlockTime pindex) <= to_uint32 nTime ->
   kernel = KernelError "CheckStakeKernelHash: SetCompact failed.") /\
  check = Returned false (Invalid state1 DOS_1 "check-kernel-failed") None /\
  RejectsWithWeight check 1.
Proof.
  cbv zeta.
  apply (CompactValid_false_iff _ _ _ _ Hdecode) in Hbad.
  pose proof (CheckProofOfStake_at_kernel_check _ _ _ _ _ nTime nBits _ _ _ _ Hreach)
    as Hcheck.
  cbv zeta in Hcheck.
  assert (Heq := CheckStakeKernelHash_eq pindexPrev nBits (to_uint32 (GetBlockTime pindex))
                   (nValue (out coin)) (prevout txin) (to_uint32 nTime)).
  fold (KernelCheck pindexPrev txin coin pindex nTime nBits) in Heq.
  rewrite Hbad in Heq. cbn [negb] in Heq.
  assert (Hok : kernel_ok (KernelCheck pindexPrev txin coin pindex nTime nBits) = false
                /\ kernel_proof (KernelCheck pindexPrev txin coin pindex nTime nBits) = None).
  { rewrite Heq. destruct (to_uint32 nTime <? to_uint32 (GetBlockTime pindex)); split; reflexivity. }
  destruct Hok as [Hok Hproof].
  rewrite Hok, Hproof in Hcheck. cbn [negb] in Hcheck.
  split; [exact Hok |]. split; [exact Hproof |]. split; [| split].
  - intros Htime. rewrite Heq.
    destruct (Z.ltb_spec (to_uint32 nTime) (to_uint32 (GetBlockTime pindex))); [lia | reflexivity].
  - exact Hcheck.
  - do 4 eexists. split; [exact Hcheck |]. split; reflexivity.
Qed.

End CompactFailure.

Lemma compact_failure_rejected_witness :
  (Arith256.SetCompact 0x04800001 = (256, true, false) /\
   (true = true \/ false = true \/ 256 = 0)) /\
  CheckProofOfStake (E := Sample.externals) false Sample.chain_state Sample.state0
    (Sample.tip 1) Sample.tx_plain Sample.block_time 0x04800001
  = Returned false (Invalid Sample.state0 DOS_1 "check-kernel-failed") None.
Proof.
  assert (Hd : Arith256.SetCompact 0x04800001 = (256, true, false)) by by_evaluation.
  assert (Hb : true = true \/ false = true \/ 256 = 0) by (left; reflexivity).
  split; [split; assumption |].
  exact (proj1 (proj2 (proj2 (proj2
           (compact_failure_rejected (E := Sample.externals) false Sample.chain_state
              Sample.state0 (Sample.tip 1) Sample.tx_plain Sample.block_time 0x04800001
              (Sample.input Sample.op_plain) Sample.coin_plain Sample.state0
              (Sample.block_at 700) 256 true false
              (sample_reaches_kernel_check 1) Hd Hb))))).
Defined.

(** C8 fails as stated: [0x04800001] decodes as negative, and the coinstake
    that is otherwise in order is rejected with DoS weight 1, not 100. *)
Lemma compact_failure_weight_counterexample :
  Arith256.SetCompact 0x04800001 = (256, true, false) /\
  ReachesKernelCheck (E := Sample.externals) false Sample.chain_state Sample.state0
    (Sample.tip 1) Sample.tx_plain (Sample.input Sample.op_plain)
    Sample.coin_plain Sample.state0 (Sample.block_at 700) /\
  RejectsWithWeight
    (CheckProofOfStake (E := Sample.externals) false Sample.chain_state Sample.state0
       (Sample.tip 1) Sample.tx_plain Sample.block_time 0x04800001) 1 /\
  ~ RejectsWithWeight
      (CheckProofOfStake (E := Sample.externals) false Sample.chain_state Sample.state0
         (Sample.tip 1) Sample.tx_plain Sample.block_time 0x04800001) 100.
Proof.
  assert (Hres : CheckProofOfStake (E := Sample.externals) false Sample.chain_state
                   Sample.state0 (Sample.tip 1) Sample.tx_plain Sample.block_time 0x04800001
                 = Returned false (Invalid Sample.state0 DOS_1 "check-kernel-failed") None)
    by by_evaluation.
  split; [by_evaluation |]. split; [apply sample_reaches_kernel_check |]. split.
  - do 4 eexists. split; [exact Hres |]. split; reflexivity.
  - intros (st & p & r & reason & Heq & Hm & Hw).
    rewrite Hres in Heq. injection Heq as <- _.
    cbn in Hm. injection Hm as <- _. discriminate Hw.
Qed.

(** ** Facts on how the validator can return *)

Lemma ReturnsAmong_incl among among' state ret state' :
  incl among among' ->
  ReturnsAmong among state ret state' -> ReturnsAmong among' state ret state'.
Proof.
  intros Hincl [H | (Hr & r & reason & Hs & Hin)]; [left; exact H | right].
  split; [exact Hr |]. exists r, reason. split; [exact Hs | apply Hincl; exact Hin].
Qed.

Lemma ReturnsAmong_nFlags among state ret state' :
  ReturnsAmong among state ret state' -> nFlags state' = nFlags state.
Proof.
  intros [[_ ->] | (_ & r & reason & -> & _)]; reflexivity.
Qed.

Section Returns.

Context {E : Externals}.

Lemma SumExtraInputs_Reject_inv chain_state state kernelPubKey extras amount state' :
  SumExtraInputs chain_state state kernelPubKey extras amount = Reject state' ->
  exists result reason,
    state' = Invalid state result reason /\ In (result, reason) split_rejections.
Proof.
  revert amount. induction extras as [| txin rest IH]; intros amount H; [discriminate |].
  cbn [SumExtraInputs] in H.
  destruct (ResolveExtraCoin chain_state txin) as [c |].
  2: { injection H as <-. do 2 eexists. split; [reflexivity | simpl; auto]. }
  destruct (negb (OutputTypes_eqb (nType c) OUTPUT_STANDARD)).
  { injection H as <-. do 2 eexists. split; [reflexivity | simpl; auto]. }
  destruct (negb (CScript_eqb kernelPubKey (scriptPubKey (out c)))).
  { injection H as <-. do 2 eexists. split; [reflexivity | simpl; auto]. }
  destruct (add_int64 amount (nValue (out c))); [| discriminate].
  apply (IH _ H).
Qed.

Lemma SumOutputs_Reject_inv state kernelPubKey outs nVerify state' :
  SumOutputs state kernelPubKey outs nVerify = Reject state' ->
  state' = Invalid state DOS_100 "bad-output-type".
Proof.
  revert nVerify. induction outs as [| txout rest IH]; intros nVerify H; [discriminate |].
  cbn [SumOutputs] in H.
  destruct (negb (IsType txout OUTPUT_STANDARD)).
  { destruct (negb (IsType txout OUTPUT_DATA)); [injection H as <-; reflexivity |].
    apply (IH _ H). }
  destruct (GetPScriptPubKey txout) as [s |]; [| apply (IH _ H)].
  destruct (CScript_eqb s kernelPubKey); [| apply (IH _ H)].
  destruct (add_int64 nVerify (GetValue txout)); [| discriminate].
  apply (IH _ H).
Qed.

Lemma CoinstakeOpSplit_Returned_inv chain_state state kernelPubKey amount tx proof
    ret state' proof' :
  CoinstakeOpSplit chain_state state kernelPubKey amount tx proof
    = Returned ret state' proof' ->
  proof' = proof /\ ReturnsAmong split_rejections state ret state'.
Proof.
  unfold CoinstakeOpSplit. intros H.
  destruct (SumExtraInputs chain_state state kernelPubKey (tl (vin tx)) amount)
    as [amount' | st |] eqn:Hin; [| | discriminate].
  2: { injection H as <- <- <-. split; [reflexivity | right].
       split; [reflexivity |]. apply (SumExtraInputs_Reject_inv _ _ _ _ _ _ Hin). }
  destruct (SumOutputs state kernelPubKey (vpout tx) 0) as [nVerify | st |] eqn:Hout;
    [| | discriminate].
  2: { injection H as <- <- <-. split; [reflexivity | right].
       split; [reflexivity |]. rewrite (SumOutputs_Reject_inv _ _ _ _ _ Hout).
       do 2 eexists. split; [reflexivity | simpl; auto]. }
  destruct (nVerify <? amount'); injection H as <- <- <-; (split; [reflexivity |]).
  - right. split; [reflexivity |]. do 2 eexists.
    split; [reflexivity | simpl; auto 6].
  - left. split; reflexivity.
Qed.

Lemma AfterKernelCheck_Returned_inv chain_state state1 tx coin proof ret state' proof' :
  AfterKernelCheck chain_state state1 tx coin proof = Returned ret state' proof' ->
  proof' = proof /\ ReturnsAmong split_rejections state1 ret state'.
Proof.
  unfold AfterKernelCheck.
  destruct (HasIsCoinstakeOp (scriptPubKey (out coin))).
  - apply CoinstakeOpSplit_Returned_inv.
  - intros H. injection H as <- <- <-. split; [reflexivity | left; split; reflexivity].
Qed.

Lemma AfterDepthCheck_Returned_inv chain_state state1 pindexPrev tx txin coin pindex
    nTime nBits ret state' proof' :
  AfterDepthCheck chain_state state1 pindexPrev tx txin coin pindex nTime nBits
    = Returned ret state' proof' ->
  ReturnsAmong late_rejections state1 ret state'.
Proof.
  unfold AfterDepthCheck. intros H.
  destruct (negb (VerifyScript (scriptSig txin) (scriptPubKey (out coin))
                    (scriptWitness txin) tx 0 (le_split 8 (nValue (out coin))))).
  { injection H as <- <- <-. right. split; [reflexivity |].
    do 2 eexists. split; [reflexivity | simpl; auto]. }
  cbv zeta in H.
  destruct (negb (kernel_ok (KernelCheck pindexPrev txin coin pindex nTime nBits))).
  { injection H as <- <- <-. right. split; [reflexivity |].
    do 2 eexists. split; [reflexivity | simpl; auto]. }
  apply AfterKernelCheck_Returned_inv in H as [_ H].
  apply (ReturnsAmong_incl split_rejections); [| exact H].
  unfold late_rejections. intros x Hx. right. right. exact Hx.
Qed.

Lemma CheckKernelCoin_nFlags chain_state state1 pindexPrev tx txin coin nTime nBits
    ret state' proof' :
  CheckKernelCoin chain_state state1 pindexPrev tx txin coin nTime nBits
    = Returned ret state' proof' ->
  nFlags state' = nFlags state1.
Proof.
  intros H.
  assert (Hafter : forall pindex,
             AfterDepthCheck chain_state state1 pindexPrev tx txin coin pindex nTime nBits
             = Returned ret state' proof' -> nFlags state' = nFlags state1).
  { intros pindex Ha. apply AfterDepthCheck_Returned_inv in Ha.
    apply (ReturnsAmong_nFlags _ _ _ _ Ha). }
  unfold CheckKernelCoin in H.
  destruct (negb (OutputTypes_eqb (nType coin) OUTPUT_STANDARD));
    [injection H as <- <- <-; reflexivity |].
  destruct (m_chain chain_state (coin_nHeight coin)) as [pindex |];
    [| injection H as <- <- <-; reflexivity].
  cbv zeta in H.
  match type of H with
  | (if ?c then _ else _) = _ => destruct c; [injection H as <- <- <-; reflexivity |]
  end.
  apply (Hafter pindex). exact H.
Qed.

End Returns.

(** ** The depth rule *)

Section DepthRule.

Context {E : Externals}.


End DepthRule.



(** ** The spent kernel and the reorganisation bound *)

Section SpentKernel.

Context {E : Externals}.

(** The test of lines 255-257 is [BeyondReorgBound] when the heights are
    in the range of their types. *)
Lemma reorg_test_iff fVerifyingDB pindexPrev spent_coin :
  0 <= nHeight pindexPrev < 2 ^ 31 ->
  0 <= spent_height spent_coin < 2 ^ 32 ->
  (negb fVerifyingDB
   && (to_uint32 (nHeight pindexPrev) >? spent_height spent_coin)
   && (to_uint32 (nHeight pindexPrev - spent_height spent_coin) >? MAX_REORG_DEPTH)
   = true) <-> BeyondReorgBound fVerifyingDB pindexPrev spent_coin.
Proof.
  intros Hh Hs. unfold BeyondReorgBound.
  assert (H31 : 2 ^ 31 < 2 ^ 32) by (apply Z.pow_lt_mono_r; lia).
  rewrite (to_uint32_id (nHeight pindexPrev)) by lia.
  split.
  - intros H. apply andb_true_iff in H as [H H3]. apply andb_true_iff in H as [H1 H2].
    apply negb_true_iff in H1. apply Z.gtb_lt in H2.
    rewrite to_uint32_id in H3 by lia. apply Z.gtb_lt in H3.
    repeat split; [exact H1 | lia | lia].
  - intros (H1 & H2 & H3). rewrite H1.
    rewrite to_uint32_id by lia.
    assert (Hg2 : (nHeight pindexPrev >? spent_height spent_coin) = true)
      by (apply Z.gtb_lt; lia).
    assert (Hg3 : (nHeight pindexPrev - spent_height spent_coin >? MAX_REORG_DEPTH) = true)
      by (apply Z.gtb_lt; lia).
    rewrite Hg2, Hg3. reflexivity.
Qed.

(** C7, as the code has it.  The kernel prevout is absent from the live
    UTXO set or spent there.  If the archive has no record of it either, the
    coinstake is rejected with prevout-not-found, DoS weight 20.  If the
    archive has a record: the reorganisation bound rejects, with
    invalid-prevout and DoS weight 100 and the flags untouched, exactly
    when [verifying_db] is unset, [pindexPrev.height > spent_height] and
    [pindexPrev.height - spent_height > MAX_REORG_DEPTH]; in every other
    case the remaining checks run on the archived coin in a state with
    [BLOCK_STAKE_KERNEL_SPENT] set, and the state the validator returns has
    the flag set.  These checks reject in their own right: an archived coin
    that is not standard, or whose block is not on the active chain, is
    rejected with invalid-prevout and DoS weight 100 too, with the flag
    set. *)
Theorem spent_kernel_reorg_bound (fVerifyingDB : bool) (chain_state : CChainState)
    (state : BlockValidationState) (pindexPrev : CBlockIndex) (tx : CTransaction)
    (nTime nBits : Z) (txin : CTxIn)
    (Hcoinstake : IsCoinStake tx = true)
    (Hvin : hd_error (vin tx) = Some txin)
    (Hlive : LiveCoin chain_state (prevout txin) = None)
    (Hheight : 0 <= nHeight pindexPrev < 2 ^ 31) :
  let check := CheckProofOfStake fVerifyingDB chain_state state pindexPrev tx nTime nBits in
  let resolved := ResolveKernelCoin fVerifyingDB chain_state state pindexPrev txin in
  match ReadSpentCache chain_state (prevout txin) with
  | None =>
      check = Returned false (Invalid state DOS_20 "prevout-not-found") None /\
      dos_weight DOS_20 = 20
  | Some spent_coin =>
      0 <= spent_height spent_coin < 2 ^ 32 ->
      (resolved = inl (Invalid state DOS_100 "invalid-prevout") <->
       BeyondReorgBound fVerifyingDB pindexPrev spent_coin) /\
      (BeyondReorgBound fVerifyingDB pindexPrev spent_coin ->
       check = Returned false (Invalid state DOS_100 "invalid-prevout") None /\
       dos_weight DOS_100 = 100) /\
      (~ BeyondReorgBound fVerifyingDB pindexPrev spent_coin ->
       resolved = inr (coin spent_coin, SetFlag state BLOCK_STAKE_KERNEL_SPENT) /\
       check = CheckKernelCoin chain_state (SetFlag state BLOCK_STAKE_KERNEL_SPENT)
                 pindexPrev tx txin (coin spent_coin) nTime nBits /\
       (forall ret state' proof,
          check = Returned ret state' proof ->
          Z.land (nFlags state') BLOCK_STAKE_KERNEL_SPENT = BLOCK_STAKE_KERNEL_SPENT) /\
       (nType (coin spent_coin) <> OUTPUT_STANDARD \/
        m_chain chain_state (coin_nHeight (coin spent_coin)) = None ->
        check = Returned false
                  (Invalid (SetFlag state BLOCK_STAKE_KERNEL_SPENT) DOS_100
                     "invalid-prevout") None)) /\
      (Z.land (nFlags state) BLOCK_STAKE_KERNEL_SPENT <> BLOCK_STAKE_KERNEL_SPENT ->
       (check = Returned false (Invalid state DOS_100 "invalid-prevout") None <->
        BeyondReorgBound fVerifyingDB pindexPrev spent_coin))
  end.
Proof.
  cbv zeta.
  assert (Hunfold : CheckProofOfStake fVerifyingDB chain_state state pindexPrev tx nTime nBits
                    = match ResolveKernelCoin fVerifyingDB chain_state state pindexPrev txin with
                      | inl state' => Returned false state' None
                      | inr (c, state') =>
                          CheckKernelCoin chain_state state' pindexPrev tx txin c nTime nBits
                      end).
  { unfold CheckProofOfStake. rewrite Hcoinstake.
    destruct (vin tx) as [| txin' rest]; [discriminate |].
    injection Hvin as ->. reflexivity. }
  unfold ResolveKernelCoin in *. rewrite Hlive in *.
  destruct (ReadSpentCache chain_state (prevout txin)) as [spent_coin |].
  2: { split; [exact Hunfold | reflexivity]. }
  intros Hspent.
  pose proof (reorg_test_iff fVerifyingDB pindexPrev spent_coin Hheight Hspent) as Htest.
  destruct (negb fVerifyingDB
            && (to_uint32 (nHeight pindexPrev) >? spent_height spent_coin)
            && (to_uint32 (nHeight pindexPrev - spent_height spent_coin)
                  >? MAX_REORG_DEPTH)).
  - assert (Hb : BeyondReorgBound fVerifyingDB pindexPrev spent_coin)
      by (apply Htest; reflexivity).
    split; [split; [intros _; exact Hb | reflexivity] |].
    split; [intros _; split; [exact Hunfold | reflexivity] |].
    split; [intros Hn; contradiction |].
    intros _. split; [intros _; exact Hb | intros _; exact Hunfold].
  - assert (Hb : ~ BeyondReorgBound fVerifyingDB pindexPrev spent_coin)
      by (intros Hb; apply Htest in Hb; discriminate).
    assert (Hflag : forall ret state' proof,
               CheckProofOfStake fVerifyingDB chain_state state pindexPrev tx nTime nBits
               = Returned ret state' proof ->
               nFlags state' = nFlags (SetFlag state BLOCK_STAKE_KERNEL_SPENT)).
    { intros ret state' proof Hret. rewrite Hunfold in Hret.
      apply (CheckKernelCoin_nFlags _ _ _ _ _ _ _ _ _ _ _ Hret). }
    split; [split; [discriminate | intros Hyes; contradiction] |].
    split; [intros Hyes; contradiction |].
    split.
    + intros _. split; [reflexivity |]. split; [exact Hunfold |]. split.
      * intros ret state' proof Hret.
        rewrite (Hflag _ _ _ Hret). apply SetFlag_sets.
      * intros Hbad. rewrite Hunfold. unfold CheckKernelCoin.
        destruct Hbad as [Hty | Hidx].
        -- destruct (OutputTypes_eqb (nType (coin spent_coin)) OUTPUT_STANDARD) eqn:Heq;
             [apply OutputTypes_eqb_eq in Heq; contradiction | reflexivity].
        -- destruct (negb (OutputTypes_eqb (nType (coin spent_coin)) OUTPUT_STANDARD));
             [reflexivity |].
           rewrite Hidx. reflexivity.
    + intros Hunset. split; [| intros Hyes; contradiction].
      intros Hret. exfalso. apply Hunset.
      pose proof (Hflag _ _ _ Hret) as Hf. cbn [Invalid nFlags] in Hf.
      rewrite Hf at 1. apply (SetFlag_sets state).
Qed.

End SpentKernel.

Lemma spent_kernel_reorg_bound_witness :
  (IsCoinStake (Sample.coinstake [Sample.input Sample.op_old] []) = true /\
   LiveCoin Sample.chain_state Sample.op_old = None /\
   0 <= nHeight (Sample.tip 1) < 2 ^ 31 /\
   ReadSpentCache Sample.chain_state Sample.op_old
     = Some {| coin := Sample.coin_plain; spent_height := 800 |} /\
   0 <= 800 < 2 ^ 32 /\
   BeyondReorgBound (E := Sample.externals) false (Sample.tip 1)
     {| coin := Sample.coin_plain; spent_height := 800 |}) /\
  CheckProofOfStake (E := Sample.externals) false Sample.chain_state Sample.state0
    (Sample.tip 1) (Sample.coinstake [Sample.input Sample.op_old] [])
    Sample.block_time Sample.nBits
  = Returned false (Invalid Sample.state0 DOS_100 "invalid-prevout") None.
Proof.
  assert (H1 : IsCoinStake (Sample.coinstake [Sample.input Sample.op_old] []) = true)
    by reflexivity.
  assert (H2 : hd_error (vin (Sample.coinstake [Sample.input Sample.op_old] []))
               = Some (Sample.input Sample.op_old)) by reflexivity.
  assert (H3 : LiveCoin Sample.chain_state (prevout (Sample.input Sample.op_old)) = None)
    by reflexivity.
  assert (H4 : 0 <= nHeight (Sample.tip 1) < 2 ^ 31) by (split; by_evaluation).
  assert (H5 : 0 <= 800 < 2 ^ 32) by (split; by_evaluation).
  assert (H6 : BeyondReorgBound (E := Sample.externals) false (Sample.tip 1)
                 {| coin := Sample.coin_plain; spent_height := 800 |})
    by (repeat split; by_evaluation).
  split; [repeat split; solve [assumption | reflexivity | apply H4 | apply H5 | apply H6] |].
  pose proof (spent_kernel_reorg_bound (E := Sample.externals) false Sample.chain_state
                Sample.state0 (Sample.tip 1)
                (Sample.coinstake [Sample.input Sample.op_old] [])
                Sample.block_time Sample.nBits (Sample.input Sample.op_old)
                H1 H2 H3 H4) as Hthm.
  cbv zeta in Hthm.
  change (ReadSpentCache Sample.chain_state (prevout (Sample.input Sample.op_old)))
    with (Some {| coin := Sample.coin_plain; spent_height := 800 |}) in Hthm.
  exact (proj1 (proj1 (proj2 (Hthm H5)) H6)).
Defined.

(** C7 fails as stated: this kernel was spent 5 blocks below the tip, within
    the reorganisation bound, and the archive has it as a data output.  The
    coinstake is rejected with invalid-prevout and DoS weight 100 although
    the three conditions of the bound do not hold; the flag has been set. *)
Lemma archived_kernel_counterexample :
  let spent_coin := {| coin := Sample.coin_data; spent_height := 995 |} in
  let check := CheckProofOfStake (E := Sample.externals) false Sample.chain_state
                 Sample.state0 (Sample.tip 1)
                 (Sample.coinstake [Sample.input Sample.op_data] [])
                 Sample.block_time Sample.nBits in
  LiveCoin Sample.chain_state Sample.op_data = None /\
  ReadSpentCache Sample.chain_state Sample.op_data = Some spent_coin /\
  ~ (RejectedAs check DOS_100 "invalid-prevout" <->
     BeyondReorgBound (E := Sample.externals) false (Sample.tip 1) spent_coin) /\
  check = Returned false
            (Invalid (SetFlag Sample.state0 16) DOS_100 "invalid-prevout") None.
Proof.
  cbv zeta.
  assert (Hcheck : CheckProofOfStake (E := Sample.externals) false Sample.chain_state
                     Sample.state0 (Sample.tip 1)
                     (Sample.coinstake [Sample.input Sample.op_data] [])
                     Sample.block_time Sample.nBits
                   = Returned false
                       (Invalid (SetFlag Sample.state0 16) DOS_100 "invalid-prevout")
                       None) by by_evaluation.
  rewrite Hcheck.
  split; [reflexivity |]. split; [reflexivity |]. split; [| reflexivity].
  intros [H _].
  assert (Hrej : RejectedAs
                   (Returned false
                      (Invalid (SetFlag Sample.state0 16) DOS_100 "invalid-prevout") None)
                   DOS_100 "invalid-prevout")
    by (do 2 eexists; split; reflexivity).
  destruct (H Hrej) as (_ & _ & Hdepth). revert Hdepth. by_evaluation.
Qed.

(** ** The coinstake-op split *)

Section SplitLoops.

Context {E : Externals}.

Lemma ExtraInputOk_head chain_state kernelPubKey txin c :
  ResolveExtraCoin chain_state txin = Some c ->
  (ExtraInputOk chain_state kernelPubKey txin <->
   OutputTypes_eqb (nType c) OUTPUT_STANDARD = true /\
   CScript_eqb kernelPubKey (scriptPubKey (out c)) = true).
Proof.
  intros Hres. unfold ExtraInputOk. rewrite OutputTypes_eqb_eq, CScript_eqb_eq. split.
  - intros (c' & Hc & Hty & Hscript). rewrite Hres in Hc. injection Hc as <-.
    split; [exact Hty | symmetry; exact Hscript].
  - intros [Hty Hscript]. exists c. repeat split; [exact Hres | exact Hty | symmetry; exact Hscript].
Qed.

Lemma InputValue_resolved chain_state txin c :
  ResolveExtraCoin chain_state txin = Some c ->
  InputValue chain_state txin = nValue (out c).
Proof. intros H. unfold InputValue. rewrite H. reflexivity. Qed.

Lemma SumExtraInputs_Continue_inv chain_state state kernelPubKey extras amount amount' :
  SumExtraInputs chain_state state kernelPubKey extras amount = Continue amount' ->
  Forall (ExtraInputOk chain_state kernelPubKey) extras /\
  amount' = amount + Zsum (map (InputValue chain_state) extras).
Proof.
  revert amount. induction extras as [| txin rest IH]; intros amount H.
  - injection H as <-. split; [constructor | cbn; lia].
  - cbn [SumExtraInputs] in H.
    destruct (ResolveExtraCoin chain_state txin) as [c |] eqn:Hres; [| discriminate].
    destruct (OutputTypes_eqb (nType c) OUTPUT_STANDARD) eqn:Hty; [| discriminate].
    destruct (CScript_eqb kernelPubKey (scriptPubKey (out c))) eqn:Hscript; [| discriminate].
    cbn [negb] in H.
    destruct (add_int64 amount (nValue (out c))) as [s |] eqn:Hadd; [| discriminate].
    apply add_int64_Some in Hadd. subst s.
    destruct (IH _ H) as [Hrest ->]. split.
    + constructor; [| exact Hrest].
      apply (ExtraInputOk_head _ _ _ _ Hres). split; assumption.
    + cbn [map Zsum fold_right]. fold (Zsum (map (InputValue chain_state) rest)).
      rewrite (InputValue_resolved _ _ _ Hres). lia.
Qed.

Lemma SumExtraInputs_ok chain_state state kernelPubKey extras amount :
  Forall (ExtraInputOk chain_state kernelPubKey) extras ->
  SumsFit amount (map (InputValue chain_state) extras) ->
  SumExtraInputs chain_state state kernelPubKey extras amount
  = Continue (amount + Zsum (map (InputValue chain_state) extras)).
Proof.
  revert amount. induction extras as [| txin rest IH]; intros amount Hok Hfit.
  - cbn. f_equal. lia.
  - inversion Hok as [| ? ? Hhead Hrest]; subst.
    destruct Hhead as (c & Hres & Hty & Hscript).
    cbn [map SumsFit Zsum fold_right] in *.
    fold (Zsum (map (InputValue chain_state) rest)).
    rewrite (InputValue_resolved _ _ _ Hres) in *.
    destruct Hfit as [Hhere Hfit].
    cbn [SumExtraInputs]. rewrite Hres, Hty, Hscript, CScript_eqb_refl.
    cbn [OutputTypes_eqb negb].
    rewrite (add_int64_fits _ _ Hhere), (IH _ Hrest Hfit).
    f_equal. lia.
Qed.

Lemma SumExtraInputs_bad chain_state state kernelPubKey extras amount :
  Forall (fun txin => ResolveExtraCoin chain_state txin <> None) extras ->
  ~ Forall (ExtraInputOk chain_state kernelPubKey) extras ->
  SumsFit amount (map (InputValue chain_state) extras) ->
  SumExtraInputs chain_state state kernelPubKey extras amount
    = Reject (Invalid state DOS_100 "invalid-prevout") \/
  SumExtraInputs chain_state state kernelPubKey extras amount
    = Reject (Invalid state DOS_100 "mixed-prevout-scripts").
Proof.
  revert amount. induction extras as [| txin rest IH]; intros amount Hres Hbad Hfit.
  - exfalso. apply Hbad. constructor.
  - inversion Hres as [| ? ? Hhead Hrest]; subst.
    destruct (ResolveExtraCoin chain_state txin) as [c |] eqn:Hc; [| contradiction].
    cbn [map SumsFit] in Hfit. rewrite (InputValue_resolved _ _ _ Hc) in Hfit.
    destruct Hfit as [Hhere Hfit].
    cbn [SumExtraInputs]. rewrite Hc.
    destruct (OutputTypes_eqb (nType c) OUTPUT_STANDARD) eqn:Hty; [| left; reflexivity].
    destruct (CScript_eqb kernelPubKey (scriptPubKey (out c))) eqn:Hscript;
      [| right; reflexivity].
    cbn [negb]. rewrite (add_int64_fits _ _ Hhere).
    apply IH; [exact Hrest | | exact Hfit].
    intros Hall. apply Hbad. constructor; [| exact Hall].
    apply (ExtraInputOk_head _ _ _ _ Hc). split; assumption.
Qed.

Lemma SumOutputs_Continue_inv state kernelPubKey outs nVerify nVerify' :
  SumOutputs state kernelPubKey outs nVerify = Continue nVerify' ->
  Forall OutputOk outs /\
  nVerify' = nVerify + Zsum (map (PaidToScript kernelPubKey) outs).
Proof.
  revert nVerify. induction outs as [| txout rest IH]; intros nVerify H.
  - injection H as <-. split; [constructor | cbn; lia].
  - cbn [SumOutputs] in H. cbn [map Zsum fold_right].
    fold (Zsum (map (PaidToScript kernelPubKey) rest)).
    assert (Hgo : forall v,
               OutputOk txout ->
               PaidToScript kernelPubKey txout = v - nVerify ->
               SumOutputs state kernelPubKey rest v = Continue nVerify' ->
               Forall OutputOk (txout :: rest) /\
               nVerify' = nVerify + (PaidToScript kernelPubKey txout
                                     + Zsum (map (PaidToScript kernelPubKey) rest))).
    { intros v Hhead Hpaid Hrest. destruct (IH _ Hrest) as [Hall Hsum].
      split; [constructor; assumption | lia]. }
    unfold IsType in H. unfold PaidToScript at 1 in Hgo. unfold OutputOk at 1 in Hgo.
    destruct (nVersion txout); cbn [OutputTypes_eqb negb] in H; try discriminate.
    + destruct (GetPScriptPubKey txout) as [s |].
      * destruct (CScript_eqb s kernelPubKey).
        -- destruct (add_int64 nVerify (GetValue txout)) as [v |] eqn:Hadd; [| discriminate].
           apply add_int64_Some in Hadd.
           apply (Hgo v); [left; reflexivity | lia | exact H].
        -- apply (Hgo nVerify); [left; reflexivity | lia | exact H].
      * apply (Hgo nVerify); [left; reflexivity | lia | exact H].
    + apply (Hgo nVerify); [right; reflexivity | lia | exact H].
Qed.

Lemma SumOutputs_ok state kernelPubKey outs nVerify :
  Forall OutputOk outs ->
  SumsFit nVerify (map (PaidToScript kernelPubKey) outs) ->
  SumOutputs state kernelPubKey outs nVerify
  = Continue (nVerify + Zsum (map (PaidToScript kernelPubKey) outs)).
Proof.
  revert nVerify. induction outs as [| txout rest IH]; intros nVerify Hok Hfit.
  - cbn. f_equal; lia.
  - inversion Hok as [| ? ? Hhead Hrest]; subst.
    cbn [SumOutputs map SumsFit Zsum fold_right] in *.
    fold (Zsum (map (PaidToScript kernelPubKey) rest)).
    destruct Hfit as [Hhere Hfit]. pose proof (IH _ Hrest Hfit) as Hgo.
    unfold IsType, PaidToScript in *.
    destruct Hhead as [Hv | Hv]; rewrite Hv in *; cbn [OutputTypes_eqb negb].
    + destruct (GetPScriptPubKey txout) as [s |].
      * destruct (CScript_eqb s kernelPubKey).
        -- rewrite (add_int64_fits _ _ Hhere), Hgo. f_equal; lia.
        -- rewrite Z.add_0_r in Hgo. rewrite Hgo. f_equal; lia.
      * rewrite Z.add_0_r in Hgo. rewrite Hgo. f_equal; lia.
    + rewrite Z.add_0_r in Hgo. rewrite Hgo. f_equal; lia.
Qed.

Lemma SumOutputs_bad state kernelPubKey outs nVerify :
  ~ Forall OutputOk outs ->
  SumsFit nVerify (map (PaidToScript kernelPubKey) outs) ->
  SumOutputs state kernelPubKey outs nVerify
  = Reject (Invalid state DOS_100 "bad-output-type").
Proof.
  revert nVerify. induction outs as [| txout rest IH]; intros nVerify Hbad Hfit.
  - exfalso. apply Hbad. constructor.
  - cbn [SumOutputs map SumsFit] in *. destruct Hfit as [Hhere Hfit].
    assert (Hgo : OutputOk txout ->
                  SumOutputs state kernelPubKey rest
                    (nVerify + PaidToScript kernelPubKey txout)
                  = Reject (Invalid state DOS_100 "bad-output-type")).
    { intros Hhead. apply IH; [| exact Hfit].
      intros Hall. apply Hbad. constructor; assumption. }
    unfold IsType, PaidToScript, OutputOk in *.
    destruct (nVersion txout); cbn [OutputTypes_eqb negb]; try reflexivity.
    + specialize (Hgo (or_introl eq_refl)).
      destruct (GetPScriptPubKey txout) as [s |].
      * destruct (CScript_eqb s kernelPubKey).
        -- rewrite (add_int64_fits _ _ Hhere). exact Hgo.
        -- rewrite Z.add_0_r in Hgo. exact Hgo.
      * rewrite Z.add_0_r in Hgo. exact Hgo.
    + specialize (Hgo (or_intror eq_refl)). rewrite Z.add_0_r in Hgo. exact Hgo.
Qed.

Lemma SumExtraInputs_app chain_state state kernelPubKey good rest amount :
  Forall (ExtraInputOk chain_state kernelPubKey) good ->
  SumsFit amount (map (InputValue chain_state) good) ->
  SumExtraInputs chain_state state kernelPubKey (good ++ rest) amount
  = SumExtraInputs chain_state state kernelPubKey rest
      (amount + Zsum (map (InputValue chain_state) good)).
Proof.
  revert amount. induction good as [| txin good IH]; intros amount Hok Hfit.
  - cbn. f_equal. lia.
  - inversion Hok as [| ? ? Hhead Hrest]; subst.
    destruct Hhead as (c & Hres & Hty & Hscript).
    cbn [map SumsFit Zsum fold_right app] in *.
    fold (Zsum (map (InputValue chain_state) good)).
    rewrite (InputValue_resolved _ _ _ Hres) in *.
    destruct Hfit as [Hhere Hfit].
    cbn [SumExtraInputs]. rewrite Hres, Hty, Hscript, CScript_eqb_refl.
    cbn [OutputTypes_eqb negb].
    rewrite (add_int64_fits _ _ Hhere), (IH _ Hrest Hfit).
    f_equal. lia.
Qed.

Lemma SumsFit_app_l start values values' :
  SumsFit start (values ++ values') -> SumsFit start values.
Proof.
  revert start. induction values as [| v values IH]; intros start Hfit; [exact I |].
  cbn [app SumsFit] in *. destruct Hfit as [Hhere Hfit].
  split; [exact Hhere | apply IH; exact Hfit].
Qed.

End SplitLoops.

Section CoinstakeOpSplitRule.

Context {E : Externals}.

(** The split, when the kernel script carries the coinstake-op and the
    sums stay within [int64_t]. *)
Lemma CoinstakeOpSplit_cases chain_state state kernelPubKey amount tx proof :
  SumsFit amount (map (InputValue chain_state) (tl (vin tx))) ->
  SumsFit 0 (map (PaidToScript kernelPubKey) (vpout tx)) ->
  let check := CoinstakeOpSplit chain_state state kernelPubKey amount tx proof in
  let total := amount + Zsum (map (InputValue chain_state) (tl (vin tx))) in
  let nVerify := Zsum (map (PaidToScript kernelPubKey) (vpout tx)) in
  (Forall (fun txin => ResolveExtraCoin chain_state txin <> None) (tl (vin tx)) ->
   ~ Forall (ExtraInputOk chain_state kernelPubKey) (tl (vin tx)) ->
   check = Returned false (Invalid state DOS_100 "invalid-prevout") proof \/
   check = Returned false (Invalid state DOS_100 "mixed-prevout-scripts") proof) /\
  (Forall (ExtraInputOk chain_state kernelPubKey) (tl (vin tx)) ->
   (~ Forall OutputOk (vpout tx) ->
    check = Returned false (Invalid state DOS_100 "bad-output-type") proof) /\
   (Forall OutputOk (vpout tx) -> nVerify < total ->
    check = Returned false (Invalid state DOS_100 "verify-amount-script-failed") proof) /\
   (Forall OutputOk (vpout tx) -> nVerify >= total ->
    check = Returned true state proof)).
Proof.
  intros Hin Hout. cbv zeta. unfold CoinstakeOpSplit. split.
  - intros Hres Hbad.
    destruct (SumExtraInputs_bad chain_state state kernelPubKey _ amount Hres Hbad Hin)
      as [-> | ->]; [left | right]; reflexivity.
  - intros Hok. rewrite (SumExtraInputs_ok _ state _ _ _ Hok Hin).
    split; [| split].
    + intros Hbad. rewrite (SumOutputs_bad state _ _ _ Hbad Hout). reflexivity.
    + intros Hall Hlt. rewrite (SumOutputs_ok state _ _ _ Hall Hout). cbn [Z.add].
      apply Z.ltb_lt in Hlt. rewrite Hlt. reflexivity.
    + intros Hall Hge. rewrite (SumOutputs_ok state _ _ _ Hall Hout). cbn [Z.add].
      destruct (Z.ltb_spec (Zsum (map (PaidToScript kernelPubKey) (vpout tx)))
                  (amount + Zsum (map (InputValue chain_state) (tl (vin tx)))));
        [lia | reflexivity].
Qed.

Lemma CoinstakeOpSplit_accepted_inv chain_state state kernelPubKey amount tx proof
    state' proof' :
  CoinstakeOpSplit chain_state state kernelPubKey amount tx proof
    = Returned true state' proof' ->
  Forall (ExtraInputOk chain_state kernelPubKey) (tl (vin tx)) /\
  Forall OutputOk (vpout tx) /\
  Zsum (map (PaidToScript kernelPubKey) (vpout tx))
    >= amount + Zsum (map (InputValue chain_state) (tl (vin tx))).
Proof.
  unfold CoinstakeOpSplit. intros H.
  destruct (SumExtraInputs chain_state state kernelPubKey (tl (vin tx)) amount)
    as [total | st |] eqn:Hin; [| discriminate | discriminate].
  destruct (SumOutputs state kernelPubKey (vpout tx) 0) as [nVerify | st |] eqn:Hout;
    [| discriminate | discriminate].
  destruct (Z.ltb_spec nVerify total) as [Hlt | Hge]; [discriminate |].
  apply SumExtraInputs_Continue_inv in Hin as [Hins ->].
  apply SumOutputs_Continue_inv in Hout as [Houts ->].
  repeat split; [exact Hins | exact Houts | lia].
Qed.

(** C5, as the code has it.  The script of the kernel carries the
    coinstake op.  An accepted coinstake has every extra input resolved to
    a standard coin with the script of the kernel, only standard and data
    outputs, and at least the sum of all input values paid to the script in
    standard outputs.  Once the kernel check has passed, with sums that fit
    [int64_t]: an extra input that does not resolve, after extra inputs that
    are such coins, is rejected with prevout-not-in-chain and DoS weight
    20; extra inputs that all resolve but not all to a standard coin with
    the kernel's script are rejected with invalid-prevout or
    mixed-prevout-scripts; then an output that is neither standard nor data
    with bad-output-type; then too small a sum with
    verify-amount-script-failed; each of these with DoS weight 100; and
    otherwise the coinstake is accepted. *)
Theorem coinstake_op_split (fVerifyingDB : bool) (chain_state : CChainState)
    (state : BlockValidationState) (pindexPrev : CBlockIndex) (tx : CTransaction)
    (nTime nBits : Z) (txin : CTxIn) (coin : Coin) (state1 : BlockValidationState)
    (Hvin : hd_error (vin tx) = Some txin)
    (Hresolved : ResolveKernelCoin fVerifyingDB chain_state state pindexPrev txin
                 = inr (coin, state1))
    (Hop : HasIsCoinstakeOp (scriptPubKey (out coin)) = true) :
  let kernelPubKey := scriptPubKey (out coin) in
  let extras := tl (vin tx) in
  let total := nValue (out coin) + Zsum (map (InputValue chain_state) extras) in
  let nVerify := Zsum (map (PaidToScript kernelPubKey) (vpout tx)) in
  let check := CheckProofOfStake fVerifyingDB chain_state state pindexPrev tx nTime nBits in
  (forall state' proof,
     check = Returned true state' proof ->
     Forall (ExtraInputOk chain_state kernelPubKey) extras /\
     Forall OutputOk (vpout tx) /\
     nVerify >= total) /\
  (forall pindex,
     ReachesKernelCheck fVerifyingDB chain_state state pindexPrev tx txin coin state1
       pindex ->
     kernel_ok (KernelCheck pindexPrev txin coin pindex nTime nBits) = true ->
     SumsFit (nValue (out coin)) (map (InputValue chain_state) extras) ->
     SumsFit 0 (map (PaidToScript kernelPubKey) (vpout tx)) ->
     let proof := kernel_proof (KernelCheck pindexPrev txin coin pindex nTime nBits) in
     (forall good bad rest,
        extras = good ++ bad :: rest ->
        Forall (ExtraInputOk chain_state kernelPubKey) good ->
        ResolveExtraCoin chain_state bad = None ->
        check = Returned false (Invalid state1 DOS_20 "prevout-not-in-chain") proof) /\
     (Forall (fun txin => ResolveExtraCoin chain_state txin <> None) extras ->
      ~ Forall (ExtraInputOk chain_state kernelPubKey) extras ->
      check = Returned false (Invalid state1 DOS_100 "invalid-prevout") proof \/
      check = Returned false (Invalid state1 DOS_100 "mixed-prevout-scripts") proof) /\
     (Forall (ExtraInputOk chain_state kernelPubKey) extras ->
      (~ Forall OutputOk (vpout tx) ->
       check = Returned false (Invalid state1 DOS_100 "bad-output-type") proof) /\
      (Forall OutputOk (vpout tx) -> nVerify < total ->
       check = Returned false (Invalid state1 DOS_100 "verify-amount-script-failed")
                 proof) /\
      (Forall OutputOk (vpout tx) -> nVerify >= total ->
       check = Returned true state1 proof)) /\
     dos_weight DOS_20 = 20 /\ dos_weight DOS_100 = 100).
Proof.
  cbv zeta. split.
  - intros state' proof Hacc.
    assert (Hidx : exists pindex, m_chain chain_state (coin_nHeight coin) = Some pindex).
    { assert (Hcs : IsCoinStake tx = true).
      { unfold CheckProofOfStake in Hacc.
        destruct (IsCoinStake tx); [reflexivity | discriminate]. }
      rewrite (CheckProofOfStake_resolved _ _ _ _ _ _ _ _ _ _ Hcs Hvin Hresolved) in Hacc.
      unfold CheckKernelCoin in Hacc.
      destruct (negb (OutputTypes_eqb (nType coin) OUTPUT_STANDARD)); [discriminate |].
      destruct (m_chain chain_state (coin_nHeight coin)) as [pindex |]; [| discriminate].
      exists pindex. reflexivity. }
    destruct Hidx as [pindex Hidx].
    destruct (CheckProofOfStake_accepted_inv _ _ _ _ _ _ _ _ _ _ _ _ _
                Hvin Hresolved Hidx Hacc) as (_ & _ & Hafter).
    unfold AfterKernelCheck in Hafter. rewrite Hop in Hafter.
    apply (CoinstakeOpSplit_accepted_inv _ _ _ _ _ _ _ _ Hafter).
  - intros pindex Hreach Hok Hin Hout.
    pose proof (CheckProofOfStake_at_kernel_check _ _ _ _ _ nTime nBits _ _ _ _ Hreach)
      as Hcheck.
    cbv zeta in Hcheck. rewrite Hok in Hcheck. cbn [negb] in Hcheck.
    unfold AfterKernelCheck in Hcheck. rewrite Hop in Hcheck. rewrite Hcheck.
    pose proof (CoinstakeOpSplit_cases chain_state state1 (scriptPubKey (out coin))
                  (nValue (out coin)) tx
                  (kernel_proof (KernelCheck pindexPrev txin coin pindex nTime nBits))
                  Hin Hout) as [Hbad Hgood].
    split; [| split; [exact Hbad |]; split; [exact Hgood | split; reflexivity]].
    intros good bad rest Hextras Hprefix Hnone.
    rewrite Hextras, map_app in Hin. apply SumsFit_app_l in Hin.
    unfold CoinstakeOpSplit.
    rewrite Hextras, (SumExtraInputs_app _ _ _ _ _ _ Hprefix Hin).
    cbn [SumExtraInputs]. rewrite Hnone. reflexivity.
Qed.

End CoinstakeOpSplitRule.

Lemma coinstake_op_split_witness :
  (hd_error (vin Sample.tx_underpaid) = Some (Sample.input Sample.op_stake) /\
   HasIsCoinstakeOp (Externals := Sample.externals)
     (scriptPubKey (out Sample.coin_stake)) = true /\
   ReachesKernelCheck (E := Sample.externals) false Sample.chain_state Sample.state0
     (Sample.tip 1) Sample.tx_underpaid (Sample.input Sample.op_stake)
     Sample.coin_stake Sample.state0 (Sample.block_at 700) /\
   Forall (ExtraInputOk Sample.chain_state Sample.coinstake_script)
     (tl (vin Sample.tx_underpaid)) /\
   Forall OutputOk (vpout Sample.tx_underpaid) /\
   Zsum (map (PaidToScript Sample.coinstake_script) (vpout Sample.tx_underpaid))
     < nValue (out Sample.coin_stake)
       + Zsum (map (InputValue Sample.chain_state) (tl (vin Sample.tx_underpaid)))) /\
  CheckProofOfStake (E := Sample.externals) false Sample.chain_state Sample.state0
    (Sample.tip 1) Sample.tx_underpaid Sample.block_time Sample.nBits
  = Returned false (Invalid Sample.state0 DOS_100 "verify-amount-script-failed")
      (kernel_proof (KernelCheck (E := Sample.externals) (Sample.tip 1)
                       (Sample.input Sample.op_stake) Sample.coin_stake
                       (Sample.block_at 700) Sample.block_time Sample.nBits)).
Proof.
  assert (Hvin : hd_error (vin Sample.tx_underpaid) = Some (Sample.input Sample.op_stake))
    by reflexivity.
  assert (Hres : ResolveKernelCoin (E := Sample.externals) false Sample.chain_state
                   Sample.state0 (Sample.tip 1) (Sample.input Sample.op_stake)
                 = inr (Sample.coin_stake, Sample.state0)) by reflexivity.
  assert (Hop : HasIsCoinstakeOp (Externals := Sample.externals)
                  (scriptPubKey (out Sample.coin_stake)) = true) by reflexivity.
  assert (Hreach : ReachesKernelCheck (E := Sample.externals) false Sample.chain_state
                     Sample.state0 (Sample.tip 1) Sample.tx_underpaid
                     (Sample.input Sample.op_stake) Sample.coin_stake Sample.state0
                     (Sample.block_at 700))
    by (unfold ReachesKernelCheck, ReachesDepthCheck; repeat split; by_evaluation).
  assert (Hok : kernel_ok (KernelCheck (E := Sample.externals) (Sample.tip 1)
                             (Sample.input Sample.op_stake) Sample.coin_stake
                             (Sample.block_at 700) Sample.block_time Sample.nBits) = true)
    by by_evaluation.
  assert (Hin : SumsFit (nValue (out Sample.coin_stake))
                  (map (InputValue Sample.chain_state) (tl (vin Sample.tx_underpaid))))
    by (cbn; repeat split; by_evaluation).
  assert (Hout : SumsFit 0 (map (PaidToScript (scriptPubKey (out Sample.coin_stake)))
                              (vpout Sample.tx_underpaid)))
    by (cbn; repeat split; by_evaluation).
  assert (Hextras : Forall (ExtraInputOk Sample.chain_state Sample.coinstake_script)
                      (tl (vin Sample.tx_underpaid))).
  { apply Forall_cons; [| apply Forall_nil].
    exists Sample.coin_extra. repeat split. }
  assert (Houts : Forall OutputOk (vpout Sample.tx_underpaid)).
  { apply Forall_cons; [right; reflexivity |].
    apply Forall_cons; [left; reflexivity | apply Forall_nil]. }
  assert (Hlt : Zsum (map (PaidToScript Sample.coinstake_script)
                        (vpout Sample.tx_underpaid))
                < nValue (out Sample.coin_stake)
                  + Zsum (map (InputValue Sample.chain_state)
                            (tl (vin Sample.tx_underpaid))))
    by by_evaluation.
  split; [exact (conj Hvin (conj Hop (conj Hreach (conj Hextras (conj Houts Hlt))))) |].
  pose proof (proj2 (coinstake_op_split (E := Sample.externals) false Sample.chain_state
                       Sample.state0 (Sample.tip 1) Sample.tx_underpaid
                       Sample.block_time Sample.nBits (Sample.input Sample.op_stake)
                       Sample.coin_stake Sample.state0 Hvin Hres Hop)
                (Sample.block_at 700) Hreach Hok Hin Hout) as (_ & _ & Hgood & _).
  exact (proj1 (proj2 (Hgood Hextras)) Houts Hlt).
Defined.

(** C5 fails as stated: the kernel of this coinstake carries the coinstake
    op and passes the kernel check, and its second input is in neither the
    UTXO set nor the archive.  The coinstake is rejected, but with
    prevout-not-in-chain and DoS weight 20: not with invalid-prevout, not
    with mixed-prevout-scripts and not with weight 100. *)
Lemma unresolved_input_counterexample :
  let tx := Sample.coinstake
              [Sample.input Sample.op_stake; Sample.input Sample.op_unknown]
              [Sample.data_output; Sample.std_output 150 Sample.coinstake_script] in
  let check := CheckProofOfStake (E := Sample.externals) false Sample.chain_state
                 Sample.state0 (Sample.tip 1) tx Sample.block_time Sample.nBits in
  HasIsCoinstakeOp (Externals := Sample.externals)
    (scriptPubKey (out Sample.coin_stake)) = true /\
  ReachesKernelCheck (E := Sample.externals) false Sample.chain_state Sample.state0
    (Sample.tip 1) tx (Sample.input Sample.op_stake) Sample.coin_stake Sample.state0
    (Sample.block_at 700) /\
  kernel_ok (KernelCheck (E := Sample.externals) (Sample.tip 1)
               (Sample.input Sample.op_stake) Sample.coin_stake (Sample.block_at 700)
               Sample.block_time Sample.nBits) = true /\
  ~ Forall (ExtraInputOk Sample.chain_state Sample.coinstake_script) (tl (vin tx)) /\
  RejectedAs check DOS_20 "prevout-not-in-chain" /\
  ~ RejectedAs check DOS_100 "invalid-prevout" /\
  ~ RejectedAs check DOS_100 "mixed-prevout-scripts" /\
  ~ RejectsWithWeight check 100.
Proof.
  cbv zeta.
  assert (Hcheck : CheckProofOfStake (E := Sample.externals) false Sample.chain_state
                     Sample.state0 (Sample.tip 1)
                     (Sample.coinstake
                        [Sample.input Sample.op_stake; Sample.input Sample.op_unknown]
                        [Sample.data_output;
                         Sample.std_output 150 Sample.coinstake_script])
                     Sample.block_time Sample.nBits
                   = Returned false (Invalid Sample.state0 DOS_20 "prevout-not-in-chain")
                       (Some (1, 0xffff * 2 ^ 208 * 100)))
    by by_evaluation.
  rewrite Hcheck.
  split; [reflexivity |].
  split; [unfold ReachesKernelCheck, ReachesDepthCheck; repeat split; by_evaluation |].
  split; [by_evaluation |].
  split; [| split; [| split; [| split]]].
  - intros Hall. inversion Hall as [| ? ? (c & Hres & _) _]. discriminate Hres.
  - do 2 eexists. split; reflexivity.
  - intros (st & p & Heq & Hm). injection Heq as <- _. discriminate Hm.
  - intros (st & p & Heq & Hm). injection Heq as <- _. discriminate Hm.
  - intros (st & p & r & reason & Heq & Hm & Hw).
    injection Heq as <- _. cbn [Invalid m_result] in Hm. injection Hm as <- _.
    discriminate Hw.
Qed.

(** ** The staker's probe and its out-pointer *)

Section StakerProbe.

Context {E : Externals}.

(** C10.  When the prevout is an unspent standard coin of the UTXO set, on
    the active chain and deep enough, [CheckKernel] reads through
    [pBlockTime] for the kernel check although it wrote through it only
    when it was not null: with a null pointer the call is undefined, with a
    pointer to an [int64_t] it stores the block time of the coin there and
    returns what the kernel check returns.  So the call is defined if and
    only if [pBlockTime] is not null. *)
Theorem CheckKernel_needs_pBlockTime (chain_state : CChainState)
    (pindexPrev : CBlockIndex) (nBits nTime : Z) (prevout : COutPoint)
    (pBlockTime : option Z) (coin : Coin) (pindex : CBlockIndex)
    (Hcoin : GetCoin chain_state prevout = Some coin)
    (Hstandard : nType coin = OUTPUT_STANDARD)
    (Hunspent : IsSpent coin = false)
    (Hindex : m_chain chain_state (coin_nHeight coin) = Some pindex)
    (Hdepth : RequiredDepth pindexPrev <= nHeight pindexPrev - coin_nHeight coin) :
  let call := CheckKernel chain_state pindexPrev nBits nTime prevout in
  call None = None /\
  (forall v,
     call (Some v) =
     Some (kernel_ok (CheckStakeKernelHash pindexPrev nBits
                        (to_uint32 (GetBlockTime pindex)) (nValue (out coin)) prevout
                        (to_uint32 nTime)),
           Some (GetBlockTime pindex))) /\
  (call pBlockTime <> None <-> pBlockTime <> None).
Proof.
  cbv zeta.
  assert (Hcall : forall p,
             CheckKernel chain_state pindexPrev nBits nTime prevout p =
             match p with
             | None => None
             | Some _ =>
                 Some (kernel_ok (CheckStakeKernelHash pindexPrev nBits
                                    (to_uint32 (GetBlockTime pindex)) (nValue (out coin))
                                    prevout (to_uint32 nTime)),
                       Some (GetBlockTime pindex))
             end).
  { intros p. unfold CheckKernel, RequiredDepth in *.
    rewrite Hcoin, Hstandard, Hunspent, Hindex. cbn [OutputTypes_eqb negb].
    destruct (Z.gtb_spec (Z.min (GetStakeMinConfirmations - 1)
                            (Z.quot (nHeight pindexPrev) 2))
                (nHeight pindexPrev - coin_nHeight coin)); [lia |].
    destruct p; reflexivity. }
  split; [apply (Hcall None) |]. split; [intros v; apply (Hcall (Some v)) |].
  rewrite Hcall. destruct pBlockTime as [v |].
  - split; intros _ Heq; discriminate Heq.
  - split; intros H; exfalso; apply H; reflexivity.
Qed.

End StakerProbe.

Lemma CheckKernel_needs_pBlockTime_witness :
  (GetCoin Sample.chain_state Sample.op_plain = Some Sample.coin_plain /\
   nType Sample.coin_plain = OUTPUT_STANDARD /\
   IsSpent Sample.coin_plain = false /\
   m_chain Sample.chain_state (coin_nHeight Sample.coin_plain)
     = Some (Sample.block_at 700) /\
   RequiredDepth (E := Sample.externals) (Sample.tip 1)
     <= nHeight (Sample.tip 1) - coin_nHeight Sample.coin_plain) /\
  CheckKernel (E := Sample.externals) Sample.chain_state (Sample.tip 1) Sample.nBits
    Sample.block_time Sample.op_plain None = None /\
  CheckKernel (E := Sample.externals) Sample.chain_state (Sample.tip 1) Sample.nBits
    Sample.block_time Sample.op_plain (Some 0) = Some (true, Some 1600000000).
Proof.
  assert (H1 : GetCoin Sample.chain_state Sample.op_plain = Some Sample.coin_plain)
    by reflexivity.
  assert (H2 : nType Sample.coin_plain = OUTPUT_STANDARD) by reflexivity.
  assert (H3 : IsSpent Sample.coin_plain = false) by reflexivity.
  assert (H4 : m_chain Sample.chain_state (coin_nHeight Sample.coin_plain)
               = Some (Sample.block_at 700)) by reflexivity.
  assert (H5 : RequiredDepth (E := Sample.externals) (Sample.tip 1)
               <= nHeight (Sample.tip 1) - coin_nHeight Sample.coin_plain)
    by by_evaluation.
  split; [exact (conj H1 (conj H2 (conj H3 (conj H4 H5)))) |].
  pose proof (CheckKernel_needs_pBlockTime (E := Sample.externals) Sample.chain_state
                (Sample.tip 1) Sample.nBits Sample.block_time Sample.op_plain None
                Sample.coin_plain (Sample.block_at 700) H1 H2 H3 H4 H5) as (Hnull & Hptr & _).
  split; [exact Hnull |].
  rewrite (Hptr 0). by_evaluation.
Defined.

(** ** The validator on the sample chain *)

Module Scenarios.

Import Sample.

(** The compact encoding on known values: [0x1d00ffff], a mantissa below
    the unit, a negative mantissa and an exponent too large for 256 bits. *)
Example compact_values :
  Arith256.SetCompact 0x1d00ffff = (0xffff * 2 ^ 208, false, false) /\
  Arith256.SetCompact 0x01003456 = (0, false, false) /\
  Arith256.SetCompact 0x02008000 = (0x80, false, false) /\
  Arith256.SetCompact 0x01fedcba = (0x7e, true, false) /\
  Arith256.SetCompact 0xff123456 = (0, false, true).
Proof. repeat split; by_evaluation. Qed.

(** A winning kernel: the coinstake is accepted and the proof is returned. *)
Example winning_kernel :
  CheckProofOfStake (E := externals) false chain_state state0 (tip 1) tx_plain
    block_time nBits
  = Returned true state0 (Some (1, 0xffff * 2 ^ 208 * 1000000000)).
Proof. by_evaluation. Qed.

(** A losing kernel: the same coinstake against a modifier whose hash is
    above the weighted target. *)
Example losing_kernel :
  CheckProofOfStake (E := externals) false chain_state state0 (tip (2 ^ 255)) tx_plain
    block_time nBits
  = Returned false (Invalid state0 DOS_1 "check-kernel-failed")
      (Some (2 ^ 255, 0xffff * 2 ^ 208 * 1000000000)).
Proof. by_evaluation. Qed.

(** A block time before the time of the kernel coin's block: the validator
    reports it as a failed kernel check, and no proof is written. *)
Example block_time_before_kernel :
  CheckProofOfStake (E := externals) false chain_state state0 (tip 1) tx_plain
    1599999999 nBits
  = Returned false (Invalid state0 DOS_1 "check-kernel-failed") None.
Proof. by_evaluation. Qed.

(** A kernel coin one block below the tip. *)
Example immature_kernel :
  CheckProofOfStake (E := externals) false chain_state state0 (tip 1)
    (coinstake [input op_young] [data_output; std_output 1000000100 plain_script])
    block_time nBits
  = Returned false (Invalid state0 DOS_100 "invalid-stake-depth") None.
Proof. by_evaluation. Qed.

(** A kernel spent 5 blocks below the tip is taken from the archive and
    flagged; one spent 200 blocks below is refused, unless the database is
    being verified. *)
Example spent_kernel_within_bound :
  CheckProofOfStake (E := externals) false chain_state state0 (tip 1)
    (coinstake [input op_recent] [data_output; std_output 1000000100 plain_script])
    block_time nBits
  = Returned true (SetFlag state0 16) (Some (1, 0xffff * 2 ^ 208 * 1000000000)).
Proof. by_evaluation. Qed.

Example spent_kernel_beyond_bound :
  CheckProofOfStake (E := externals) false chain_state state0 (tip 1)
    (coinstake [input op_old] [data_output; std_output 1000000100 plain_script])
    block_time nBits
  = Returned false (Invalid state0 DOS_100 "invalid-prevout") None /\
  CheckProofOfStake (E := externals) true chain_state state0 (tip 1)
    (coinstake [input op_old] [data_output; std_output 1000000100 plain_script])
    block_time nBits
  = Returned true (SetFlag state0 16) (Some (1, 0xffff * 2 ^ 208 * 1000000000)).
Proof. split; by_evaluation. Qed.

(** An archived coin that is not a standard output is refused after the
    flag has been set. *)
Example spent_kernel_not_standard :
  CheckProofOfStake (E := externals) false chain_state state0 (tip 1)
    (coinstake [input op_data] []) block_time nBits
  = Returned false (Invalid (SetFlag state0 16) DOS_100 "invalid-prevout") None.
Proof. by_evaluation. Qed.

Example unknown_kernel :
  CheckProofOfStake (E := externals) false chain_state state0 (tip 1)
    (coinstake [input op_unknown] []) block_time nBits
  = Returned false (Invalid state0 DOS_20 "prevout-not-found") None.
Proof. by_evaluation. Qed.

(** The coinstake-op split: 140 paid back for inputs of 100 and 50 is too
    little, 150 is enough, an input with another script or an unknown one
    is refused, and so is a blinded output. *)
Example split_underpaid :
  CheckProofOfStake (E := externals) false chain_state state0 (tip 1) tx_underpaid
    block_time nBits
  = Returned false (Invalid state0 DOS_100 "verify-amount-script-failed")
      (Some (1, 0xffff * 2 ^ 208 * 100)).
Proof. by_evaluation. Qed.

Example split_paid :
  CheckProofOfStake (E := externals) false chain_state state0 (tip 1)
    (coinstake [input op_stake; input op_extra]
               [data_output; std_output 150 coinstake_script])
    block_time nBits
  = Returned true state0 (Some (1, 0xffff * 2 ^ 208 * 100)).
Proof. by_evaluation. Qed.

Example split_mixed_scripts :
  CheckProofOfStake (E := externals) false chain_state state0 (tip 1)
    (coinstake [input op_stake; input op_mixed]
               [data_output; std_output 150 coinstake_script])
    block_time nBits
  = Returned false (Invalid state0 DOS_100 "mixed-prevout-scripts")
      (Some (1, 0xffff * 2 ^ 208 * 100)).
Proof. by_evaluation. Qed.

Example split_unknown_input :
  CheckProofOfStake (E := externals) false chain_state state0 (tip 1)
    (coinstake [input op_stake; input op_unknown; input op_mixed]
               [data_output; std_output 150 coinstake_script])
    block_time nBits
  = Returned false (Invalid state0 DOS_20 "prevout-not-in-chain")
      (Some (1, 0xffff * 2 ^ 208 * 100)).
Proof. by_evaluation. Qed.

Example split_blinded_output :
  CheckProofOfStake (E := externals) false chain_state state0 (tip 1)
    (coinstake [input op_stake; input op_extra]
               [data_output; std_output 150 coinstake_script; blind_output])
    block_time nBits
  = Returned false (Invalid state0 DOS_100 "bad-output-type")
      (Some (1, 0xffff * 2 ^ 208 * 100)).
Proof. by_evaluation. Qed.

(** A sum of output values beyond [int64_t] leaves the call undefined. *)
Example split_sum_overflows :
  CheckProofOfStake (E := externals) false chain_state state0 (tip 1)
    (coinstake [input op_stake; input op_extra]
               [std_output INT64_MAX coinstake_script; std_output 1 coinstake_script])
    block_time nBits
  = Undefined.
Proof. by_evaluation. Qed.

(** With the compact target [0x1e0fffff] and a stake of [10^9] the product
    does not fit 256 bits: the weighted target is the product less
    [953 * 2^256]. *)
Example weighted_target_of_large_stake :
  WeightedTarget (CompactTarget 0x1e0fffff) 1000000000
  = CompactTarget 0x1e0fffff * 1000000000 - 953 * 2 ^ 256.
Proof. by_evaluation. Qed.

End Scenarios.

(** ** The streams are unambiguous *)

Lemma app_inj_length {A : Type} (a a' b b' : list A) :
  List.length a = List.length a' -> a ++ b = a' ++ b' -> a = a' /\ b = b'.
Proof.
  revert a'. induction a as [| x a IH]; intros [| x' a'] Hlen Heq;
    try discriminate.
  - split; [reflexivity | exact Heq].
  - cbn in Hlen, Heq. injection Hlen as Hlen. injection Heq as -> Heq.
    destruct (IH _ Hlen Heq) as [-> ->]. split; reflexivity.
Qed.

Lemma le_split_eq_iff len a b :
  le_split len a = le_split len b <->
  a mod 2 ^ (Z.of_nat len * 8) = b mod 2 ^ (Z.of_nat len * 8).
Proof.
  split; intros H.
  - apply (f_equal le_combine) in H. rewrite !le_combine_split in H. exact H.
  - rewrite (le_split_mod a), (le_split_mod b), H. reflexivity.
Qed.

Lemma KernelStream_split modifier nBlockFromTime prevout nTime :
  KernelStream modifier nBlockFromTime prevout nTime =
  le_split 32 modifier ++ le_split 4 nBlockFromTime ++ le_split 32 (hash prevout)
    ++ le_split 4 (n prevout) ++ le_split 4 nTime.
Proof.
  unfold KernelStream, ser_uint32, ser_uint256. cbn [app].
  rewrite <- !app_assoc. reflexivity.
Qed.

(** X1.  Two kernel streams are equal exactly when their five fields agree
    in the bits that are written: the modifier and the txid modulo [2^256],
    the two times and the output index modulo [2^32].  So kernels that
    differ in a field, within the range of its type, are hashed from
    different streams. *)
Theorem kernel_stream_injective (modifier modifier' nBlockFromTime nBlockFromTime' : Z)
    (prevout prevout' : COutPoint) (nTime nTime' : Z) :
  KernelStream modifier nBlockFromTime prevout nTime
  = KernelStream modifier' nBlockFromTime' prevout' nTime' <->
  modifier mod 2 ^ 256 = modifier' mod 2 ^ 256 /\
  nBlockFromTime mod 2 ^ 32 = nBlockFromTime' mod 2 ^ 32 /\
  hash prevout mod 2 ^ 256 = hash prevout' mod 2 ^ 256 /\
  n prevout mod 2 ^ 32 = n prevout' mod 2 ^ 32 /\
  nTime mod 2 ^ 32 = nTime' mod 2 ^ 32.
Proof.
  rewrite !KernelStream_split.
  change (2 ^ 256) with (2 ^ (Z.of_nat 32 * 8)).
  change (2 ^ 32) with (2 ^ (Z.of_nat 4 * 8)).
  rewrite <- !le_split_eq_iff.
  split.
  - intros H.
    apply app_inj_length in H as [H1 H]; [| rewrite !length_le_split; reflexivity].
    apply app_inj_length in H as [H2 H]; [| rewrite !length_le_split; reflexivity].
    apply app_inj_length in H as [H3 H]; [| rewrite !length_le_split; reflexivity].
    apply app_inj_length in H as [H4 H5]; [| rewrite !length_le_split; reflexivity].
    repeat split; assumption.
  - intros (-> & -> & -> & -> & ->). reflexivity.
Qed.

Section ModifierFacts.

Context {E : Externals}.

(** X2.  The stake modifier of a block without predecessor is the zero
    word.  Otherwise it is the chain hash of exactly 64 bytes, the kernel
    hash as 32 little-endian bytes followed by the modifier of the
    predecessor as 32; and this stream determines both values modulo
    [2^256], so the order of the two cannot be mistaken. *)
Theorem stake_modifier_preimage (pindexPrev : CBlockIndex) (kernel : Z) :
  ComputeStakeModifierV2 None kernel = 0 /\
  ComputeStakeModifierV2 (Some pindexPrev) kernel
  = Hash (le_bytes 32 kernel ++ le_bytes 32 (bnStakeModifier pindexPrev)) /\
  List.length (ModifierStream kernel (bnStakeModifier pindexPrev)) = 64%nat /\
  (forall kernel' modifier',
     ModifierStream kernel (bnStakeModifier pindexPrev)
     = ModifierStream kernel' modifier' <->
     kernel mod 2 ^ 256 = kernel' mod 2 ^ 256 /\
     bnStakeModifier pindexPrev mod 2 ^ 256 = modifier' mod 2 ^ 256).
Proof.
  assert (Hs : forall k m, ModifierStream k m = le_split 32 k ++ le_split 32 m)
    by reflexivity.
  split; [reflexivity |]. split; [| split].
  - cbn [ComputeStakeModifierV2]. rewrite Hs, !le_split_le_bytes. reflexivity.
  - rewrite Hs, length_app, !length_le_split. reflexivity.
  - intros kernel' modifier'. rewrite !Hs.
    change (2 ^ 256) with (2 ^ (Z.of_nat 32 * 8)).
    rewrite <- !le_split_eq_iff. split.
    + intros H. apply app_inj_length in H; [exact H |].
      rewrite !length_le_split. reflexivity.
    + intros [-> ->]. reflexivity.
Qed.

End ModifierFacts.

(** ** More on the kernel check *)

Section KernelCheckFacts.

Context {E : Externals}.

(** X3.  As long as the product of target and stake fits 256 bits, a
    kernel that meets the target keeps meeting it with a larger stake, and
    with a compact target that decodes to a larger valid target. *)
Theorem larger_stake_keeps_winning (pindexPrev : CBlockIndex)
    (nBits nBits' nBlockFromTime amount amount' : Z) (prevout : COutPoint) (nTime : Z)
    (Hamount : 0 <= amount <= amount')
    (Hint64 : amount' <= INT64_MAX)
    (Htarget : CompactTarget nBits <= CompactTarget nBits')
    (Hvalid : CompactValid nBits' = true)
    (Hfits : CompactTarget nBits' * amount' < 2 ^ 256)
    (Hwin : kernel_ok (CheckStakeKernelHash pindexPrev nBits nBlockFromTime amount
                         prevout nTime) = true) :
  kernel_ok (CheckStakeKernelHash pindexPrev nBits' nBlockFromTime amount'
               prevout nTime) = true.
Proof.
  apply kernel_ok_iff in Hwin as (Htime & _ & Hle).
  apply kernel_ok_iff. split; [exact Htime |]. split; [exact Hvalid |].
  pose proof (CompactTarget_nonneg nBits) as Ht.
  assert (Ha : 0 <= amount <= INT64_MAX) by lia.
  assert (Ha' : 0 <= amount' <= INT64_MAX) by lia.
  rewrite (WeightedTarget_mod _ _ Ha) in Hle.
  rewrite (WeightedTarget_mod _ _ Ha').
  assert (H1 : CompactTarget nBits * amount <= CompactTarget nBits' * amount')
    by (apply Z.mul_le_mono_nonneg; lia).
  assert (H0 : 0 <= CompactTarget nBits * amount)
    by (apply Z.mul_nonneg_nonneg; lia).
  rewrite Z.mod_small in Hle by lia.
  rewrite Z.mod_small by lia. lia.
Qed.

(** X4.  The kernel check writes its two out-parameters exactly when the
    time test and the compact test pass.  What it writes is the kernel hash
    and the weighted target, a 256-bit value, and the pair tells the
    verdict: the check returned [true] if and only if the hash written is at
    most the target written. *)
Theorem kernel_proof_tells_verdict (pindexPrev : CBlockIndex)
    (nBits nBlockFromTime prevOutAmount : Z) (prevout : COutPoint) (nTime : Z) :
  let check := CheckStakeKernelHash pindexPrev nBits nBlockFromTime prevOutAmount
                 prevout nTime in
  (kernel_proof check = None <->
   nTime < nBlockFromTime \/ CompactValid nBits = false) /\
  (forall hashProofOfStake targetProofOfStake,
     kernel_proof check = Some (hashProofOfStake, targetProofOfStake) ->
     hashProofOfStake
     = KernelHash (bnStakeModifier pindexPrev) nBlockFromTime prevout nTime /\
     targetProofOfStake = WeightedTarget (CompactTarget nBits) prevOutAmount /\
     0 <= targetProofOfStake < 2 ^ 256 /\
     (kernel_ok check = true <-> hashProofOfStake <= targetProofOfStake)).
Proof.
  cbv zeta. rewrite CheckStakeKernelHash_eq.
  destruct (Z.ltb_spec nTime nBlockFromTime) as [Ht | Ht].
  { split; [split; [intros _; left; exact Ht | reflexivity] | discriminate]. }
  destruct (CompactValid nBits) eqn:Hv; cbn [negb].
  2: { split; [split; [intros _; right; reflexivity | reflexivity] | discriminate]. }
  cbv zeta.
  assert (Hrange : 0 <= WeightedTarget (CompactTarget nBits) prevOutAmount < 2 ^ 256)
    by apply to_uint256_range.
  destruct (Z.gtb_spec
              (KernelHash (bnStakeModifier pindexPrev) nBlockFromTime prevout nTime)
              (WeightedTarget (CompactTarget nBits) prevOutAmount)) as [Hgt | Hle];
    cbn [kernel_proof kernel_ok].
  - split; [split; [discriminate | intros [H | H]; [lia | discriminate]] |].
    intros h t Heq. injection Heq as <- <-.
    repeat split; try exact (proj1 Hrange); try exact (proj2 Hrange);
      [discriminate | lia].
  - split; [split; [discriminate | intros [H | H]; [lia | discriminate]] |].
    intros h t Heq. injection Heq as <- <-.
    repeat split; try exact (proj1 Hrange); try exact (proj2 Hrange); lia.
Qed.

(** X5.  The stake amount is an [int64_t] that the weight takes as a
    [uint64_t]: a negative amount weighs as the amount plus [2^64].  The
    value -1 of a null output weighs as [2^64 - 1]. *)
Theorem negative_amount_weight (bnTarget prevOutAmount : Z)
    (Hneg : INT64_MIN <= prevOutAmount < 0) :
  WeightedTarget bnTarget prevOutAmount
  = (bnTarget * (prevOutAmount + 2 ^ 64)) mod 2 ^ 256.
Proof.
  unfold WeightedTarget, Arith256.mul, Arith256.of_uint64, to_uint256, to_uint64.
  unfold INT64_MIN in Hneg.
  assert (H64 : prevOutAmount mod 2 ^ 64 = prevOutAmount + 2 ^ 64).
  { symmetry. apply (Z.mod_unique_pos _ _ (-1)); lia. }
  rewrite H64.
  assert (H256 : 2 ^ 64 < 2 ^ 256) by (apply Z.pow_lt_mono_r; lia).
  rewrite (Z.mod_small (prevOutAmount + 2 ^ 64)) by lia. reflexivity.
Qed.

End KernelCheckFacts.

Lemma larger_stake_keeps_winning_witness :
  kernel_ok (CheckStakeKernelHash (E := Sample.externals) (Sample.tip 1) Sample.nBits
               1600000000 1000000000 Sample.op_plain Sample.block_time) = true /\
  kernel_ok (CheckStakeKernelHash (E := Sample.externals) (Sample.tip 1) 0x1d01ffff
               1600000000 1500000000 Sample.op_plain Sample.block_time) = true.
Proof.
  assert (Hwin : kernel_ok (CheckStakeKernelHash (E := Sample.externals) (Sample.tip 1)
                              Sample.nBits 1600000000 1000000000 Sample.op_plain
                              Sample.block_time) = true) by by_evaluation.
  split; [exact Hwin |].
  apply (larger_stake_keeps_winning (E := Sample.externals) (Sample.tip 1) Sample.nBits
           0x1d01ffff 1600000000 1000000000 1500000000 Sample.op_plain
           Sample.block_time);
    [lia | by_evaluation | by_evaluation | by_evaluation | by_evaluation | exact Hwin].
Defined.

Lemma negative_amount_weight_witness :
  WeightedTarget 5 (-1) = (5 * (-1 + 2 ^ 64)) mod 2 ^ 256.
Proof. apply (negative_amount_weight 5 (-1)). unfold INT64_MIN. lia. Defined.

(** ** The order of the checks *)

Section PathFacts.

Context {E : Externals}.

Lemma CheckProofOfStake_path (fVerifyingDB : bool) (chain_state : CChainState)
    (state : BlockValidationState) (pindexPrev : CBlockIndex) (tx : CTransaction)
    (nTime nBits : Z) :
  CheckPath fVerifyingDB chain_state state pindexPrev tx nTime nBits
    (CheckProofOfStake fVerifyingDB chain_state state pindexPrev tx nTime nBits).
Proof.
  destruct (IsCoinStake tx) eqn:Hcs.
  2: { unfold CheckProofOfStake. rewrite Hcs.
       apply PathMalformed. left. exact Hcs. }
  destruct (vin tx) as [| txin rest] eqn:Hvin.
  { unfold CheckProofOfStake. rewrite Hcs, Hvin.
    apply PathMalformed. right. exact Hvin. }
  assert (Hhd : hd_error (vin tx) = Some txin) by (rewrite Hvin; reflexivity).
  destruct (ResolveKernelCoin fVerifyingDB chain_state state pindexPrev txin)
    as [state' | [coin state1]] eqn:Hres.
  { unfold CheckProofOfStake. rewrite Hcs, Hvin, Hres.
    eapply PathUnresolved; eassumption. }
  rewrite (CheckProofOfStake_resolved _ _ _ _ _ _ _ _ _ _ Hcs Hhd Hres).
  destruct (OutputTypes_eqb (nType coin) OUTPUT_STANDARD) eqn:Hty.
  2: { unfold CheckKernelCoin. rewrite Hty.
       eapply PathNotStandard; try eassumption.
       intros Heq. rewrite Heq in Hty. discriminate. }
  apply OutputTypes_eqb_eq in Hty.
  destruct (m_chain chain_state (coin_nHeight coin)) as [pindex |] eqn:Hidx.
  2: { unfold CheckKernelCoin. rewrite Hty, Hidx.
       eapply PathOffChain; eassumption. }
  assert (Hreach : ReachesDepthCheck fVerifyingDB chain_state state pindexPrev tx txin
                     coin state1 pindex) by (repeat split; assumption).
  rewrite <- (CheckProofOfStake_resolved _ _ _ _ _ _ _ _ _ _ Hcs Hhd Hres).
  rewrite (CheckProofOfStake_at_depth_check _ _ _ _ _ nTime nBits _ _ _ _ Hreach).
  destruct (Z.gtb_spec (RequiredDepth pindexPrev) (nHeight pindexPrev - coin_nHeight coin))
    as [Hshallow | Hdeep].
  { eapply PathShallow; [eassumption | lia]. }
  unfold AfterDepthCheck.
  destruct (VerifyScript (scriptSig txin) (scriptPubKey (out coin)) (scriptWitness txin)
              tx 0 (le_split 8 (nValue (out coin)))) eqn:Hscript; cbn [negb].
  2: { eapply PathScript; eassumption. }
  assert (Hkernel : ReachesKernelCheck fVerifyingDB chain_state state pindexPrev tx txin
                      coin state1 pindex) by (repeat split; assumption).
  cbv zeta.
  destruct (kernel_ok (KernelCheck pindexPrev txin coin pindex nTime nBits)) eqn:Hok;
    cbn [negb].
  - eapply PathPassed; eassumption.
  - eapply PathKernel; eassumption.
Qed.

Lemma ResolveKernelCoin_inl fVerifyingDB chain_state state pindexPrev txin state' :
  ResolveKernelCoin fVerifyingDB chain_state state pindexPrev txin = inl state' ->
  LiveCoin chain_state (prevout txin) = None /\
  (state' = Invalid state DOS_20 "prevout-not-found" \/
   state' = Invalid state DOS_100 "invalid-prevout").
Proof.
  unfold ResolveKernelCoin.
  destruct (LiveCoin chain_state (prevout txin)); [discriminate |].
  destruct (ReadSpentCache chain_state (prevout txin)) as [sc |].
  - match goal with |- context [if ?c then _ else _] => destruct c end;
      [| discriminate].
    intros H. injection H as <-. split; [reflexivity | right; reflexivity].
  - intros H. injection H as <-. split; [reflexivity | left; reflexivity].
Qed.

Lemma ResolveKernelCoin_inr fVerifyingDB chain_state state pindexPrev txin c state1 :
  ResolveKernelCoin fVerifyingDB chain_state state pindexPrev txin = inr (c, state1) ->
  (LiveCoin chain_state (prevout txin) = Some c /\ state1 = state) \/
  (LiveCoin chain_state (prevout txin) = None /\
   (exists spent_coin,
      ReadSpentCache chain_state (prevout txin) = Some spent_coin /\
      c = coin spent_coin) /\
   state1 = SetFlag state BLOCK_STAKE_KERNEL_SPENT).
Proof.
  unfold ResolveKernelCoin.
  destruct (LiveCoin chain_state (prevout txin)) as [live |].
  { intros H. injection H as <- <-. left. split; reflexivity. }
  destruct (ReadSpentCache chain_state (prevout txin)) as [sc |]; [| discriminate].
  match goal with |- context [if ?t then _ else _] => destruct t end; [discriminate |].
  intros H. injection H as <- <-. right.
  split; [reflexivity |]. split; [exists sc; split; reflexivity | reflexivity].
Qed.

Lemma ResolveKernelCoin_state fVerifyingDB chain_state state pindexPrev txin c state1 :
  ResolveKernelCoin fVerifyingDB chain_state state pindexPrev txin = inr (c, state1) ->
  m_result state1 = m_result state /\
  (nFlags state1 = nFlags state \/
   nFlags state1 = Z.lor (nFlags state) BLOCK_STAKE_KERNEL_SPENT).
Proof.
  intros H. apply ResolveKernelCoin_inr in H as [[_ ->] | (_ & _ & ->)].
  - split; [reflexivity | left; reflexivity].
  - split; [reflexivity | right; reflexivity].
Qed.

(** A call that returns has the state it resolved the kernel with, or one
    of the rejections on top of it; a call that stops before has the state
    it was given with a rejection. *)
Lemma CheckProofOfStake_Returned_inv fVerifyingDB chain_state state pindexPrev tx
    nTime nBits ret state' proof :
  CheckProofOfStake fVerifyingDB chain_state state pindexPrev tx nTime nBits
  = Returned ret state' proof ->
  exists state1,
    m_result state1 = m_result state /\
    (nFlags state1 = nFlags state \/
     nFlags state1 = Z.lor (nFlags state) BLOCK_STAKE_KERNEL_SPENT) /\
    ReturnsAmong all_rejections state1 ret state'.
Proof.
  intros Hret.
  pose proof (CheckProofOfStake_path fVerifyingDB chain_state state pindexPrev tx
                nTime nBits) as Hpath.
  rewrite Hret in Hpath.
  assert (Hrej : forall st r reason,
             In (r, reason) all_rejections ->
             ReturnsAmong all_rejections st false (Invalid st r reason)).
  { intros st r reason Hin. right. split; [reflexivity |].
    exists r, reason. split; [reflexivity | exact Hin]. }
  inversion Hpath as
    [ Hbad
    | txin st Hcs Hvin Hres
    | txin c st1 Hcs Hvin Hres Hty
    | txin c st1 Hcs Hvin Hres Hty Hidx
    | txin c st1 pindex Hreach Hd
    | txin c st1 pindex Hreach Hd Hscript
    | txin c st1 pindex Hreach Hok
    | txin c st1 pindex Hreach Hok Hafter ]; subst.
  - exists state. split; [reflexivity |]. split; [left; reflexivity |].
    apply Hrej. cbn. auto.
  - exists state. split; [reflexivity |]. split; [left; reflexivity |].
    apply ResolveKernelCoin_inl in Hres as [_ [-> | ->]]; apply Hrej; cbn; auto.
  - exists st1. destruct (ResolveKernelCoin_state _ _ _ _ _ _ _ Hres) as [Hm Hf].
    split; [exact Hm |]. split; [exact Hf |]. apply Hrej. cbn. auto.
  - exists st1. destruct (ResolveKernelCoin_state _ _ _ _ _ _ _ Hres) as [Hm Hf].
    split; [exact Hm |]. split; [exact Hf |]. apply Hrej. cbn. auto.
  - exists st1. destruct Hreach as (_ & _ & Hres & _).
    destruct (ResolveKernelCoin_state _ _ _ _ _ _ _ Hres) as [Hm Hf].
    split; [exact Hm |]. split; [exact Hf |]. apply Hrej. cbn. auto.
  - exists st1. destruct Hreach as (_ & _ & Hres & _).
    destruct (ResolveKernelCoin_state _ _ _ _ _ _ _ Hres) as [Hm Hf].
    split; [exact Hm |]. split; [exact Hf |]. apply Hrej. cbn. auto 6.
  - exists st1. destruct Hreach as ((_ & _ & Hres & _) & _).
    destruct (ResolveKernelCoin_state _ _ _ _ _ _ _ Hres) as [Hm Hf].
    split; [exact Hm |]. split; [exact Hf |]. apply Hrej. cbn. auto 7.
  - exists st1. destruct Hreach as ((_ & _ & Hres & _) & _).
    destruct (ResolveKernelCoin_state _ _ _ _ _ _ _ Hres) as [Hm Hf].
    split; [exact Hm |]. split; [exact Hf |].
    apply AfterKernelCheck_Returned_inv in Hafter as [_ Hamong].
    apply (ReturnsAmong_incl split_rejections); [| exact Hamong].
    unfold all_rejections, late_rejections. intros x Hx. do 6 right. exact Hx.
Qed.

(** X6.  [CheckProofOfStake] makes its checks in one order and the first
    that fails decides what is returned: malformed-txn, then the resolution
    of the kernel, its type, its block on the active chain, its depth, the
    script of input 0 and the kernel check; a call that passes them all
    returns what the coinstake-op split returns.  The cases exclude one
    another: a result is on the path of a call exactly when the call
    returns it. *)
Theorem checks_in_order (fVerifyingDB : bool) (chain_state : CChainState)
    (state : BlockValidationState) (pindexPrev : CBlockIndex) (tx : CTransaction)
    (nTime nBits : Z) (result : Result) :
  CheckPath fVerifyingDB chain_state state pindexPrev tx nTime nBits result <->
  result = CheckProofOfStake fVerifyingDB chain_state state pindexPrev tx nTime nBits.
Proof.
  split; [| intros ->; apply CheckProofOfStake_path].
  intros Hpath.
  inversion Hpath as
    [ Hbad
    | txin st Hcs Hvin Hres
    | txin c st1 Hcs Hvin Hres Hty
    | txin c st1 Hcs Hvin Hres Hty Hidx
    | txin c st1 pindex Hreach Hd
    | txin c st1 pindex Hreach Hd Hscript
    | txin c st1 pindex Hreach Hok
    | txin c st1 pindex Hreach Hok ]; subst.
  - unfold CheckProofOfStake. destruct Hbad as [-> | ->]; [reflexivity |].
    destruct (IsCoinStake tx); reflexivity.
  - unfold CheckProofOfStake. rewrite Hcs.
    destruct (vin tx) as [| txin' rest]; [discriminate |].
    injection Hvin as ->. rewrite Hres. reflexivity.
  - rewrite (CheckProofOfStake_resolved _ _ _ _ _ _ _ _ _ _ Hcs Hvin Hres).
    unfold CheckKernelCoin.
    destruct (OutputTypes_eqb (nType c) OUTPUT_STANDARD) eqn:Heq; [| reflexivity].
    apply OutputTypes_eqb_eq in Heq. contradiction.
  - rewrite (CheckProofOfStake_resolved _ _ _ _ _ _ _ _ _ _ Hcs Hvin Hres).
    unfold CheckKernelCoin. rewrite Hty, Hidx. reflexivity.
  - rewrite (CheckProofOfStake_at_depth_check _ _ _ _ _ nTime nBits _ _ _ _ Hreach).
    destruct (Z.gtb_spec (RequiredDepth pindexPrev) (nHeight pindexPrev - coin_nHeight c));
      [reflexivity | lia].
  - rewrite (CheckProofOfStake_at_depth_check _ _ _ _ _ nTime nBits _ _ _ _ Hreach).
    destruct (Z.gtb_spec (RequiredDepth pindexPrev) (nHeight pindexPrev - coin_nHeight c));
      [lia |].
    unfold AfterDepthCheck. rewrite Hscript. reflexivity.
  - rewrite (CheckProofOfStake_at_kernel_check _ _ _ _ _ nTime nBits _ _ _ _ Hreach).
    cbv zeta. rewrite Hok. reflexivity.
  - rewrite (CheckProofOfStake_at_kernel_check _ _ _ _ _ nTime nBits _ _ _ _ Hreach).
    cbv zeta. rewrite Hok. reflexivity.
Qed.

(** X7.  Whenever [CheckProofOfStake] returns: with [true] it has recorded
    no rejection, with [false] it has recorded one of its ten rejections;
    and the flags of the state are unchanged or have gained
    [BLOCK_STAKE_KERNEL_SPENT], nothing else. *)
Theorem returns_classified (fVerifyingDB : bool) (chain_state : CChainState)
    (state : BlockValidationState) (pindexPrev : CBlockIndex) (tx : CTransaction)
    (nTime nBits : Z) (ret : bool) (state' : BlockValidationState)
    (proof : option (Z * Z))
    (Hret : CheckProofOfStake fVerifyingDB chain_state state pindexPrev tx nTime nBits
            = Returned ret state' proof) :
  (if ret then m_result state' = m_result state
   else exists result reason,
       m_result state' = Some (result, reason) /\ In (result, reason) all_rejections) /\
  (nFlags state' = nFlags state \/
   nFlags state' = Z.lor (nFlags state) BLOCK_STAKE_KERNEL_SPENT).
Proof.
  apply CheckProofOfStake_Returned_inv in Hret as (st1 & Hm & Hf & Hamong).
  rewrite <- (ReturnsAmong_nFlags _ _ _ _ Hamong) in Hf.
  split; [| exact Hf].
  destruct Hamong as [[-> ->] | (-> & r & reason & -> & Hin)].
  - exact Hm.
  - exists r, reason. split; [reflexivity | exact Hin].
Qed.

(** X8.  A transaction is rejected as malformed-txn exactly when it is not
    a coinstake or has no input; no other check gives this rejection. *)
Theorem malformed_iff (fVerifyingDB : bool) (chain_state : CChainState)
    (state : BlockValidationState) (pindexPrev : CBlockIndex) (tx : CTransaction)
    (nTime nBits : Z) :
  RejectedAs (CheckProofOfStake fVerifyingDB chain_state state pindexPrev tx nTime nBits)
    DOS_100 "malformed-txn" <->
  IsCoinStake tx = false \/ vin tx = [].
Proof.
  split.
  - intros (st & p & Hret & Hm).
    destruct (IsCoinStake tx) eqn:Hcs; [| left; reflexivity].
    destruct (vin tx) as [| txin rest] eqn:Hvin; [right; reflexivity |].
    exfalso.
    assert (Hhd : hd_error (vin tx) = Some txin) by (rewrite Hvin; reflexivity).
    unfold CheckProofOfStake in Hret. rewrite Hcs, Hvin in Hret.
    destruct (ResolveKernelCoin fVerifyingDB chain_state state pindexPrev txin)
      as [st0 | [c st1]] eqn:Hres.
    + injection Hret as <- <-.
      apply ResolveKernelCoin_inl in Hres as [_ [-> | ->]]; cbn in Hm; discriminate.
    + unfold CheckKernelCoin in Hret.
      destruct (negb (OutputTypes_eqb (nType c) OUTPUT_STANDARD));
        [injection Hret as <- <-; discriminate |].
      destruct (m_chain chain_state (coin_nHeight c)) as [pindex |];
        [| injection Hret as <- <-; discriminate].
      cbv zeta in Hret.
      match type of Hret with
      | (if ?t then _ else _) = _ =>
          destruct t; [injection Hret as <- <-; discriminate |]
      end.
      change (AfterDepthCheck chain_state st1 pindexPrev tx txin c pindex nTime nBits
              = Returned false st p) in Hret.
      apply AfterDepthCheck_Returned_inv in Hret
        as [[Habs _] | (_ & r & reason & -> & Hin)]; [discriminate |].
      cbn in Hm. injection Hm as -> ->.
      cbn in Hin. repeat (destruct Hin as [Hin | Hin]; [discriminate |]). exact Hin.
  - intros Hbad. exists (Invalid state DOS_100 "malformed-txn"), None.
    split; [| reflexivity].
    unfold CheckProofOfStake. destruct Hbad as [-> | ->]; [reflexivity |].
    destruct (IsCoinStake tx); reflexivity.
Qed.

(** X9.  The validator rejects with DoS weight 1 exactly when the call has
    reached the kernel check and the kernel check has failed: every other
    failure weighs 20 or 100. *)
Theorem weight_one_iff_kernel_failed (fVerifyingDB : bool) (chain_state : CChainState)
    (state : BlockValidationState) (pindexPrev : CBlockIndex) (tx : CTransaction)
    (nTime nBits : Z) :
  RejectsWithWeight
    (CheckProofOfStake fVerifyingDB chain_state state pindexPrev tx nTime nBits) 1 <->
  exists txin coin state1 pindex,
    ReachesKernelCheck fVerifyingDB chain_state state pindexPrev tx txin coin state1
      pindex /\
    kernel_ok (KernelCheck pindexPrev txin coin pindex nTime nBits) = false.
Proof.
  split.
  - intros (st & p & r & reason & Hret & Hm & Hw).
    pose proof (CheckProofOfStake_path fVerifyingDB chain_state state pindexPrev tx
                  nTime nBits) as Hpath.
    rewrite Hret in Hpath.
    inversion Hpath as
      [ Hbad
      | txin st0 Hcs Hvin Hres
      | txin c st1 Hcs Hvin Hres Hty
      | txin c st1 Hcs Hvin Hres Hty Hidx
      | txin c st1 pindex Hreach Hd
      | txin c st1 pindex Hreach Hd Hscript
      | txin c st1 pindex Hreach Hok
      | txin c st1 pindex Hreach Hok Hafter ]; subst;
      try (cbn in Hm; injection Hm as <- <-; discriminate Hw).
    + apply ResolveKernelCoin_inl in Hres as [_ [-> | ->]];
        cbn in Hm; injection Hm as <- <-; discriminate Hw.
    + exists txin, c, st1, pindex. split; assumption.
    + apply AfterKernelCheck_Returned_inv in Hafter
        as [_ [[Habs _] | (_ & r' & reason' & -> & Hin)]]; [discriminate |].
      cbn in Hm. injection Hm as <- <-.
      cbn in Hin.
      repeat (destruct Hin as [Hin | Hin];
              [injection Hin as <- _; discriminate Hw |]).
      contradiction.
  - intros (txin & c & st1 & pindex & Hreach & Hok).
    pose proof (CheckProofOfStake_at_kernel_check _ _ _ _ _ nTime nBits _ _ _ _ Hreach)
      as Hcheck.
    cbv zeta in Hcheck. rewrite Hok in Hcheck. cbn [negb] in Hcheck.
    do 4 eexists. split; [exact Hcheck |]. split; reflexivity.
Qed.

(** X10.  The flags of the validation state change only when the kernel is
    not a live coin and is taken from the spent-coin archive; a call on a
    live kernel returns the flags as they were. *)
Theorem flags_change_only_for_archived_kernel (fVerifyingDB : bool)
    (chain_state : CChainState) (state : BlockValidationState)
    (pindexPrev : CBlockIndex) (tx : CTransaction) (nTime nBits : Z)
    (ret : bool) (state' : BlockValidationState) (proof : option (Z * Z))
    (Hret : CheckProofOfStake fVerifyingDB chain_state state pindexPrev tx nTime nBits
            = Returned ret state' proof)
    (Hchanged : nFlags state' <> nFlags state) :
  exists txin spent_coin,
    hd_error (vin tx) = Some txin /\
    LiveCoin chain_state (prevout txin) = None /\
    ReadSpentCache chain_state (prevout txin) = Some spent_coin /\
    nFlags state' = Z.lor (nFlags state) BLOCK_STAKE_KERNEL_SPENT.
Proof.
  unfold CheckProofOfStake in Hret.
  destruct (IsCoinStake tx); [| injection Hret as <- <- <-; contradiction].
  destruct (vin tx) as [| txin rest]; [injection Hret as <- <- <-; contradiction |].
  destruct (ResolveKernelCoin fVerifyingDB chain_state state pindexPrev txin)
    as [st0 | [c st1]] eqn:Hres.
  - injection Hret as <- <- <-.
    apply ResolveKernelCoin_inl in Hres as [_ [-> | ->]]; contradiction.
  - apply CheckKernelCoin_nFlags in Hret.
    apply ResolveKernelCoin_inr in Hres
      as [[_ ->] | (Hlive & (sc & Hsc & _) & ->)]; [contradiction |].
    exists txin, sc. repeat split; assumption.
Qed.

(** X11.  Setting [fVerifyingDB] only lifts the reorganisation bound: a
    call that, with it unset, does not stop at the resolution of the kernel
    returns the same with it set, so a coinstake accepted without it is
    accepted with it, with the same state and proof. *)
Theorem verifying_db_only_relaxes (chain_state : CChainState)
    (state : BlockValidationState) (pindexPrev : CBlockIndex) (tx : CTransaction)
    (nTime nBits : Z) :
  (forall txin c state1,
     hd_error (vin tx) = Some txin ->
     ResolveKernelCoin false chain_state state pindexPrev txin = inr (c, state1) ->
     CheckProofOfStake true chain_state state pindexPrev tx nTime nBits
     = CheckProofOfStake false chain_state state pindexPrev tx nTime nBits) /\
  (forall state' proof,
     CheckProofOfStake false chain_state state pindexPrev tx nTime nBits
     = Returned true state' proof ->
     CheckProofOfStake true chain_state state pindexPrev tx nTime nBits
     = Returned true state' proof).
Proof.
  assert (Hkeep : forall txin c state1,
             ResolveKernelCoin false chain_state state pindexPrev txin = inr (c, state1) ->
             ResolveKernelCoin true chain_state state pindexPrev txin = inr (c, state1)).
  { intros txin c state1. unfold ResolveKernelCoin.
    destruct (LiveCoin chain_state (prevout txin)); [intros H; exact H |].
    destruct (ReadSpentCache chain_state (prevout txin)) as [sc |]; [| discriminate].
    cbn [negb andb].
    match goal with |- context [if ?t then _ else _] => destruct t end;
      [discriminate | intros H; exact H]. }
  assert (Hsame : forall txin c state1,
             hd_error (vin tx) = Some txin ->
             ResolveKernelCoin false chain_state state pindexPrev txin = inr (c, state1) ->
             CheckProofOfStake true chain_state state pindexPrev tx nTime nBits
             = CheckProofOfStake false chain_state state pindexPrev tx nTime nBits).
  { intros txin c state1 Hvin Hres.
    unfold CheckProofOfStake.
    destruct (IsCoinStake tx); [| reflexivity].
    destruct (vin tx) as [| txin' rest]; [reflexivity |].
    injection Hvin as ->. rewrite (Hkeep _ _ _ Hres), Hres. reflexivity. }
  split; [exact Hsame |].
  intros state' proof Hacc.
  assert (Hres : exists txin c state1,
             hd_error (vin tx) = Some txin /\
             ResolveKernelCoin false chain_state state pindexPrev txin = inr (c, state1)).
  { unfold CheckProofOfStake in Hacc.
    destruct (IsCoinStake tx); [| discriminate].
    destruct (vin tx) as [| txin rest]; [discriminate |].
    destruct (ResolveKernelCoin false chain_state state pindexPrev txin)
      as [st0 | [c st1]] eqn:Hres; [discriminate |].
    exists txin, c, st1. split; [reflexivity | exact Hres]. }
  destruct Hres as (txin & c & state1 & Hvin & Hres).
  rewrite (Hsame _ _ _ Hvin Hres). exact Hacc.
Qed.

(** X12.  Whenever the validator returns a proof, accepting or rejecting,
    the call has reached the kernel check with the time test and the compact
    test passed, and the proof is the kernel hash of the resolved coin and
    its weighted target; an accepted coinstake always comes with a proof,
    whose hash is at most its target. *)
Theorem returned_proof (fVerifyingDB : bool) (chain_state : CChainState)
    (state : BlockValidationState) (pindexPrev : CBlockIndex) (tx : CTransaction)
    (nTime nBits : Z) (ret : bool) (state' : BlockValidationState)
    (proof : option (Z * Z))
    (Hret : CheckProofOfStake fVerifyingDB chain_state state pindexPrev tx nTime nBits
            = Returned ret state' proof) :
  (ret = true -> proof <> None) /\
  (forall hashProofOfStake targetProofOfStake,
     proof = Some (hashProofOfStake, targetProofOfStake) ->
     exists txin coin state1 pindex,
       ReachesKernelCheck fVerifyingDB chain_state state pindexPrev tx txin coin state1
         pindex /\
       to_uint32 (GetBlockTime pindex) <= to_uint32 nTime /\
       CompactValid nBits = true /\
       hashProofOfStake
       = KernelHash (bnStakeModifier pindexPrev) (to_uint32 (GetBlockTime pindex))
           (prevout txin) (to_uint32 nTime) /\
       targetProofOfStake = WeightedTarget (CompactTarget nBits) (nValue (out coin)) /\
       (ret = true -> hashProofOfStake <= targetProofOfStake)).
Proof.
  pose proof (CheckProofOfStake_path fVerifyingDB chain_state state pindexPrev tx
                nTime nBits) as Hpath.
  rewrite Hret in Hpath.
  assert (Hkernel : forall txin c pindex h t,
             kernel_proof (KernelCheck pindexPrev txin c pindex nTime nBits)
             = Some (h, t) ->
             to_uint32 (GetBlockTime pindex) <= to_uint32 nTime /\
             CompactValid nBits = true /\
             h = KernelHash (bnStakeModifier pindexPrev) (to_uint32 (GetBlockTime pindex))
                   (prevout txin) (to_uint32 nTime) /\
             t = WeightedTarget (CompactTarget nBits) (nValue (out c)) /\
             (kernel_ok (KernelCheck pindexPrev txin c pindex nTime nBits) = true ->
              h <= t)).
  { intros txin c pindex h t. unfold KernelCheck.
    rewrite CheckStakeKernelHash_eq.
    destruct (Z.ltb_spec (to_uint32 nTime) (to_uint32 (GetBlockTime pindex)));
      [discriminate |].
    destruct (CompactValid nBits); [| discriminate]. cbn [negb]. cbv zeta.
    match goal with |- context [if ?g then _ else _] => destruct g eqn:Hg end;
      cbn [kernel_proof kernel_ok]; intros Heq; injection Heq as <- <-;
      repeat split; try assumption; try discriminate.
    intros _. rewrite Z.gtb_ltb in Hg. apply Z.ltb_ge in Hg. exact Hg. }
  inversion Hpath as
    [ Hbad
    | txin st0 Hcs Hvin Hres
    | txin c st1 Hcs Hvin Hres Hty
    | txin c st1 Hcs Hvin Hres Hty Hidx
    | txin c st1 pindex Hreach Hd
    | txin c st1 pindex Hreach Hd Hscript
    | txin c st1 pindex Hreach Hok
    | txin c st1 pindex Hreach Hok Hafter ]; subst;
    try (split; [discriminate | intros h t Habs; discriminate Habs]).
  - split; [discriminate |]. intros h t Hp.
    destruct (Hkernel _ _ _ _ _ Hp) as (H1 & H2 & H3 & H4 & _).
    exists txin, c, st1, pindex.
    refine (conj Hreach (conj H1 (conj H2 (conj H3 (conj H4 _))))). discriminate.
  - apply AfterKernelCheck_Returned_inv in Hafter as [-> _].
    assert (Hsome : kernel_proof (KernelCheck pindexPrev txin c pindex nTime nBits)
                    <> None).
    { destruct (KernelCheck pindexPrev txin c pindex nTime nBits);
        cbn in *; [discriminate Hok | discriminate | discriminate]. }
    split; [intros _; exact Hsome |]. intros h t Hp.
    destruct (Hkernel _ _ _ _ _ Hp) as (H1 & H2 & H3 & H4 & H5).
    exists txin, c, st1, pindex.
    exact (conj Hreach (conj H1 (conj H2 (conj H3 (conj H4 (fun _ => H5 Hok)))))).
Qed.

(** X13.  The block time is an [int64_t] that the kernel check takes as a
    [uint32_t]: the validator returns the same for two block times that
    differ by a multiple of [2^32]. *)
Theorem block_time_truncated (fVerifyingDB : bool) (chain_state : CChainState)
    (state : BlockValidationState) (pindexPrev : CBlockIndex) (tx : CTransaction)
    (nTime nBits k : Z) :
  CheckProofOfStake fVerifyingDB chain_state state pindexPrev tx (nTime + k * 2 ^ 32)
    nBits
  = CheckProofOfStake fVerifyingDB chain_state state pindexPrev tx nTime nBits.
Proof.
  assert (Hmod : to_uint32 (nTime + k * 2 ^ 32) = to_uint32 nTime)
    by (unfold to_uint32; apply Z_mod_plus_full).
  unfold CheckProofOfStake, CheckKernelCoin. rewrite Hmod. reflexivity.
Qed.

End PathFacts.

Lemma returns_classified_witness :
  CheckProofOfStake (E := Sample.externals) false Sample.chain_state Sample.state0
    (Sample.tip 1) (Sample.coinstake [Sample.input Sample.op_data] [])
    Sample.block_time Sample.nBits
  = Returned false (Invalid (SetFlag Sample.state0 16) DOS_100 "invalid-prevout") None /\
  (exists result reason,
     m_result (Invalid (SetFlag Sample.state0 16) DOS_100 "invalid-prevout")
     = Some (result, reason) /\ In (result, reason) all_rejections) /\
  (nFlags (Invalid (SetFlag Sample.state0 16) DOS_100 "invalid-prevout")
   = nFlags Sample.state0 \/
   nFlags (Invalid (SetFlag Sample.state0 16) DOS_100 "invalid-prevout")
   = Z.lor (nFlags Sample.state0) 16).
Proof.
  assert (Hret : CheckProofOfStake (E := Sample.externals) false Sample.chain_state
                   Sample.state0 (Sample.tip 1)
                   (Sample.coinstake [Sample.input Sample.op_data] [])
                   Sample.block_time Sample.nBits
                 = Returned false
                     (Invalid (SetFlag Sample.state0 16) DOS_100 "invalid-prevout") None)
    by by_evaluation.
  split; [exact Hret |].
  exact (returns_classified (E := Sample.externals) _ _ _ _ _ _ _ _ _ _ Hret).
Defined.

Lemma flags_change_only_for_archived_kernel_witness :
  CheckProofOfStake (E := Sample.externals) false Sample.chain_state Sample.state0
    (Sample.tip 1)
    (Sample.coinstake [Sample.input Sample.op_recent]
       [Sample.data_output; Sample.std_output 1000000100 Sample.plain_script])
    Sample.block_time Sample.nBits
  = Returned true (SetFlag Sample.state0 16)
      (Some (1, 0xffff * 2 ^ 208 * 1000000000)) /\
  exists txin spent_coin,
    hd_error [Sample.input Sample.op_recent] = Some txin /\
    LiveCoin Sample.chain_state (prevout txin) = None /\
    ReadSpentCache Sample.chain_state (prevout txin) = Some spent_coin /\
    nFlags (SetFlag Sample.state0 16) = Z.lor (nFlags Sample.state0) 16.
Proof.
  assert (Hret : CheckProofOfStake (E := Sample.externals) false Sample.chain_state
                   Sample.state0 (Sample.tip 1)
                   (Sample.coinstake [Sample.input Sample.op_recent]
                      [Sample.data_output;
                       Sample.std_output 1000000100 Sample.plain_script])
                   Sample.block_time Sample.nBits
                 = Returned true (SetFlag Sample.state0 16)
                     (Some (1, 0xffff * 2 ^ 208 * 1000000000)))
    by by_evaluation.
  split; [exact Hret |].
  apply (flags_change_only_for_archived_kernel (E := Sample.externals)
           _ _ _ _ _ _ _ _ _ _ Hret).
  by_evaluation.
Defined.

Lemma returned_proof_witness :
  CheckProofOfStake (E := Sample.externals) false Sample.chain_state Sample.state0
    (Sample.tip 1) Sample.tx_plain Sample.block_time Sample.nBits
  = Returned true Sample.state0 (Some (1, 0xffff * 2 ^ 208 * 1000000000)) /\
  Some (1, 0xffff * 2 ^ 208 * 1000000000) <> None.
Proof.
  assert (Hret : CheckProofOfStake (E := Sample.externals) false Sample.chain_state
                   Sample.state0 (Sample.tip 1) Sample.tx_plain Sample.block_time
                   Sample.nBits
                 = Returned true Sample.state0
                     (Some (1, 0xffff * 2 ^ 208 * 1000000000)))
    by by_evaluation.
  split; [exact Hret |].
  exact (proj1 (returned_proof (E := Sample.externals) _ _ _ _ _ _ _ _ _ _ Hret)
           eq_refl).
Defined.

(** ** The staker's probe and the validator *)

Section ProbeFacts.

Context {E : Externals}.

Lemma ProbeTarget_Some_inv chain_state pindexPrev prevout coin pindex :
  ProbeTarget chain_state pindexPrev prevout = Some (coin, pindex) ->
  LiveCoin chain_state prevout = Some coin /\
  nType coin = OUTPUT_STANDARD /\
  m_chain chain_state (coin_nHeight coin) = Some pindex /\
  RequiredDepth pindexPrev <= nHeight pindexPrev - coin_nHeight coin.
Proof.
  unfold ProbeTarget, LiveCoin.
  destruct (GetCoin chain_state prevout) as [c |]; [| discriminate].
  destruct (OutputTypes_eqb (nType c) OUTPUT_STANDARD) eqn:Hty; [| discriminate].
  destruct (IsSpent c); [discriminate |]. cbn [negb andb].
  destruct (m_chain chain_state (coin_nHeight c)) as [pi |] eqn:Hidx; [| discriminate].
  destruct (Z.gtb_spec (RequiredDepth pindexPrev) (nHeight pindexPrev - coin_nHeight c))
    as [Hd | Hd]; [discriminate |].
  intros Heq. injection Heq as <- <-.
  apply OutputTypes_eqb_eq in Hty.
  exact (conj eq_refl (conj Hty (conj Hidx Hd))).
Qed.

Lemma CheckKernel_ProbeTarget chain_state pindexPrev nBits nTime prevout pBlockTime :
  CheckKernel chain_state pindexPrev nBits nTime prevout pBlockTime
  = match ProbeTarget chain_state pindexPrev prevout with
    | None => Some (false, pBlockTime)
    | Some (coin, pindex) =>
        match pBlockTime with
        | None => None
        | Some _ =>
            Some (kernel_ok (CheckStakeKernelHash pindexPrev nBits
                               (to_uint32 (GetBlockTime pindex)) (nValue (out coin))
                               prevout (to_uint32 nTime)),
                  Some (GetBlockTime pindex))
        end
    end.
Proof.
  unfold CheckKernel, ProbeTarget, RequiredDepth.
  destruct (GetCoin chain_state prevout) as [c |]; [| reflexivity].
  destruct (OutputTypes_eqb (nType c) OUTPUT_STANDARD); cbn [negb andb]; [| reflexivity].
  destruct (IsSpent c); cbn [negb]; [reflexivity |].
  destruct (m_chain chain_state (coin_nHeight c)) as [pi |]; [| reflexivity].
  cbv zeta.
  destruct (Z.min (GetStakeMinConfirmations - 1) (nHeight pindexPrev ÷ 2)
            >? nHeight pindexPrev - coin_nHeight c); [reflexivity |].
  destruct pBlockTime; reflexivity.
Qed.

(** X14.  A call of the probe with a pointer that is not null always
    returns.  When the coin is missing, not standard, spent, off the active
    chain or too shallow it returns [false] and leaves the cell as it was;
    otherwise it writes the time of the coin's block into the cell, whatever
    the kernel check then says and whatever the cell held, and returns the
    verdict of the kernel check on the time read back, cut to 32 bits. *)
Theorem probe_writes_block_time (chain_state : CChainState) (pindexPrev : CBlockIndex)
    (nBits nTime : Z) (prevout : COutPoint) (held : Z) :
  exists ret cell,
    CheckKernel chain_state pindexPrev nBits nTime prevout (Some held)
    = Some (ret, Some cell) /\
    (ProbeTarget chain_state pindexPrev prevout = None ->
     ret = false /\ cell = held) /\
    (forall coin pindex,
       ProbeTarget chain_state pindexPrev prevout = Some (coin, pindex) ->
       cell = GetBlockTime pindex /\
       ret = kernel_ok (CheckStakeKernelHash pindexPrev nBits (to_uint32 cell)
                          (nValue (out coin)) prevout (to_uint32 nTime))).
Proof.
  rewrite CheckKernel_ProbeTarget.
  destruct (ProbeTarget chain_state pindexPrev prevout) as [[c pi] |].
  - do 2 eexists. split; [reflexivity |]. split; [discriminate |].
    intros coin pindex Heq. injection Heq as <- <-. split; reflexivity.
  - exists false, held. split; [reflexivity |]. split; [split; reflexivity |].
    discriminate.
Qed.

(** X15.  A kernel the probe finds is a kernel the validator takes to its
    script check: if the probe returns [true] for the outpoint of input 0 of
    a coinstake, with the same previous block, time and compact target, the
    validator resolves the same coin without touching the state, passes its
    type, chain and depth checks and its kernel check passes; the coinstake
    can only be rejected by the script check of input 0 or by the
    coinstake-op split. *)
Theorem probed_kernel_validates (fVerifyingDB : bool) (chain_state : CChainState)
    (state : BlockValidationState) (pindexPrev : CBlockIndex) (tx : CTransaction)
    (nTime nBits : Z) (txin : CTxIn) (held : Z) (cell : option Z)
    (Hcs : IsCoinStake tx = true)
    (Hvin : hd_error (vin tx) = Some txin)
    (Hprobe : CheckKernel chain_state pindexPrev nBits nTime (prevout txin) (Some held)
              = Some (true, cell)) :
  exists coin pindex,
    cell = Some (GetBlockTime pindex) /\
    ReachesDepthCheck fVerifyingDB chain_state state pindexPrev tx txin coin state
      pindex /\
    RequiredDepth pindexPrev <= nHeight pindexPrev - coin_nHeight coin /\
    kernel_ok (KernelCheck pindexPrev txin coin pindex nTime nBits) = true /\
    CheckProofOfStake fVerifyingDB chain_state state pindexPrev tx nTime nBits
    = if VerifyScript (scriptSig txin) (scriptPubKey (out coin)) (scriptWitness txin)
           tx 0 (le_split 8 (nValue (out coin)))
      then AfterKernelCheck chain_state state tx coin
             (kernel_proof (KernelCheck pindexPrev txin coin pindex nTime nBits))
      else Returned false (Invalid state DOS_100 "verify-cs-script-failed") None.
Proof.
  rewrite CheckKernel_ProbeTarget in Hprobe.
  destruct (ProbeTarget chain_state pindexPrev (prevout txin)) as [[c pi] |] eqn:Hp;
    [| discriminate].
  injection Hprobe as Hok <-.
  apply ProbeTarget_Some_inv in Hp as (Hlive & Hty & Hidx & Hdepth).
  assert (Hres : ResolveKernelCoin fVerifyingDB chain_state state pindexPrev txin
                 = inr (c, state))
    by (unfold ResolveKernelCoin; rewrite Hlive; reflexivity).
  assert (Hreach : ReachesDepthCheck fVerifyingDB chain_state state pindexPrev tx txin
                     c state pi)
    by exact (conj Hcs (conj Hvin (conj Hres (conj Hty Hidx)))).
  exists c, pi.
  refine (conj eq_refl (conj Hreach (conj Hdepth (conj Hok _)))).
  rewrite (CheckProofOfStake_at_depth_check _ _ _ _ _ nTime nBits _ _ _ _ Hreach).
  destruct (Z.gtb_spec (RequiredDepth pindexPrev) (nHeight pindexPrev - coin_nHeight c));
    [lia |].
  unfold AfterDepthCheck.
  destruct (VerifyScript (scriptSig txin) (scriptPubKey (out c)) (scriptWitness txin)
              tx 0 (le_split 8 (nValue (out c)))); cbn [negb]; [| reflexivity].
  cbv zeta. unfold KernelCheck. rewrite Hok. reflexivity.
Qed.

(** X16.  For a coinstake the validator accepts, the probe on the outpoint
    of input 0 returns [true] exactly when the kernel is a live coin: a
    kernel the validator took from the spent-coin archive is refused by the
    probe, and for a live one the probe repeats the validator's verdict. *)
Theorem accepted_kernel_probe (fVerifyingDB : bool) (chain_state : CChainState)
    (state : BlockValidationState) (pindexPrev : CBlockIndex) (tx : CTransaction)
    (nTime nBits : Z) (txin : CTxIn) (state' : BlockValidationState)
    (proof : option (Z * Z)) (held : Z)
    (Hvin : hd_error (vin tx) = Some txin)
    (Hacc : CheckProofOfStake fVerifyingDB chain_state state pindexPrev tx nTime nBits
            = Returned true state' proof) :
  exists ret cell,
    CheckKernel chain_state pindexPrev nBits nTime (prevout txin) (Some held)
    = Some (ret, cell) /\
    (ret = true <-> LiveCoin chain_state (prevout txin) <> None).
Proof.
  rewrite CheckKernel_ProbeTarget.
  destruct (LiveCoin chain_state (prevout txin)) as [c |] eqn:Hlive.
  - assert (Hres : ResolveKernelCoin fVerifyingDB chain_state state pindexPrev txin
                   = inr (c, state))
      by (unfold ResolveKernelCoin; rewrite Hlive; reflexivity).
    assert (Hidx : exists pindex, m_chain chain_state (coin_nHeight c) = Some pindex).
    { assert (Hcs : IsCoinStake tx = true).
      { unfold CheckProofOfStake in Hacc.
        destruct (IsCoinStake tx); [reflexivity | discriminate]. }
      rewrite (CheckProofOfStake_resolved _ _ _ _ _ _ _ _ _ _ Hcs Hvin Hres) in Hacc.
      unfold CheckKernelCoin in Hacc.
      destruct (negb (OutputTypes_eqb (nType c) OUTPUT_STANDARD)); [discriminate |].
      destruct (m_chain chain_state (coin_nHeight c)) as [pindex |]; [| discriminate].
      exists pindex. reflexivity. }
    destruct Hidx as [pindex Hidx].
    destruct (CheckProofOfStake_accepted_inv _ _ _ _ _ _ _ _ _ _ _ _ _
                Hvin Hres Hidx Hacc) as (Hreach & Hok & _).
    destruct Hreach as ((_ & _ & _ & Hty & _) & Hdepth & _).
    assert (Hp : ProbeTarget chain_state pindexPrev (prevout txin) = Some (c, pindex)).
    { unfold ProbeTarget. unfold LiveCoin in Hlive.
      destruct (GetCoin chain_state (prevout txin)) as [c' |]; [| discriminate].
      destruct (IsSpent c') eqn:Hspent; [discriminate |].
      injection Hlive as ->. cbv beta iota.
      rewrite Hty, Hidx. cbn [OutputTypes_eqb negb andb].
      destruct (Z.gtb_spec (RequiredDepth pindexPrev)
                  (nHeight pindexPrev - coin_nHeight c)); [lia | reflexivity]. }
    rewrite Hp. do 2 eexists. split; [reflexivity |].
    unfold KernelCheck in Hok. rewrite Hok. split; [discriminate | reflexivity].
  - assert (Hp : ProbeTarget chain_state pindexPrev (prevout txin) = None).
    { unfold ProbeTarget. unfold LiveCoin in Hlive.
      destruct (GetCoin chain_state (prevout txin)) as [c' |]; [| reflexivity].
      destruct (IsSpent c'); [| discriminate].
      rewrite andb_false_r. reflexivity. }
    rewrite Hp. do 2 eexists. split; [reflexivity |].
    split; [discriminate | intros H; exfalso; apply H; reflexivity].
Qed.

End ProbeFacts.

Lemma probed_kernel_validates_witness :
  CheckKernel (E := Sample.externals) Sample.chain_state (Sample.tip 1) Sample.nBits
    Sample.block_time Sample.op_plain (Some 0) = Some (true, Some 1600000000) /\
  exists coin pindex,
    Some 1600000000 = Some (GetBlockTime pindex) /\
    ReachesDepthCheck (E := Sample.externals) false Sample.chain_state Sample.state0
      (Sample.tip 1) Sample.tx_plain (Sample.input Sample.op_plain) coin Sample.state0
      pindex /\
    RequiredDepth (E := Sample.externals) (Sample.tip 1)
      <= nHeight (Sample.tip 1) - coin_nHeight coin /\
    kernel_ok (KernelCheck (E := Sample.externals) (Sample.tip 1)
                 (Sample.input Sample.op_plain) coin pindex Sample.block_time
                 Sample.nBits) = true.
Proof.
  assert (Hprobe : CheckKernel (E := Sample.externals) Sample.chain_state (Sample.tip 1)
                     Sample.nBits Sample.block_time
                     (prevout (Sample.input Sample.op_plain)) (Some 0)
                   = Some (true, Some 1600000000)) by by_evaluation.
  split; [exact Hprobe |].
  destruct (probed_kernel_validates (E := Sample.externals) false Sample.chain_state
              Sample.state0 (Sample.tip 1) Sample.tx_plain Sample.block_time
              Sample.nBits (Sample.input Sample.op_plain) 0 (Some 1600000000)
              eq_refl eq_refl Hprobe)
    as (coin & pindex & H1 & H2 & H3 & H4 & _).
  exists coin, pindex. exact (conj H1 (conj H2 (conj H3 H4))).
Defined.

Lemma accepted_kernel_probe_witness :
  CheckProofOfStake (E := Sample.externals) false Sample.chain_state Sample.state0
    (Sample.tip 1) Sample.tx_plain Sample.block_time Sample.nBits
  = Returned true Sample.state0 (Some (1, 0xffff * 2 ^ 208 * 1000000000)) /\
  exists ret cell,
    CheckKernel (E := Sample.externals) Sample.chain_state (Sample.tip 1) Sample.nBits
      Sample.block_time Sample.op_plain (Some 0) = Some (ret, cell) /\
    (ret = true <-> LiveCoin Sample.chain_state Sample.op_plain <> None).
Proof.
  assert (Hret : CheckProofOfStake (E := Sample.externals) false Sample.chain_state
                   Sample.state0 (Sample.tip 1) Sample.tx_plain Sample.block_time
                   Sample.nBits
                 = Returned true Sample.state0
                     (Some (1, 0xffff * 2 ^ 208 * 1000000000)))
    by by_evaluation.
  split; [exact Hret |].
  exact (accepted_kernel_probe (E := Sample.externals) false Sample.chain_state
           Sample.state0 (Sample.tip 1) Sample.tx_plain Sample.block_time Sample.nBits
           (Sample.input Sample.op_plain) Sample.state0 _ 0 eq_refl Hret).
Defined.

(** ** The coinstake-op split, input by input *)

Section SplitOrder.

Context {E : Externals}.

(** X17.  In the coinstake-op split the inputs are checked one after the
    other, before any output: the first extra input that is not a standard
    coin with the kernel's script decides the rejection, whatever the inputs
    after it and the outputs are.  It is prevout-not-in-chain (DoS 20) when
    the input does not resolve, invalid-prevout when its coin is not
    standard, and mixed-prevout-scripts when its script is another. *)
Theorem first_bad_input_decides (fVerifyingDB : bool) (chain_state : CChainState)
    (state : BlockValidationState) (pindexPrev : CBlockIndex) (tx : CTransaction)
    (nTime nBits : Z) (txin : CTxIn) (coin : Coin) (state1 : BlockValidationState)
    (pindex : CBlockIndex) (good : list CTxIn) (bad : CTxIn) (rest : list CTxIn)
    (Hreach : ReachesKernelCheck fVerifyingDB chain_state state pindexPrev tx txin coin
                state1 pindex)
    (Hok : kernel_ok (KernelCheck pindexPrev txin coin pindex nTime nBits) = true)
    (Hop : HasIsCoinstakeOp (scriptPubKey (out coin)) = true)
    (Hextras : tl (vin tx) = good ++ bad :: rest)
    (Hgood : Forall (ExtraInputOk chain_state (scriptPubKey (out coin))) good)
    (Hfit : SumsFit (nValue (out coin)) (map (InputValue chain_state) good)) :
  let check := CheckProofOfStake fVerifyingDB chain_state state pindexPrev tx nTime nBits in
  let proof := kernel_proof (KernelCheck pindexPrev txin coin pindex nTime nBits) in
  (ResolveExtraCoin chain_state bad = None ->
   check = Returned false (Invalid state1 DOS_20 "prevout-not-in-chain") proof) /\
  (forall c,
     ResolveExtraCoin chain_state bad = Some c ->
     nType c <> OUTPUT_STANDARD ->
     check = Returned false (Invalid state1 DOS_100 "invalid-prevout") proof) /\
  (forall c,
     ResolveExtraCoin chain_state bad = Some c ->
     nType c = OUTPUT_STANDARD ->
     scriptPubKey (out c) <> scriptPubKey (out coin) ->
     check = Returned false (Invalid state1 DOS_100 "mixed-prevout-scripts") proof).
Proof.
  cbv zeta.
  pose proof (CheckProofOfStake_at_kernel_check _ _ _ _ _ nTime nBits _ _ _ _ Hreach)
    as Hcheck.
  cbv zeta in Hcheck. rewrite Hok in Hcheck. cbn [negb] in Hcheck.
  unfold AfterKernelCheck in Hcheck. rewrite Hop in Hcheck.
  unfold CoinstakeOpSplit in Hcheck.
  rewrite Hextras, (SumExtraInputs_app _ _ _ _ _ _ Hgood Hfit) in Hcheck.
  cbn [SumExtraInputs] in Hcheck. rewrite Hcheck.
  split; [| split].
  - intros ->. reflexivity.
  - intros c -> Hty.
    destruct (OutputTypes_eqb (nType c) OUTPUT_STANDARD) eqn:Heq; [| reflexivity].
    apply OutputTypes_eqb_eq in Heq. contradiction.
  - intros c -> Hty Hscript. rewrite Hty. cbn [OutputTypes_eqb negb].
    destruct (CScript_eqb (scriptPubKey (out coin)) (scriptPubKey (out c))) eqn:Heq;
      [| reflexivity].
    apply CScript_eqb_eq in Heq. symmetry in Heq. contradiction.
Qed.

(** X18.  [CheckProofOfStake] accepts a coinstake exactly when the call
    reaches the kernel check, the kernel check passes and, if the kernel's
    script has the coinstake op, both loops of the split run through and the
    outputs pay the script at least the sum of the inputs.  The state
    returned is the one after the resolution of the kernel and the proof is
    that of the kernel check; a kernel script without the coinstake op puts
    no condition on the other inputs and the outputs. *)
Theorem accepted_iff (fVerifyingDB : bool) (chain_state : CChainState)
    (state : BlockValidationState) (pindexPrev : CBlockIndex) (tx : CTransaction)
    (nTime nBits : Z) (state' : BlockValidationState) (proof : option (Z * Z)) :
  CheckProofOfStake fVerifyingDB chain_state state pindexPrev tx nTime nBits
  = Returned true state' proof <->
  exists txin coin pindex,
    ReachesKernelCheck fVerifyingDB chain_state state pindexPrev tx txin coin state'
      pindex /\
    kernel_ok (KernelCheck pindexPrev txin coin pindex nTime nBits) = true /\
    proof = kernel_proof (KernelCheck pindexPrev txin coin pindex nTime nBits) /\
    (HasIsCoinstakeOp (scriptPubKey (out coin)) = true ->
     exists total nVerify,
       SumExtraInputs chain_state state' (scriptPubKey (out coin)) (tl (vin tx))
         (nValue (out coin)) = Continue total /\
       SumOutputs state' (scriptPubKey (out coin)) (vpout tx) 0 = Continue nVerify /\
       total <= nVerify).
Proof.
  split.
  - intros Hacc.
    pose proof (CheckProofOfStake_path fVerifyingDB chain_state state pindexPrev tx
                  nTime nBits) as Hpath.
    rewrite Hacc in Hpath.
    inversion Hpath as
      [ Hbad
      | txin st0 Hcs Hvin Hres
      | txin c st1 Hcs Hvin Hres Hty
      | txin c st1 Hcs Hvin Hres Hty Hidx
      | txin c st1 pindex Hreach Hd
      | txin c st1 pindex Hreach Hd Hscript
      | txin c st1 pindex Hreach Hok
      | txin c st1 pindex Hreach Hok Hafter ].
    unfold AfterKernelCheck in Hafter.
    destruct (HasIsCoinstakeOp (scriptPubKey (out c))) eqn:Hop.
    + unfold CoinstakeOpSplit in Hafter.
      destruct (SumExtraInputs chain_state st1 (scriptPubKey (out c)) (tl (vin tx))
                  (nValue (out c))) as [total | st |] eqn:Hin; try discriminate.
      destruct (SumOutputs st1 (scriptPubKey (out c)) (vpout tx) 0)
        as [nVerify | st |] eqn:Hout; try discriminate.
      destruct (Z.ltb_spec nVerify total) as [Hlt | Hge]; [discriminate |].
      injection Hafter as <- <-.
      exists txin, c, pindex.
      refine (conj Hreach (conj Hok (conj eq_refl _))).
      intros _. exists total, nVerify. exact (conj Hin (conj Hout Hge)).
    + injection Hafter as <- <-.
      exists txin, c, pindex.
      refine (conj Hreach (conj Hok (conj eq_refl _))).
      intros Habs. rewrite Hop in Habs. discriminate.
  - intros (txin & c & pindex & Hreach & Hok & -> & Hsplit).
    rewrite (CheckProofOfStake_at_kernel_check _ _ _ _ _ nTime nBits _ _ _ _ Hreach).
    cbv zeta. rewrite Hok. cbn [negb]. unfold AfterKernelCheck.
    destruct (HasIsCoinstakeOp (scriptPubKey (out c))); [| reflexivity].
    destruct (Hsplit eq_refl) as (total & nVerify & Hin & Hout & Hle).
    unfold CoinstakeOpSplit. rewrite Hin, Hout.
    destruct (Z.ltb_spec nVerify total); [lia | reflexivity].
Qed.

End SplitOrder.

(** ** The timestamp grid *)

Section GridFacts.

Context {L : Lookups}.

(** X19.  With the timestamp mask [2^k - 1] the accepted block times are
    the multiples of [2^k], negative ones included: a time is accepted
    exactly when it is one, so from an accepted time the accepted times are
    those a multiple of [2^k] away. *)
Theorem timestamp_grid (nHeight nTimeBlock k : Z)
    (Hk : 0 <= k)
    (Hmask : GetStakeTimestampMask nHeight = 2 ^ k - 1) :
  (CheckCoinStakeTimestamp nHeight nTimeBlock = true <-> nTimeBlock mod 2 ^ k = 0) /\
  (CheckCoinStakeTimestamp nHeight nTimeBlock = true ->
   forall d,
     CheckCoinStakeTimestamp nHeight (nTimeBlock + d) = true <-> d mod 2 ^ k = 0).
Proof.
  assert (Hgrid : forall t,
             CheckCoinStakeTimestamp nHeight t = true <-> t mod 2 ^ k = 0).
  { intros t. unfold CheckCoinStakeTimestamp. rewrite Hmask.
    replace (2 ^ k - 1) with (Z.ones k) by (rewrite Z.ones_equiv; lia).
    rewrite (Z.land_ones _ _ Hk). apply Z.eqb_eq. }
  split; [apply Hgrid |].
  intros Ht d. apply Hgrid in Ht. rewrite Hgrid.
  assert (Hpos : 0 < 2 ^ k) by (apply Z.pow_pos_nonneg; lia).
  rewrite Z.add_mod, Ht by lia. cbn [Z.add].
  rewrite Z.mod_mod by lia. reflexivity.
Qed.

End GridFacts.

Lemma timestamp_grid_witness :
  CheckCoinStakeTimestamp (L := Sample2.lookups) 1000 1600000000 = true /\
  CheckCoinStakeTimestamp (L := Sample2.lookups) 1000 (1600000000 + 16) = true /\
  CheckCoinStakeTimestamp (L := Sample2.lookups) 1000 (1600000000 + 8) = false.
Proof.
  pose proof (timestamp_grid (L := Sample2.lookups) 1000 1600000000 4
                ltac:(lia) eq_refl) as [Hgrid Hstep].
  assert (Hok : CheckCoinStakeTimestamp (L := Sample2.lookups) 1000 1600000000 = true)
    by (apply Hgrid; reflexivity).
  split; [exact Hok |]. split.
  - apply (Hstep Hok 16). reflexivity.
  - destruct (CheckCoinStakeTimestamp (L := Sample2.lookups) 1000 (1600000000 + 8))
      eqn:Heq; [| reflexivity].
    apply (Hstep Hok 8) in Heq. discriminate Heq.
Defined.

Lemma first_bad_input_decides_witness :
  ReachesKernelCheck (E := Sample.externals) false Sample.chain_state Sample.state0
    (Sample.tip 1)
    (Sample.coinstake
       [Sample.input Sample.op_stake; Sample.input Sample.op_extra;
        Sample.input Sample.op_unknown; Sample.input Sample.op_mixed]
       [Sample.blind_output])
    (Sample.input Sample.op_stake) Sample.coin_stake Sample.state0
    (Sample.block_at 700) /\
  CheckProofOfStake (E := Sample.externals) false Sample.chain_state Sample.state0
    (Sample.tip 1)
    (Sample.coinstake
       [Sample.input Sample.op_stake; Sample.input Sample.op_extra;
        Sample.input Sample.op_unknown; Sample.input Sample.op_mixed]
       [Sample.blind_output])
    Sample.block_time Sample.nBits
  = Returned false (Invalid Sample.state0 DOS_20 "prevout-not-in-chain")
      (kernel_proof (KernelCheck (E := Sample.externals) (Sample.tip 1)
                       (Sample.input Sample.op_stake) Sample.coin_stake
                       (Sample.block_at 700) Sample.block_time Sample.nBits)).
Proof.
  assert (Hreach : ReachesKernelCheck (E := Sample.externals) false Sample.chain_state
                     Sample.state0 (Sample.tip 1)
                     (Sample.coinstake
                        [Sample.input Sample.op_stake; Sample.input Sample.op_extra;
                         Sample.input Sample.op_unknown; Sample.input Sample.op_mixed]
                        [Sample.blind_output])
                     (Sample.input Sample.op_stake) Sample.coin_stake Sample.state0
                     (Sample.block_at 700))
    by (unfold ReachesKernelCheck, ReachesDepthCheck; repeat split; by_evaluation).
  assert (Hok : kernel_ok (KernelCheck (E := Sample.externals) (Sample.tip 1)
                             (Sample.input Sample.op_stake) Sample.coin_stake
                             (Sample.block_at 700) Sample.block_time Sample.nBits) = true)
    by by_evaluation.
  assert (Hgood : Forall (ExtraInputOk Sample.chain_state
                            (scriptPubKey (out Sample.coin_stake)))
                    [Sample.input Sample.op_extra]).
  { apply Forall_cons; [| apply Forall_nil].
    exists Sample.coin_extra. repeat split. }
  assert (Hfit : SumsFit (nValue (out Sample.coin_stake))
                   (map (InputValue Sample.chain_state) [Sample.input Sample.op_extra]))
    by (cbn; repeat split; by_evaluation).
  split; [exact Hreach |].
  exact (proj1 (first_bad_input_decides (E := Sample.externals) false
                  Sample.chain_state Sample.state0 (Sample.tip 1) _ Sample.block_time
                  Sample.nBits (Sample.input Sample.op_stake) Sample.coin_stake
                  Sample.state0 (Sample.block_at 700) [Sample.input Sample.op_extra]
                  (Sample.input Sample.op_unknown) [Sample.input Sample.op_mixed]
                  Hreach Hok eq_refl eq_refl Hgood Hfit) eq_refl).
Defined.

(** ** The kernel information *)

Section KernelInfoFacts.

Context {E : Externals} {L : Lookups}.

Lemma KernelStream_to_uint32 modifier nBlockFromTime nBlockFromTime' prevout nTime nTime' :
  to_uint32 nBlockFromTime = to_uint32 nBlockFromTime' ->
  to_uint32 nTime = to_uint32 nTime' ->
  KernelStream modifier nBlockFromTime prevout nTime
  = KernelStream modifier nBlockFromTime' prevout nTime'.
Proof.
  unfold to_uint32. intros Hfrom Htime. rewrite !KernelStream_split.
  assert (H1 : le_split 4 nBlockFromTime = le_split 4 nBlockFromTime')
    by (apply le_split_eq_iff; exact Hfrom).
  assert (H2 : le_split 4 nTime = le_split 4 nTime')
    by (apply le_split_eq_iff; exact Htime).
  rewrite H1, H2. reflexivity.
Qed.

Lemma GetKernelInfo_Some_inv pprev blockindex tx info :
  GetKernelInfo pprev blockindex tx = Some (Some info) ->
  exists prev txin txPrev blockKernel outPrev,
    pprev = Some prev /\
    hd_error (vin tx) = Some txin /\
    GetTransaction (hash (prevout txin)) = Some (txPrev, blockKernel) /\
    n (prevout txin) < Z.of_nat (List.length (vpout txPrev)) /\
    nth_error (vpout txPrev) (Z.to_nat (n (prevout txin))) = Some outPrev /\
    nVersion outPrev = OUTPUT_STANDARD /\
    info_value info = GetValue outPrev /\
    GetPScriptPubKey outPrev = Some (info_script info) /\
    info_blockhash info = CBlock_GetHash blockKernel /\
    info_hash info
    = KernelHash (bnStakeModifier prev) (CBlock_nTime blockKernel) (prevout txin)
        (nTime blockindex).
Proof.
  unfold GetKernelInfo. intros H.
  destruct pprev as [prev |]; [| discriminate].
  destruct (vin tx) as [| txin rest]; [discriminate |].
  cbv zeta in H.
  destruct (GetTransaction (hash (prevout txin))) as [[txPrev blockKernel] |] eqn:Hget;
    [| discriminate].
  destruct (Z.geb_spec (n (prevout txin)) (Z.of_nat (List.length (vpout txPrev))))
    as [Hge | Hlt]; [discriminate |].
  destruct (nth_error (vpout txPrev) (Z.to_nat (n (prevout txin)))) as [outPrev |]
    eqn:Hnth; [| discriminate].
  destruct (IsType outPrev OUTPUT_STANDARD) eqn:Hty; [| discriminate].
  cbn [negb] in H.
  destruct (GetPScriptPubKey outPrev) as [script |] eqn:Hscript; [| discriminate].
  injection H as <-.
  exists prev, txin, txPrev, blockKernel, outPrev.
  apply OutputTypes_eqb_eq in Hty.
  repeat match goal with |- _ /\ _ => split end;
    first [reflexivity | assumption].
Qed.

(** X20.  [GetKernelInfo] returns [true] exactly when the block index has
    a predecessor, the transaction has an input, the transaction index knows
    the transaction of its outpoint, and the output spent is there, is a
    standard output and has a script.  Then [value] and [script] are those
    of this output, [blockhash] is the hash of the block that holds it, and
    [hash] is the kernel hash of the predecessor's stake modifier, the time
    of that block, the outpoint and the time of the block index. *)
Theorem kernel_info_written (pprev : option CBlockIndex) (blockindex : CBlockIndex)
    (tx : CTransaction) (info : KernelInfo) :
  GetKernelInfo pprev blockindex tx = Some (Some info) <->
  exists prev txin txPrev blockKernel outPrev,
    pprev = Some prev /\
    hd_error (vin tx) = Some txin /\
    GetTransaction (hash (prevout txin)) = Some (txPrev, blockKernel) /\
    n (prevout txin) < Z.of_nat (List.length (vpout txPrev)) /\
    nth_error (vpout txPrev) (Z.to_nat (n (prevout txin))) = Some outPrev /\
    nVersion outPrev = OUTPUT_STANDARD /\
    info_value info = GetValue outPrev /\
    GetPScriptPubKey outPrev = Some (info_script info) /\
    info_blockhash info = CBlock_GetHash blockKernel /\
    info_hash info
    = KernelHash (bnStakeModifier prev) (CBlock_nTime blockKernel) (prevout txin)
        (nTime blockindex).
Proof.
  split; [apply GetKernelInfo_Some_inv |].
  intros (prev & txin & txPrev & blockKernel & outPrev & -> & Hvin & Hget & Hlt & Hnth
          & Hty & Hvalue & Hscript & Hblock & Hhash).
  unfold GetKernelInfo.
  destruct (vin tx) as [| txin' rest]; [discriminate |].
  injection Hvin as ->. cbv zeta. rewrite Hget.
  destruct (Z.geb_spec (n (prevout txin)) (Z.of_nat (List.length (vpout txPrev))))
    as [Hge | _]; [lia |].
  rewrite Hnth. unfold IsType. rewrite Hty, Hscript. cbn [OutputTypes_eqb negb].
  destruct info as [h v s b]. cbn in Hvalue, Hblock, Hhash. subst h v b.
  reflexivity.
Qed.

(** X21.  [GetKernelInfo] computes the hash the validator checks: for a
    coinstake that [CheckProofOfStake] accepts on top of the predecessor at
    the time of the block index, if the block the transaction index gives
    for the kernel has the time of the block the chain has at the kernel
    coin's height, the [hash] of [GetKernelInfo] is the proof hash the
    validator returns. *)
Theorem kernel_info_hash_is_proof_hash (fVerifyingDB : bool)
    (chain_state : CChainState) (state : BlockValidationState)
    (blockindex prev : CBlockIndex) (tx : CTransaction) (nBits : Z)
    (state' : BlockValidationState) (hashProofOfStake targetProofOfStake : Z)
    (info : KernelInfo) (txin : CTxIn) (coin : Coin) (state1 : BlockValidationState)
    (pindex : CBlockIndex) (txPrev : CTransaction) (blockKernel : CBlock)
    (Hacc : CheckProofOfStake fVerifyingDB chain_state state prev tx (nTime blockindex)
              nBits
            = Returned true state' (Some (hashProofOfStake, targetProofOfStake)))
    (Hinfo : GetKernelInfo (Some prev) blockindex tx = Some (Some info))
    (Hvin : hd_error (vin tx) = Some txin)
    (Hres : ResolveKernelCoin fVerifyingDB chain_state state prev txin
            = inr (coin, state1))
    (Hidx : m_chain chain_state (coin_nHeight coin) = Some pindex)
    (Hget : GetTransaction (hash (prevout txin)) = Some (txPrev, blockKernel))
    (Htime : to_uint32 (CBlock_nTime blockKernel) = to_uint32 (GetBlockTime pindex)) :
  info_hash info = hashProofOfStake.
Proof.
  destruct (CheckProofOfStake_accepted_inv _ _ _ _ _ _ _ _ _ _ _ _ _
              Hvin Hres Hidx Hacc) as (_ & Hok & Hafter).
  apply AfterKernelCheck_Returned_inv in Hafter as [Hproof _].
  apply GetKernelInfo_Some_inv in Hinfo
    as (prev' & txin' & txPrev' & blockKernel' & outPrev & Hprev & Hvin' & Hget' & _
        & _ & _ & _ & _ & _ & ->).
  injection Hprev as <-. rewrite Hvin in Hvin'. injection Hvin' as <-.
  rewrite Hget in Hget'. injection Hget' as <- <-.
  unfold KernelCheck in Hproof, Hok. rewrite CheckStakeKernelHash_eq in Hproof, Hok.
  destruct (to_uint32 (nTime blockindex) <? to_uint32 (GetBlockTime pindex));
    [discriminate Hok |].
  destruct (CompactValid nBits); [| discriminate Hok].
  cbn [negb] in Hproof. cbv zeta in Hproof.
  match type of Hproof with
  | context [if ?g then _ else _] => destruct g
  end; cbn [kernel_proof] in Hproof; injection Hproof as -> _;
    unfold KernelHash; f_equal; apply KernelStream_to_uint32;
    unfold to_uint32 in *; rewrite ?Z.mod_mod by lia; auto.
Qed.

End KernelInfoFacts.

Lemma kernel_info_written_witness :
  exists info,
    GetKernelInfo (E := Sample.externals) (L := Sample2.lookups) (Some (Sample.tip 1))
      {| nHeight := 1001; nTime := Sample.block_time; bnStakeModifier := 2 |}
      Sample.tx_plain = Some (Some info) /\
    info_value info = 1000000000 /\
    info_script info = Sample.plain_script /\
    info_blockhash info = 0xb10c /\
    info_hash info
    = KernelHash (E := Sample.externals) 1 1600000000 Sample.op_plain Sample.block_time.
Proof.
  eexists. split; [vm_compute; reflexivity |].
  destruct (proj1 (kernel_info_written (E := Sample.externals) (L := Sample2.lookups)
                     (Some (Sample.tip 1))
                     {| nHeight := 1001; nTime := Sample.block_time;
                        bnStakeModifier := 2 |}
                     Sample.tx_plain _) eq_refl)
    as (prev & txin & txPrev & blockKernel & outPrev & Hprev & Hvin & Hget & _ & Hnth
        & _ & Hvalue & Hscript & Hblock & Hhash).
  injection Hprev as <-. injection Hvin as <-.
  injection Hget as <- <-. injection Hnth as <-.
  split; [exact Hvalue |]. split; [reflexivity |].
  split; [exact Hblock | exact Hhash].
Defined.

Lemma kernel_info_hash_is_proof_hash_witness :
  CheckProofOfStake (E := Sample.externals) false Sample.chain_state Sample.state0
    (Sample.tip 1) Sample.tx_plain Sample.block_time Sample.nBits
  = Returned true Sample.state0 (Some (1, 0xffff * 2 ^ 208 * 1000000000)) /\
  exists info,
    GetKernelInfo (E := Sample.externals) (L := Sample2.lookups) (Some (Sample.tip 1))
      {| nHeight := 1001; nTime := Sample.block_time; bnStakeModifier := 2 |}
      Sample.tx_plain = Some (Some info) /\
    info_hash info = 1.
Proof.
  assert (Hret : CheckProofOfStake (E := Sample.externals) false Sample.chain_state
                   Sample.state0 (Sample.tip 1) Sample.tx_plain
                   (nTime {| nHeight := 1001; nTime := Sample.block_time;
                             bnStakeModifier := 2 |})
                   Sample.nBits
                 = Returned true Sample.state0
                     (Some (1, 0xffff * 2 ^ 208 * 1000000000)))
    by by_evaluation.
  split; [exact Hret |].
  eexists. split; [vm_compute; reflexivity |].
  exact (kernel_info_hash_is_proof_hash (E := Sample.externals) (L := Sample2.lookups)
           false Sample.chain_state Sample.state0
           {| nHeight := 1001; nTime := Sample.block_time; bnStakeModifier := 2 |}
           (Sample.tip 1) Sample.tx_plain Sample.nBits Sample.state0 1
           (0xffff * 2 ^ 208 * 1000000000) _ (Sample.input Sample.op_plain)
           Sample.coin_plain Sample.state0 (Sample.block_at 700) _ _
           Hret eq_refl eq_refl eq_refl eq_refl eq_refl eq_refl).
Defined.

(** ** The estimate of the stake kernels per second *)






Module EstimatorFacts.

Import Estimator.

Section WithFloat.

Context {L : Lookups} {F : FloatOps}.

Lemma ScaleUp_closed fuel : forall nShift dDiff,
  (Z.to_nat (29 - nShift) < fuel)%nat ->
  ScaleUp fuel nShift dDiff
  = Some (Z.max nShift 29,
          Nat.iter (Z.to_nat (29 - nShift)) (fun d => d_mul d (d_of_Z 256)) dDiff).
Proof.
  induction fuel as [| fuel IH]; intros nShift dDiff Hfuel; [lia |].
  cbn [ScaleUp]. destruct (Z.ltb_spec nShift 29) as [Hlt | Hge].
  - rewrite IH by lia.
    replace (Z.to_nat (29 - nShift)) with (S (Z.to_nat (29 - (nShift + 1)))) by lia.
    rewrite Nat.iter_succ_r. f_equal. f_equal. lia.
  - replace (Z.to_nat (29 - nShift)) with 0%nat by lia.
    cbn [Nat.iter nat_rect]. f_equal. f_equal. lia.
Qed.

Lemma ScaleDown_closed fuel : forall nShift dDiff,
  (Z.to_nat (nShift - 29) < fuel)%nat ->
  ScaleDown fuel nShift dDiff
  = Some (Z.min nShift 29,
          Nat.iter (Z.to_nat (nShift - 29)) (fun d => d_div d (d_of_Z 256)) dDiff).
Proof.
  induction fuel as [| fuel IH]; intros nShift dDiff Hfuel; [lia |].
  cbn [ScaleDown]. destruct (Z.gtb_spec nShift 29) as [Hgt | Hle].
  - rewrite IH by lia.
    replace (Z.to_nat (nShift - 29)) with (S (Z.to_nat (nShift - 1 - 29))) by lia.
    rewrite Nat.iter_succ_r. f_equal. f_equal. lia.
  - replace (Z.to_nat (nShift - 29)) with 0%nat by lia.
    cbn [Nat.iter nat_rect]. f_equal. f_equal. lia.
Qed.

Lemma exponent_range (x : Z) : 0 <= Z.land (Z.shiftr x 24) 0xff <= 255.
Proof.
  change (Z.land (Z.shiftr x 24) 0xff) with (Z.land (Z.shiftr x 24) (Z.ones 8)).
  rewrite Z.land_ones by lia. change (2 ^ 8) with 256.
  pose proof (Z.mod_pos_bound (Z.shiftr x 24) 256 eq_refl) as Hbound. lia.
Qed.

Lemma GetDifficulty_closed (fuel : nat) (blockindex : PoSBlockIndex) :
  (256 <= fuel)%nat -> GetDifficulty fuel blockindex = Some (Difficulty blockindex).
Proof.
  intros Hfuel. unfold GetDifficulty, Difficulty. cbv zeta.
  pose proof (exponent_range (nBits blockindex)) as Hrange.
  set (nShift := Z.land (Z.shiftr (nBits blockindex) 24) 0xff) in *.
  rewrite ScaleUp_closed by lia. rewrite ScaleDown_closed by lia.
  destruct (Z.ltb_spec nShift 29) as [Hlt | Hge].
  - replace (Z.to_nat (Z.max nShift 29 - 29)) with 0%nat by lia. reflexivity.
  - replace (Z.to_nat (29 - nShift)) with 0%nat by lia.
    replace (Z.max nShift 29) with nShift by lia. reflexivity.
Qed.

(** X22.  The two loops of [GetDifficulty] end for every [nBits], after at
    most 29 and 226 rounds: the exponent is a byte.  The difficulty is the
    quotient of [0xffff] and the mantissa, multiplied by 256 once for every
    step of the exponent below 29 or divided by 256 once for every step
    above, in this order of operations. *)
Theorem difficulty_closed_form (fuel : nat) (blockindex : PoSBlockIndex)
    (Hfuel : (256 <= fuel)%nat) :
  let nShift := Z.land (Z.shiftr (nBits blockindex) 24) 0xff in
  let dDiff := d_div (d_of_Z 0xffff) (d_of_Z (Z.land (nBits blockindex) 0xffffff)) in
  0 <= nShift <= 255 /\
  GetDifficulty fuel blockindex
  = Some (if nShift <? 29
          then Nat.iter (Z.to_nat (29 - nShift)) (fun d => d_mul d (d_of_Z 256)) dDiff
          else Nat.iter (Z.to_nat (nShift - 29)) (fun d => d_div d (d_of_Z 256)) dDiff).
Proof.
  cbv zeta. split; [apply exponent_range |].
  rewrite (GetDifficulty_closed _ _ Hfuel). reflexivity.
Qed.




End WithFloat.

End EstimatorFacts.

Lemma difficulty_closed_form_witness :
  Estimator.GetDifficulty (F := Sample2.fractions) 256 (Sample2.pos_block 4 1600000096)
  = Some (Nat.iter 0 (fun d => Qdiv d (inject_Z 256))
            (Qdiv (inject_Z 0xffff) (inject_Z 0xffff))).
Proof.
  exact (proj2 (EstimatorFacts.difficulty_closed_form (F := Sample2.fractions) 256
                  (Sample2.pos_block 4 1600000096) (le_n 256))).
Defined.

